(** * FacebookProfiler: the file selector, the chunker and the analysis driver

    A shallow embedding of [src/utils/promptDataSelector.js] and
    [src/utils/profileAnalyzer.js], of [runAllPrompts] of
    [src/components/ProfileAnalysisPage.js], which calls them, and of the
    cloud function [openRouterProxy] the driver sends its requests to.

    Conventions of the embedding.
    - A JavaScript string is the sequence of its UTF-16 code units.  The
      development covers the code units below 256 (Latin-1), one [ascii]
      each, so that [String.length] is the [.length] of the source.
    - A JavaScript object used as a map (the extracted files, the selected
      files) is an association list in [Object.keys] order with pairwise
      distinct keys; the contents are the decoded texts of the archive
      entries, hence strings.
    - The promise-based functions are run to completion: a function that
      may throw returns in a state-and-exception monad; [console] output is
      not part of the state. *)

From Stdlib Require Import String Ascii List Bool Arith NArith ZArith Lia.
From Stdlib Require Import Permutation Sorted DecimalString.
Import ListNotations.

Local Open Scope list_scope.
Local Open Scope string_scope.

(* ================================================================= *)
(** ** JavaScript string primitives used by the sources *)

Module JsString.

(** The line feed of the template literals. *)
Definition LF : string := String "010"%char EmptyString.

Definition len (s : string) : N := N.of_nat (String.length s).

(** [String.prototype.toLowerCase] on one Latin-1 code unit: [A]-[Z] and
    the accented capitals U+00C0..U+00DE (the multiplication sign U+00D7
    apart) move up by 32. *)
Definition lowerChar (c : ascii) : ascii :=
  let n := N_of_ascii c in
  if ((65 <=? n) && (n <=? 90))%N
     || ((192 <=? n) && (n <=? 222) && negb (n =? 215))%N
  then ascii_of_N (n + 32) else c.

Fixpoint mapChars (f : ascii -> ascii) (s : string) : string :=
  match s with
  | EmptyString => EmptyString
  | String c s' => String (f c) (mapChars f s')
  end.

Definition toLowerCase (s : string) : string := mapChars lowerChar s.

(** [s.startsWith(p)] *)
Fixpoint startsWith (s p : string) {struct p} : bool :=
  match p, s with
  | EmptyString, _ => true
  | String _ _, EmptyString => false
  | String a p', String b s' => Ascii.eqb a b && startsWith s' p'
  end.

(** [s.endsWith(p)] *)
Fixpoint endsWith (s p : string) : bool :=
  String.eqb s p
  || match s with
     | EmptyString => false
     | String _ s' => endsWith s' p
     end.

(** [s.includes(p)] *)
Fixpoint includes (s p : string) : bool :=
  startsWith s p
  || match s with
     | EmptyString => false
     | String _ s' => includes s' p
     end.

(** [s.substring(n)] for [0 <= n]. *)
Fixpoint dropChars (n : nat) (s : string) : string :=
  match n, s with
  | O, _ => s
  | S _, EmptyString => EmptyString
  | S n', String _ s' => dropChars n' s'
  end.

(** [s.substring(0, n)] *)
Fixpoint takeChars (n : nat) (s : string) : string :=
  match n, s with
  | O, _ => EmptyString
  | S _, EmptyString => EmptyString
  | S n', String c s' => String c (takeChars n' s')
  end.

(** [s.replace(p, r)] with a string pattern: only the first occurrence
    of [p] is replaced.  [r] is taken literally (the sources pass the
    empty string, which holds no [$] pattern). *)
Fixpoint replaceFirst (s p r : string) : string :=
  if startsWith s p then r ++ dropChars (String.length p) s
  else match s with
       | EmptyString => EmptyString
       | String c s' => String c (replaceFirst s' p r)
       end.

(** [s.replace(/\\/g, '/')] *)
Definition backslashToSlash (c : ascii) : ascii :=
  if Ascii.eqb c "\"%char then "/"%char else c.

(** A string is truthy when it is not empty. *)
Definition truthy (s : string) : bool :=
  match s with EmptyString => false | String _ _ => true end.

(** The decimal rendering of a non-negative integer in a template
    literal. *)
Definition ofN (n : N) : string := NilEmpty.string_of_uint (N.to_uint n).

End JsString.
Import JsString.

(* ================================================================= *)
(** ** promptDataSelector.js *)

(** [normalizePath] *)
Definition normalizePath (path : string) : string :=
  toLowerCase (mapChars backslashToSlash path).

(** [matchesPattern] *)
Definition matchesPattern (filePath pattern : string) : bool :=
  let normalizedFile := normalizePath filePath in
  let normalizedPattern := normalizePath pattern in
  if endsWith normalizedPattern ".json" then
    let basePattern := replaceFirst normalizedPattern ".json" "" in
    let jsonMatch :=
      String.eqb normalizedFile normalizedPattern
      || endsWith normalizedFile ("/" ++ normalizedPattern) in
    let htmlMatch :=
      String.eqb normalizedFile (basePattern ++ ".html")
      || endsWith normalizedFile ("/" ++ basePattern ++ ".html") in
    jsonMatch || htmlMatch
  else
    startsWith normalizedFile (normalizedPattern ++ "/")
    || includes normalizedFile ("/" ++ normalizedPattern ++ "/").

(** The parsed [prompt_config.json]: [data] is [None] when the profile
    carries no [data] field (or a null one), [prompts] likewise. *)
Record PromptSettings := {
  name : string;
  data : option (list string)
}.

Record PromptConfig := {
  prompts : option (list PromptSettings)
}.

(** An object used as a map from path to content. *)
Definition JsObject := list (string * string).

Definition Object_keys (o : JsObject) : list string := map fst o.

(** [o[k]]: the own property, [None] for [undefined]. *)
Fixpoint obj_get (o : JsObject) (k : string) : option string :=
  match o with
  | [] => None
  | (k', v) :: o' => if String.eqb k' k then Some v else obj_get o' k
  end.

(** [o[k] = v]: an existing property keeps its place, a new one goes last. *)
Fixpoint obj_set (o : JsObject) (k v : string) : JsObject :=
  match o with
  | [] => [(k, v)]
  | (k', v') :: o' =>
      if String.eqb k' k then (k', v) :: o' else (k', v') :: obj_set o' k v
  end.

(** [!o[k]] for an own property.  The read [selectedData[file]] of the
    source also sees the properties inherited from [Object.prototype];
    no path that a pattern matches bears one of their names (lemma
    [matched_path_not_inherited]), so the own properties decide. *)
Definition obj_falsy (o : JsObject) (k : string) : bool :=
  match obj_get o k with
  | None => true
  | Some v => negb (truthy v)
  end.

(** The names an object literal inherits. *)
Definition Object_prototype_keys : list string :=
  [ "constructor"; "__defineGetter__"; "__defineSetter__"; "hasOwnProperty";
    "__lookupGetter__"; "__lookupSetter__"; "isPrototypeOf";
    "propertyIsEnumerable"; "toString"; "valueOf"; "__proto__";
    "toLocaleString" ].

Record SelectionResult := {
  selectedData : JsObject;
  usedFiles : list string;
  configFound : bool;
  totalFiles : N;
  selectedCount : option N;
  patterns : option (list string)
}.

(** The early return of [selectDataForPrompt]: everything is used. *)
Definition useAllData (extractedData : JsObject) : SelectionResult :=
  {| selectedData := extractedData;
     usedFiles := Object_keys extractedData;
     configFound := false;
     totalFiles := N.of_nat (List.length (Object_keys extractedData));
     selectedCount := None;
     patterns := None |}.

(** The body of [matchingFiles.forEach]: [sel] is the pair of
    [selectedData] and [usedFiles].  [file] is a key of [extractedData],
    so the read [extractedData[file]] finds it. *)
Definition selectFile (extractedData : JsObject)
    (sel : JsObject * list string) (file : string) : JsObject * list string :=
  if obj_falsy (fst sel) file then
    match obj_get extractedData file with
    | Some content => (obj_set (fst sel) file content, (snd sel ++ [file])%list)
    | None => sel
    end
  else sel.

(** One turn of [for (const pattern of promptSettings.data)]. *)
Definition selectPattern (extractedData : JsObject)
    (sel : JsObject * list string) (pattern : string) : JsObject * list string :=
  let availableFiles := Object_keys extractedData in
  let matchingFiles :=
    filter (fun filePath => matchesPattern filePath pattern) availableFiles in
  fold_left (selectFile extractedData) matchingFiles sel.

(** [selectDataForPrompt]; [promptConfig] is what [loadPromptConfig]
    resolved to ([None] for [null], its answer to every load error). *)
Definition selectDataForPrompt (promptConfig : option PromptConfig)
    (promptName : string) (extractedData : JsObject) : SelectionResult :=
  match promptConfig with
  | None => useAllData extractedData
  | Some cfg =>
    match prompts cfg with
    | None => useAllData extractedData
    | Some ps =>
      match find (fun p => String.eqb (name p) promptName) ps with
      | None => useAllData extractedData
      | Some promptSettings =>
        match data promptSettings with
        | None => useAllData extractedData
        | Some pats =>
            let sel := fold_left (selectPattern extractedData) pats ([], []) in
            {| selectedData := fst sel;
               usedFiles := snd sel;
               configFound := true;
               totalFiles := N.of_nat (List.length (Object_keys extractedData));
               selectedCount := Some (N.of_nat (List.length (snd sel)));
               patterns := Some pats |}
        end
      end
    end
  end.

(* ================================================================= *)
(** ** The JSON built-ins *)

(** [JSON.parse] and [JSON.stringify(_, null, 2)] belong to the JavaScript
    runtime.  The sources only depend on whether [JSON.parse] throws
    ([None]) and on the text [JSON.stringify] gives back; the one fact
    about them kept here is that the empty text is not a JSON document. *)
Class JsonRuntime := {
  JsonValue : Type;
  JSON_parse : string -> option JsonValue;
  JSON_stringify : JsonValue -> string;
  JSON_parse_empty : JSON_parse "" = None
}.

(* ================================================================= *)
(** ** profileAnalyzer.js: the analyzer object and the chunker *)

(** The fields the constructor sets.  [temperature] only travels inside
    the request body and is left out; [prompt] is mutable and lives in
    the run state below. *)
Record ProfileAnalyzer := {
  baseUrl : string;
  model : string;
  MAX_CHUNK_SIZE : N;
  MAX_FILES_PER_CHUNK : N;
  MAX_RETRIES : N;
  RETRY_DELAY : N
}.

(** [new ProfileAnalyzer()] *)
Definition new_ProfileAnalyzer : ProfileAnalyzer :=
  {| baseUrl := "https://openrouter-proxy-456775528821.europe-west1.run.app/";
     model := "google/gemini-2.5-pro";
     MAX_CHUNK_SIZE := 3500000;
     MAX_FILES_PER_CHUNK := 100;
     MAX_RETRIES := 3;
     RETRY_DELAY := 2000 |}.

(** The length above which the content of an HTML file is cut. *)
Definition HTML_LIMIT : N := 50000.

Definition TRUNCATION_NOTICE : string :=
  LF ++ LF ++ "[Content truncated due to length...]".

(** [Object.entries(jsonFiles).sort((a, b) => a[1].length - b[1].length)]:
    the sort of an array is stable, so the result is the one stable
    arrangement by content length, built here by insertion. *)
Fixpoint insertBySize (e : string * string) (l : list (string * string))
  : list (string * string) :=
  match l with
  | [] => [e]
  | x :: l' =>
      if (len (snd e) <=? len (snd x))%N then e :: x :: l'
      else x :: insertBySize e l'
  end.

Definition sortedEntries (jsonFiles : JsObject) : list (string * string) :=
  fold_right insertBySize [] jsonFiles.

Section Chunker.

Context {rt : JsonRuntime}.
Variable this : ProfileAnalyzer.

(** The first half of the [try] block: [formattedContent], or [None]
    when [JSON.parse] throws. *)
Definition formattedContent (filename content : string) : option string :=
  if endsWith (toLowerCase filename) ".json" then
    match JSON_parse content with
    | Some jsonData => Some (JSON_stringify jsonData)
    | None => None
    end
  else if endsWith (toLowerCase filename) ".html" then
    if (HTML_LIMIT <? len content)%N
    then Some (takeChars (N.to_nat HTML_LIMIT) content ++ TRUNCATION_NOTICE)
    else Some content
  else Some content.

Definition entryHeader (filename : string) : string :=
  LF ++ LF ++ "### FILE: " ++ filename ++ LF ++ LF.

(** [fileEntry], when the formatting did not throw. *)
Definition fileEntry (filename content : string) : option string :=
  match formattedContent filename content with
  | Some formatted => Some (entryHeader filename ++ formatted)
  | None => None
  end.

(** The local variables of [processJsonFiles]. *)
Record ChunkerState := {
  chunks : list string;
  currentChunk : string;
  filesInCurrentChunk : N;
  totalFilesDone : N;
  totalChars : N
}.

Definition chunkerStart : ChunkerState :=
  {| chunks := []; currentChunk := ""; filesInCurrentChunk := 0;
     totalFilesDone := 0; totalChars := 0 |}.

(** The test that closes the current chunk. *)
Definition startsNewChunk (st : ChunkerState) (entry : string) : bool :=
  (MAX_CHUNK_SIZE this <? len (currentChunk st) + len entry)%N
  || ((MAX_FILES_PER_CHUNK this <=? filesInCurrentChunk st)%N
      && (0 <? len (currentChunk st))%N).

(** The second half of the [try] block. *)
Definition placeEntry (st : ChunkerState) (entry : string) : ChunkerState :=
  if startsNewChunk st entry then
    {| chunks := (chunks st ++ [currentChunk st])%list;
       currentChunk := entry;
       filesInCurrentChunk := 1;
       totalFilesDone := totalFilesDone st + 1;
       totalChars := totalChars st + len entry |}
  else
    {| chunks := chunks st;
       currentChunk := currentChunk st ++ entry;
       filesInCurrentChunk := filesInCurrentChunk st + 1;
       totalFilesDone := totalFilesDone st + 1;
       totalChars := totalChars st + len entry |}.

(** One turn of the loop: a file whose formatting throws is logged
    and skipped by the [catch]. *)
Definition chunkerStep (st : ChunkerState) (file : string * string)
  : ChunkerState :=
  match fileEntry (fst file) (snd file) with
  | Some entry => placeEntry st entry
  | None => st
  end.

(** After the loop. *)
Definition chunkerFinish (st : ChunkerState) : list string :=
  if (0 <? len (currentChunk st))%N
  then (chunks st ++ [currentChunk st])%list
  else chunks st.

(** [processJsonFiles] *)
Definition processJsonFiles (jsonFiles : JsObject) : list string :=
  chunkerFinish (fold_left chunkerStep (sortedEntries jsonFiles) chunkerStart).

End Chunker.

(* ================================================================= *)
(** ** A JSON runtime to evaluate with *)

(** A recursive-descent reading of the JSON grammar and the indented
    writer of [JSON.stringify(_, null, 2)].  It agrees with ECMAScript on
    the texts that are no JSON at all and on the documents made of
    [null], [true], [false], integers below 2^53 written without
    fraction or exponent, strings over Latin-1 (with the [\u] escape up
    to U+00FF), arrays and objects.  Numbers with a fraction or an
    exponent, larger integers and the other [\u] escapes are outside of
    it: ECMAScript reads them, this reading gives [None].  It is only
    used to evaluate the chunker on inputs inside the fragment; every
    theorem about the chunker holds for any runtime. *)
Module EcmaJson.

#[warnings="-register-all"]
Inductive Json :=
| JNull
| JBool (b : bool)
| JNumber (z : Z)
| JString (s : string)
| JArray (items : list Json)
| JObject (members : list (string * Json)).

Definition DQ : ascii := "034"%char.
Definition BS : ascii := "092"%char.

Definition isWs (c : ascii) : bool :=
  let n := N_of_ascii c in
  ((n =? 32) || (n =? 9) || (n =? 10) || (n =? 13))%N.

Fixpoint skipWs (s : string) : string :=
  match s with
  | EmptyString => EmptyString
  | String c s' => if isWs c then skipWs s' else s
  end.

Definition digitOf (c : ascii) : option N :=
  let n := N_of_ascii c in
  if ((48 <=? n) && (n <=? 57))%N then Some (n - 48)%N else None.

Definition hexOf (c : ascii) : option N :=
  let n := N_of_ascii c in
  if ((48 <=? n) && (n <=? 57))%N then Some (n - 48)%N
  else if ((97 <=? n) && (n <=? 102))%N then Some (n - 87)%N
  else if ((65 <=? n) && (n <=? 70))%N then Some (n - 55)%N
  else None.

(** The digits at the head of [s]: their value and what follows. *)
Fixpoint readDigits (acc : N) (s : string) : N * string :=
  match s with
  | EmptyString => (acc, s)
  | String c s' =>
      match digitOf c with
      | Some d => readDigits (10 * acc + d)%N s'
      | None => (acc, s)
      end
  end.

Definition endsNumber (s : string) : bool :=
  match s with
  | EmptyString => true
  | String c _ =>
      negb (Ascii.eqb c "."%char || Ascii.eqb c "e"%char || Ascii.eqb c "E"%char)
  end.

(** [0] or a digit string that does not start with [0]. *)
Definition readNatural (s : string) : option (N * string) :=
  match s with
  | EmptyString => None
  | String c s' =>
      match digitOf c with
      | None => None
      | Some 0%N => if endsNumber s' then Some (0%N, s') else None
      | Some d =>
          let '(n, r) := readDigits d s' in
          if endsNumber r && (n <? 9007199254740992)%N
          then Some (n, r) else None
      end
  end.

Definition readNumber (s : string) : option (Z * string) :=
  match s with
  | String "-"%char s' =>
      match readNatural s' with
      | Some (n, r) => Some ((- Z.of_N n)%Z, r)
      | None => None
      end
  | _ =>
      match readNatural s with
      | Some (n, r) => Some (Z.of_N n, r)
      | None => None
      end
  end.

Definition unescape (e : ascii) : option ascii :=
  if Ascii.eqb e DQ then Some DQ
  else if Ascii.eqb e BS then Some BS
  else if Ascii.eqb e "/"%char then Some "/"%char
  else if Ascii.eqb e "b"%char then Some "008"%char
  else if Ascii.eqb e "f"%char then Some "012"%char
  else if Ascii.eqb e "n"%char then Some "010"%char
  else if Ascii.eqb e "r"%char then Some "013"%char
  else if Ascii.eqb e "t"%char then Some "009"%char
  else None.

Definition unicodeEscape (h1 h2 h3 h4 : ascii) : option ascii :=
  match hexOf h1, hexOf h2, hexOf h3, hexOf h4 with
  | Some 0%N, Some 0%N, Some a, Some b => Some (ascii_of_N (16 * a + b))
  | _, _, _, _ => None
  end.

Definition consTo (c : ascii) (r : option (string * string))
  : option (string * string) :=
  match r with
  | Some (s, rest) => Some (String c s, rest)
  | None => None
  end.

(** The characters of a string literal after its opening quote. *)
Fixpoint readString (s : string) : option (string * string) :=
  match s with
  | EmptyString => None
  | String c s' =>
      if Ascii.eqb c DQ then Some (EmptyString, s')
      else if Ascii.eqb c BS then
        match s' with
        | String "u"%char (String h1 (String h2 (String h3 (String h4 s'')))) =>
            match unicodeEscape h1 h2 h3 h4 with
            | Some d => consTo d (readString s'')
            | None => None
            end
        | String e s'' =>
            match unescape e with
            | Some d => consTo d (readString s'')
            | None => None
            end
        | EmptyString => None
        end
      else if (N_of_ascii c <? 32)%N then None
      else consTo c (readString s')
  end.

(** [CreateDataProperty] while parsing: a repeated key keeps its place
    and takes the later value. *)
Fixpoint memberSet (ms : list (string * Json)) (k : string) (v : Json)
  : list (string * Json) :=
  match ms with
  | [] => [(k, v)]
  | (k', v') :: ms' =>
      if String.eqb k' k then (k', v) :: ms' else (k', v') :: memberSet ms' k v
  end.

(** A key that is an array index: a canonical decimal below 2^32 - 1. *)
Definition arrayIndex (k : string) : option N :=
  match k with
  | EmptyString => None
  | String _ _ =>
      let '(n, r) := readDigits 0 k in
      if String.eqb r EmptyString && String.eqb (ofN n) k && (n <? 4294967295)%N
      then Some n else None
  end.

Fixpoint insertIndexed (e : N * (string * Json)) (l : list (N * (string * Json)))
  : list (N * (string * Json)) :=
  match l with
  | [] => [e]
  | x :: l' => if (fst e <=? fst x)%N then e :: x :: l' else x :: insertIndexed e l'
  end.

(** The own keys of an object: the array indices in ascending order,
    then the other keys as they were created. *)
Definition ownOrder (ms : list (string * Json)) : list (string * Json) :=
  let indexed :=
    fold_right (fun m acc =>
      match arrayIndex (fst m) with
      | Some n => insertIndexed (n, m) acc
      | None => acc
      end) [] ms in
  let named :=
    filter (fun m => match arrayIndex (fst m) with Some _ => false | None => true end) ms in
  (map snd indexed ++ named)%list.

Definition makeObject (parsed : list (string * Json)) : Json :=
  JObject (ownOrder (fold_left (fun ms m => memberSet ms (fst m) (snd m)) parsed [])).

Fixpoint parseValue (fuel : nat) (s : string) : option (Json * string) :=
  match fuel with
  | O => None
  | S fuel' =>
    match skipWs s with
    | EmptyString => None
    | String c s' as t =>
      if Ascii.eqb c DQ then
        match readString s' with
        | Some (str, r) => Some (JString str, r)
        | None => None
        end
      else if Ascii.eqb c "["%char then
        match skipWs s' with
        | String "]"%char r => Some (JArray [], r)
        | _ =>
            match parseItems fuel' s' with
            | Some (items, r) => Some (JArray items, r)
            | None => None
            end
        end
      else if Ascii.eqb c "{"%char then
        match skipWs s' with
        | String "}"%char r => Some (JObject [], r)
        | _ =>
            match parseMembers fuel' s' with
            | Some (ms, r) => Some (makeObject ms, r)
            | None => None
            end
        end
      else if startsWith t "null" then Some (JNull, dropChars 4 t)
      else if startsWith t "true" then Some (JBool true, dropChars 4 t)
      else if startsWith t "false" then Some (JBool false, dropChars 5 t)
      else
        match readNumber t with
        | Some (z, r) => Some (JNumber z, r)
        | None => None
        end
    end
  end
with parseItems (fuel : nat) (s : string) : option (list Json * string) :=
  match fuel with
  | O => None
  | S fuel' =>
    match parseValue fuel' s with
    | Some (v, r) =>
        match skipWs r with
        | String ","%char r' =>
            match parseItems fuel' r' with
            | Some (vs, r'') => Some (v :: vs, r'')
            | None => None
            end
        | String "]"%char r' => Some ([v], r')
        | _ => None
        end
    | None => None
    end
  end
with parseMembers (fuel : nat) (s : string)
  : option (list (string * Json) * string) :=
  match fuel with
  | O => None
  | S fuel' =>
    match skipWs s with
    | String c s1 =>
      if Ascii.eqb c DQ then
        match readString s1 with
        | Some (k, r) =>
          match skipWs r with
          | String ":"%char r1 =>
            match parseValue fuel' r1 with
            | Some (v, r2) =>
              match skipWs r2 with
              | String ","%char r3 =>
                  match parseMembers fuel' r3 with
                  | Some (ms, r4) => Some ((k, v) :: ms, r4)
                  | None => None
                  end
              | String "}"%char r3 => Some ([(k, v)], r3)
              | _ => None
              end
            | None => None
            end
          | _ => None
          end
        | None => None
        end
      else None
    | EmptyString => None
    end
  end.

(** [JSON.parse(text)]; [None] stands for the [SyntaxError]. *)
Definition parse (text : string) : option Json :=
  match parseValue (2 * String.length text + 2) text with
  | Some (v, r) =>
      match skipWs r with
      | EmptyString => Some v
      | String _ _ => None
      end
  | None => None
  end.

Definition hexDigit (n : N) : ascii :=
  if (n <? 10)%N then ascii_of_N (48 + n) else ascii_of_N (87 + n).

(** [QuoteJSONString] on one code unit. *)
Definition quoteChar (c : ascii) : string :=
  let n := N_of_ascii c in
  if Ascii.eqb c DQ then String BS (String DQ EmptyString)
  else if Ascii.eqb c BS then String BS (String BS EmptyString)
  else if (n =? 8)%N then String BS "b"
  else if (n =? 12)%N then String BS "f"
  else if (n =? 10)%N then String BS "n"
  else if (n =? 13)%N then String BS "r"
  else if (n =? 9)%N then String BS "t"
  else if (n <? 32)%N then
    String BS ("u00" ++ String (hexDigit (n / 16)) (String (hexDigit (n mod 16)) EmptyString))
  else String c EmptyString.

Fixpoint quoteChars (s : string) : string :=
  match s with
  | EmptyString => EmptyString
  | String c s' => quoteChar c ++ quoteChars s'
  end.

Definition quote (s : string) : string :=
  String DQ (quoteChars s ++ String DQ EmptyString).

Definition numberText (z : Z) : string :=
  if (z <? 0)%Z then "-" ++ ofN (Z.to_N (- z)) else ofN (Z.to_N z).

(** [SerializeJSONProperty] with the gap of two spaces. *)
Fixpoint stringifyAt (indent : string) (j : Json) : string :=
  match j with
  | JNull => "null"
  | JBool true => "true"
  | JBool false => "false"
  | JNumber z => numberText z
  | JString s => quote s
  | JArray [] => "[]"
  | JArray items =>
      let inner := indent ++ "  " in
      "[" ++ LF ++ inner
      ++ String.concat ("," ++ LF ++ inner) (map (stringifyAt inner) items)
      ++ LF ++ indent ++ "]"
  | JObject [] => "{}"
  | JObject members =>
      let inner := indent ++ "  " in
      "{" ++ LF ++ inner
      ++ String.concat ("," ++ LF ++ inner)
           (map (fun m => let '(k, v) := m in quote k ++ ": " ++ stringifyAt inner v)
                members)
      ++ LF ++ indent ++ "}"
  end.

Definition stringify (j : Json) : string := stringifyAt "" j.

End EcmaJson.

#[export] Instance ecmaJson : JsonRuntime := {|
  JsonValue := EcmaJson.Json;
  JSON_parse := EcmaJson.parse;
  JSON_stringify := EcmaJson.stringify;
  JSON_parse_empty := eq_refl
|}.

(* ================================================================= *)
(** ** profileAnalyzer.js: the analysis driver *)

(** What a [throw] carries: an [Error] with its message, or [null] (the
    initial [lastError] of [generateProfile]). *)
Inductive Thrown :=
| ThrownError (message : string)
| ThrownNull.

(** The part of a JSON response body the driver reads.  [NoChoices]: the
    [choices] field is missing, null or an empty array.  [FirstChoice]:
    [choices[0].message.content] is this text.  [BrokenChoice]: reading
    [choices] off the data, that field or its [length] throws the
    [TypeError] with this message. *)
Inductive ChoicesField :=
| NoChoices
| FirstChoice (content : string)
| BrokenChoice (typeError : string).

(** What [response.json()] comes to: a rejection with its message, or the
    data, given by its [JSON.stringify] text and its [choices]. *)
Inductive JsonBody :=
| BodyRejected (syntaxError : string)
| BodyData (text : string) (choices : ChoicesField).

Record Response := {
  ok : bool;
  status : N;
  statusText : string;
  body : JsonBody
}.

Inductive FetchOutcome :=
| FetchFailed (message : string)
| FetchResponse (r : Response).

(** The surroundings of a run: what the n-th call of [fetch] on a request
    content comes to, what the n-th call of [loadPrompt] comes to (the
    message of the error it throws, or the prompt text it stores), and
    the n-th reading of [Date.now()]. *)
Record World := {
  fetch : nat -> string -> FetchOutcome;
  loadPrompt : nat -> string + string;
  Date_now : nat -> Z
}.

(** The mutable state of a run: [this.prompt] and the calls made so far;
    [sleeps] lists the delays slept, in order. *)
Record RunState := {
  prompt : option string;
  fetchCalls : nat;
  promptLoads : nat;
  clockReads : nat;
  sleeps : list N
}.

Definition initialState : RunState :=
  {| prompt := None; fetchCalls := 0; promptLoads := 0; clockReads := 0;
     sleeps := [] |}.

(** Computations that read and change the state and may throw. *)
Definition M (A : Type) : Type := RunState -> (Thrown + A) * RunState.

Definition ret {A} (a : A) : M A := fun st => (inr a, st).

Definition throw {A} (e : Thrown) : M A := fun st => (inl e, st).

Definition bind {A B} (m : M A) (k : A -> M B) : M B :=
  fun st =>
    match m st with
    | (inr a, st') => k a st'
    | (inl e, st') => (inl e, st')
    end.

(** [try { m } catch (e) { ... }], handing the outcome to the caller. *)
Definition tryCatch {A} (m : M A) : M (Thrown + A) :=
  fun st => let '(r, st') := m st in (inr r, st').

Notation "x <- m ;; k" := (bind m (fun x => k))
  (at level 61, m at next level, right associativity).
Notation "m ;;; k" := (bind m (fun _ => k))
  (at level 61, right associativity).

(** [split(/\s+/).length]: one more than the number of maximal runs of
    white space. *)
Definition isSpace (c : ascii) : bool :=
  let n := N_of_ascii c in
  (((9 <=? n) && (n <=? 13)) || (n =? 32) || (n =? 160))%N.

Fixpoint spaceRuns (inRun : bool) (s : string) : N :=
  match s with
  | EmptyString => 0
  | String c s' =>
      if isSpace c
      then ((if inRun then 0 else 1) + spaceRuns true s')%N
      else spaceRuns false s'
  end.

Definition splitCount (s : string) : N := (1 + spaceRuns false s)%N.

Record Stats := {
  filesProcessed : N;
  chunksProcessed : N;
  chunksSuccessful : Z;
  chunksFailed : list N;
  duration_ms : Z;
  profileLength : N;
  wordCount : N
}.

(** The object [analyzeProfile] resolves to; [profile = None] is [null],
    [error = None] and [stats = None] are absent fields.  [duration] is
    [duration_ms / 1000]. *)
Record AnalysisResult := {
  success : bool;
  profile : option string;
  error : option string;
  stats : option Stats
}.

(** The state after one more call of [fetch], after a sleep, and after
    one more reading of the clock. *)
Definition afterFetch (st : RunState) : RunState :=
  {| prompt := prompt st; fetchCalls := S (fetchCalls st);
     promptLoads := promptLoads st; clockReads := clockReads st;
     sleeps := sleeps st |}.

Definition afterSleep (ms : N) (st : RunState) : RunState :=
  {| prompt := prompt st; fetchCalls := fetchCalls st;
     promptLoads := promptLoads st; clockReads := clockReads st;
     sleeps := (sleeps st ++ [ms])%list |}.

Definition afterClock (st : RunState) : RunState :=
  {| prompt := prompt st; fetchCalls := fetchCalls st;
     promptLoads := promptLoads st; clockReads := S (clockReads st);
     sleeps := sleeps st |}.

Section Driver.

Context {rt : JsonRuntime}.
Variable W : World.
Variable this : ProfileAnalyzer.

(** [await this.loadPrompt()] *)
Definition callLoadPrompt : M string :=
  fun st =>
    let st' := {| prompt := prompt st; fetchCalls := fetchCalls st;
                  promptLoads := S (promptLoads st);
                  clockReads := clockReads st; sleeps := sleeps st |} in
    match loadPrompt W (promptLoads st) with
    | inl message => (inl (ThrownError message), st')
    | inr text =>
        (inr text,
         {| prompt := Some text; fetchCalls := fetchCalls st;
            promptLoads := S (promptLoads st);
            clockReads := clockReads st; sleeps := sleeps st |})
    end.

(** [if (!this.prompt) await this.loadPrompt()], then [this.prompt]. *)
Definition ensurePrompt : M string :=
  fun st =>
    match prompt st with
    | Some p => if truthy p then (inr p, st) else callLoadPrompt st
    | None => callLoadPrompt st
    end.

Definition sleep (ms : N) : M unit :=
  fun st => (inr tt, afterSleep ms st).

Definition dateNow : M Z :=
  fun st => (inr (Date_now W (clockReads st)), afterClock st).

Definition positionNote (chunkIndex totalChunks : N) : string :=
  if (chunkIndex =? 0)%N then
    "This is the first chunk. Focus on understanding the data structure."
  else if (chunkIndex =? totalChunks - 1)%N then
    "This is the last chunk. Provide a complete psychological profile based on all data you've analyzed."
  else "This is a middle chunk. Continue analyzing the data.".

Definition promptContent (p : string) (chunkIndex totalChunks : N) : string :=
  if (1 <? totalChunks)%N then
    p ++ LF ++ LF ++ "NOTE: This is part " ++ ofN (chunkIndex + 1) ++ " of "
      ++ ofN totalChunks ++ " data chunks. " ++ positionNote chunkIndex totalChunks
  else p.

(** [requestBody.messages[0].content] *)
Definition requestContent (p data : string) (chunkIndex totalChunks : N)
  : string :=
  promptContent p chunkIndex totalChunks ++ LF ++ LF ++ "---" ++ LF ++ LF
    ++ "FACEBOOK DATA (CHUNK " ++ ofN (chunkIndex + 1) ++ "/"
    ++ ofN totalChunks ++ "):" ++ LF ++ data.

(** What one pass through the [try] block of the retry loop comes to,
    given what [fetch] came to. *)
Definition readOutcome (o : FetchOutcome) : Thrown + string :=
  match o with
  | FetchFailed message => inl (ThrownError message)
  | FetchResponse r =>
      if negb (ok r) then
        let errorMessage :=
          "Status: " ++ ofN (status r) ++ " - "
          ++ match body r with
             | BodyData text _ => text
             | BodyRejected _ => statusText r
             end in
        inl (ThrownError ("OpenRouter API error: " ++ errorMessage))
      else
        match body r with
        | BodyRejected e => inl (ThrownError e)
        | BodyData _ NoChoices =>
            inl (ThrownError "No choices returned from OpenRouter API")
        | BodyData _ (BrokenChoice e) => inl (ThrownError e)
        | BodyData _ (FirstChoice generatedText) => inr generatedText
        end
  end.

(** The [try] block of the retry loop, its outcome handed to the
    [catch]. *)
Definition attempt (content : string) : M (Thrown + string) :=
  fun st => (inr (readOutcome (fetch W (fetchCalls st) content)), afterFetch st).

(** [while (retries <= this.MAX_RETRIES)] and the [throw lastError]
    behind it.  [turns] counts the turns the loop can still take,
    [MAX_RETRIES + 1 - retries]: the loop test holds as long as it is
    positive. *)
Fixpoint retryLoop (turns : nat) (content : string) (retries : N)
    (lastError : Thrown) : M string :=
  match turns with
  | O => throw lastError
  | S turns' =>
      if (retries <=? MAX_RETRIES this)%N then
        r <- attempt content ;;
        match r with
        | inr generatedText => ret generatedText
        | inl error =>
            let retries := (retries + 1)%N in
            if (retries <=? MAX_RETRIES this)%N then
              let delay := (RETRY_DELAY this * 2 ^ (retries - 1))%N in
              sleep delay ;;;
              retryLoop turns' content retries error
            else throw error
        end
      else throw lastError
  end.

(** [generateProfile] *)
Definition generateProfile (data : string) (chunkIndex totalChunks : N)
  : M string :=
  p <- ensurePrompt ;;
  retryLoop (S (N.to_nat (MAX_RETRIES this)))
    (requestContent p data chunkIndex totalChunks) 0 ThrownNull.

(** The loop of the multi-chunk case from chunk [i] on; [acc] is the
    pair of [combinedProfile] and [failedChunks]. *)
Fixpoint chunkLoop (total i : N) (rest : list string)
    (acc : string * list N) : M (string * list N) :=
  match rest with
  | [] => ret acc
  | chunk :: rest' =>
      r <- tryCatch (generateProfile chunk i total) ;;
      chunkLoop total (i + 1) rest'
        match r with
        | inr chunkProfile =>
            if (i =? 0)%N then (chunkProfile, snd acc)
            else if (i =? total - 1)%N then (chunkProfile, snd acc)
            else acc
        | inl _ => (fst acc, (snd acc ++ [(i + 1)%N])%list)
        end
  end.

(** The object the [try] block of [analyzeProfile] returns. *)
Definition analysisResult (jsonFiles : JsObject) (dataChunks : list string)
    (combinedProfile : string) (failedChunks : list N) (startTime endTime : Z)
  : AnalysisResult :=
  {| success :=
       (N.of_nat (List.length failedChunks) =? 0)%N
       || (0 <? len combinedProfile)%N;
     profile := Some combinedProfile;
     error := None;
     stats := Some
       {| filesProcessed := N.of_nat (List.length (Object_keys jsonFiles));
          chunksProcessed := N.of_nat (List.length dataChunks);
          chunksSuccessful :=
            (Z.of_nat (List.length dataChunks)
             - Z.of_nat (List.length failedChunks))%Z;
          chunksFailed := failedChunks;
          duration_ms := (endTime - startTime)%Z;
          profileLength := len combinedProfile;
          wordCount := splitCount combinedProfile |} |}.

(** The [try] block of [analyzeProfile]. *)
Definition analyzeBody (jsonFiles : JsObject) : M AnalysisResult :=
  startTime <- dateNow ;;
  let dataChunks := processJsonFiles this jsonFiles in
  r <- match dataChunks with
       | [] => throw (ThrownError "No valid data chunks to process")
       | [chunk] => p <- generateProfile chunk 0 1 ;; ret (p, [])
       | _ => chunkLoop (N.of_nat (List.length dataChunks)) 0 dataChunks ("", [])
       end ;;
  endTime <- dateNow ;;
  ret (analysisResult jsonFiles dataChunks (fst r) (snd r) startTime endTime).

(** The message of the [TypeError] that reading [null.message] throws. *)
Definition NULL_MESSAGE : string :=
  "Cannot read properties of null (reading 'message')".

(** [analyzeProfile]: the [try] block and its [catch], which reads
    [error.message]. *)
Definition analyzeProfile (jsonFiles : JsObject) : M AnalysisResult :=
  fun st =>
    match analyzeBody jsonFiles st with
    | (inr result, st') => (inr result, st')
    | (inl (ThrownError message), st') =>
        (inr {| success := false; profile := None;
                error := Some message; stats := None |}, st')
    | (inl ThrownNull, st') => (inl (ThrownError NULL_MESSAGE), st')
    end.

End Driver.

(* ================================================================= *)
(** ** promptDataSelector.js: loading the configuration *)

(** What [fetch('/prompt_config.json')] comes to: a rejection, or a
    response with its [ok] flag and [statusText], whose [json()] either
    rejects with a message or gives the parsed document ([None] when the
    document is [null]). *)
Inductive ConfigOutcome :=
| ConfigFetchFailed (message : string)
| ConfigResponse (ok : bool) (statusText : string)
    (json : string + option PromptConfig).

(** [loadPromptConfig]: every error is caught and answered by [null]. *)
Definition loadPromptConfig (o : ConfigOutcome) : option PromptConfig :=
  match o with
  | ConfigFetchFailed _ => None
  | ConfigResponse ok _ json =>
      if negb ok then None
      else match json with
           | inl _ => None
           | inr config => config
           end
  end.

(** [getAvailablePrompts], on what [loadPromptConfig] resolved to. *)
Definition getAvailablePrompts (promptConfig : option PromptConfig)
  : list string :=
  match promptConfig with
  | None => []
  | Some cfg =>
      match prompts cfg with
      | None => []
      | Some ps => map name ps
      end
  end.

(* ================================================================= *)
(** ** ProfileAnalysisPage.js: running all prompts *)

(** An entry of [results]: [{promptName, profile, stats, dataCount}] for
    an analysis that succeeded, [{promptName, error, dataCount}] for one
    that did not; [error = None] is [undefined]. *)
Inductive ResultEntry :=
| ProfileEntry (promptName : string) (profile : option string)
    (stats : option Stats) (dataCount : N)
| ErrorEntry (promptName : string) (error : option string) (dataCount : N).

(** The value of [progress]: the initial [0], or
    [((i + 1) / prompts.length) * 100] kept as the pair of [i + 1] and
    [prompts.length]. *)
Inductive Progress :=
| ProgressZero
| ProgressOf (done total : N).

(** The state variables of the page; [pageError] is the variable
    [error]. *)
Record PageState := {
  isAnalyzing : bool;
  analysisResults : list ResultEntry;
  pageError : option string;
  currentPrompt : string;
  progress : Progress;
  completedPrompts : N
}.

Definition setIsAnalyzing (v : bool) (page : PageState) : PageState :=
  {| isAnalyzing := v; analysisResults := analysisResults page;
     pageError := pageError page; currentPrompt := currentPrompt page;
     progress := progress page; completedPrompts := completedPrompts page |}.

Definition setAnalysisResults (v : list ResultEntry) (page : PageState)
  : PageState :=
  {| isAnalyzing := isAnalyzing page; analysisResults := v;
     pageError := pageError page; currentPrompt := currentPrompt page;
     progress := progress page; completedPrompts := completedPrompts page |}.

Definition setError (v : option string) (page : PageState) : PageState :=
  {| isAnalyzing := isAnalyzing page; analysisResults := analysisResults page;
     pageError := v; currentPrompt := currentPrompt page;
     progress := progress page; completedPrompts := completedPrompts page |}.

Definition setCurrentPrompt (v : string) (page : PageState) : PageState :=
  {| isAnalyzing := isAnalyzing page; analysisResults := analysisResults page;
     pageError := pageError page; currentPrompt := v;
     progress := progress page; completedPrompts := completedPrompts page |}.

Definition setProgress (v : Progress) (page : PageState) : PageState :=
  {| isAnalyzing := isAnalyzing page; analysisResults := analysisResults page;
     pageError := pageError page; currentPrompt := currentPrompt page;
     progress := v; completedPrompts := completedPrompts page |}.

Definition setCompletedPrompts (v : N) (page : PageState) : PageState :=
  {| isAnalyzing := isAnalyzing page; analysisResults := analysisResults page;
     pageError := pageError page; currentPrompt := currentPrompt page;
     progress := progress page; completedPrompts := v |}.

(** What [await selectDataForPrompt(prompt.name, jsonData)] finds in a
    turn of the loop, which loads the configuration once.  Either the
    loading comes to what a [ConfigOutcome] tells; or the document parses
    but has not the shape the selector reads it with (a [prompts] that is
    no array, a [null] among the profiles before the one asked for, a
    [data] that cannot be iterated, a pattern that is no string) and the
    selector throws the [TypeError] of this message.  A document of
    another shape than a [PromptConfig] on which nothing is thrown
    selects the files that one does: profiles without a string [name] are
    passed over, a falsy [data] is an absent one, and a [data] that is a
    string is the list of its characters. *)
Inductive ConfigTurn :=
| ConfigLoaded (o : ConfigOutcome)
| ConfigIllShaped (typeError : string).

Section Page.

Context {rt : JsonRuntime}.

(** The surroundings of the analyzer, and what the configuration comes
    to in the [i]-th turn of the loop. *)
Variable W : World.
Variable config : nat -> ConfigTurn.

(** The analyzer of the page, [new ProfileAnalyzer()] kept by
    [useMemo]. *)
Variable this : ProfileAnalyzer.

(** The entry pushed for a result. *)
Definition resultEntry (promptName : string) (result : AnalysisResult)
    (selectedData : JsObject) : ResultEntry :=
  if success result then
    ProfileEntry promptName (profile result) (stats result)
      (N.of_nat (List.length (Object_keys selectedData)))
  else
    ErrorEntry promptName (error result)
      (N.of_nat (List.length (Object_keys selectedData))).

(** The [for] loop of [runAllPrompts] from the turn [i] on; a prompt is
    given by its [name], the only field read.  What the selector throws
    leaves the loop, like what the loading of the prompt throws.
    [selectedData] of a selection result is an object, hence truthy, and
    is what [selectionResult.selectedData || selectionResult] evaluates
    to. *)
Fixpoint promptLoop (jsonData : JsObject) (total : N) (i : nat)
    (rest : list string) (results : list ResultEntry) (page : PageState)
    (st : RunState) : (Thrown + list ResultEntry) * PageState * RunState :=
  match rest with
  | [] => (inr results, page, st)
  | promptName :: rest' =>
      let page := setCurrentPrompt promptName page in
      match config i with
      | ConfigIllShaped typeError => (inl (ThrownError typeError), page, st)
      | ConfigLoaded o =>
          let selectionResult :=
            selectDataForPrompt (loadPromptConfig o) promptName jsonData in
          let selectedData := selectedData selectionResult in
          match callLoadPrompt W st with
          | (inl err, st) => (inl err, page, st)
          | (inr _, st) =>
              match analyzeProfile W this selectedData st with
              | (inl err, st) => (inl err, page, st)
              | (inr result, st) =>
                  let results :=
                    (results ++ [resultEntry promptName result selectedData])%list in
                  let page := setCompletedPrompts (N.of_nat i + 1) page in
                  let page :=
                    setProgress (ProgressOf (N.of_nat i + 1) total) page in
                  promptLoop jsonData total (S i) rest' results page st
              end
          end
      end
  end.

(** [runAllPrompts]: [jsonData] and [prompts] are [None] when [null] or
    [undefined].  The outcome is [inl] when the handler rejects. *)
Definition runAllPrompts (jsonData : option JsObject)
    (prompts : option (list string)) (page : PageState) (st : RunState)
  : (Thrown + unit) * PageState * RunState :=
  let noData := (inr tt, setError (Some "No data available for analysis") page, st) in
  let noPrompts := (inr tt, setError (Some "No prompts available") page, st) in
  match jsonData with
  | None => noData
  | Some data =>
      if (N.of_nat (List.length (Object_keys data)) =? 0)%N then noData
      else
        match prompts with
        | None => noPrompts
        | Some names =>
            if (N.of_nat (List.length names) =? 0)%N then noPrompts
            else
              let page := setIsAnalyzing true page in
              let page := setError None page in
              let page := setAnalysisResults [] page in
              let page := setProgress ProgressZero page in
              let page := setCompletedPrompts 0 page in
              let '(r, page, st) :=
                promptLoop data (N.of_nat (List.length names)) 0 names [] page st in
              let '(outcome, page) :=
                match r with
                | inr results => (inr tt, setAnalysisResults results page)
                | inl (ThrownError message) =>
                    (inr tt, setError (Some message) page)
                | inl ThrownNull => (inl (ThrownError NULL_MESSAGE), page)
                end in
              (outcome, setCurrentPrompt "" (setIsAnalyzing false page), st)
        end
  end.

End Page.

(* ================================================================= *)
(** ** The cloud function behind [baseUrl]: openRouterProxy *)

(** What is sent: [res.send(text)], [res.json({error})], or
    [res.json(data)] with the data given by its JSON text. *)
Inductive Payload :=
| SendText (text : string)
| JsonError (error : string)
| JsonData (data : string).

(** The answer of the function: the headers set, in order, the status
    and what is sent. *)
Record ProxyAnswer := {
  headers : list (string * string);
  statusCode : N;
  sent : Payload
}.

(** What the forwarded request comes to: [fetch] rejects, or it resolves
    to a response with its status, whose [json()] rejects with a message
    or gives the data, by its JSON text. *)
Inductive Upstream :=
| UpstreamFailed (message : string)
| UpstreamResponse (upstreamStatus : N) (json : string + string).

(** [exports.openRouterProxy]: [method] is [req.method], [body] the JSON
    text of [req.body], [apiKey] the environment variable ([None] when
    unset), [upstream] what forwarding a request with an [Authorization]
    header and a body comes to.  The result tells the answer and, when a
    request was forwarded, its [Authorization] header and body. *)
Definition openRouterProxy (method body : string) (apiKey : option string)
    (upstream : string -> string -> Upstream)
  : ProxyAnswer * option (string * string) :=
  let cors := [("Access-Control-Allow-Origin", "*")] in
  if String.eqb method "OPTIONS" then
    ({| headers := (cors ++ [("Access-Control-Allow-Methods", "POST");
                             ("Access-Control-Allow-Headers", "Content-Type");
                             ("Access-Control-Max-Age", "3600")])%list;
        statusCode := 204; sent := SendText "" |}, None)
  else if negb (String.eqb method "POST") then
    ({| headers := cors; statusCode := 405; sent := SendText "Method Not Allowed" |},
     None)
  else
    match apiKey with
    | Some key =>
        if truthy key then
          let authorization := "Bearer " ++ key in
          (match upstream authorization body with
           | UpstreamResponse _ (inr data) =>
               {| headers := cors; statusCode := 200; sent := JsonData data |}
           | UpstreamResponse _ (inl message) =>
               {| headers := cors; statusCode := 500; sent := JsonError message |}
           | UpstreamFailed message =>
               {| headers := cors; statusCode := 500; sent := JsonError message |}
           end, Some (authorization, body))
        else
          ({| headers := cors; statusCode := 500;
              sent := JsonError "API key not configured" |}, None)
    | None =>
        ({| headers := cors; statusCode := 500;
            sent := JsonError "API key not configured" |}, None)
    end.

(* ================================================================= *)
(** * The vocabulary of the properties *)

(** ** On selections *)

(** What failing open means for a result. *)
Definition failsOpen (r : SelectionResult) (extractedData : JsObject) : Prop :=
  selectedData r = extractedData
  /\ usedFiles r = Object_keys extractedData
  /\ configFound r = false.

(** Whatever the contents, the keys of [selectedData] stay pairwise
    distinct, every selected file has been pushed on [usedFiles], and
    only keys of the extracted data are used. *)
Definition selectionSound (extractedData : JsObject)
    (sel : JsObject * list string) : Prop :=
  NoDup (Object_keys (fst sel))
  /\ incl (Object_keys (fst sel)) (snd sel)
  /\ incl (snd sel) (Object_keys extractedData).

(** With non-empty contents the two lists of paths coincide. *)
Definition selectionExact (sel : JsObject * list string) : Prop :=
  Object_keys (fst sel) = snd sel
  /\ NoDup (snd sel)
  /\ Forall (fun kv => truthy (snd kv) = true) (fst sel).

(** ** On chunks *)

(** The order the files are sorted by. *)
Definition bySize (a b : string * string) : Prop := (len (snd a) <= len (snd b))%N.

(** The formatted entries of the files whose formatting does not throw,
    in the order of the files. *)
Definition entriesOf {rt : JsonRuntime} (files : list (string * string))
  : list string :=
  flat_map (fun file =>
              match fileEntry (fst file) (snd file) with
              | Some entry => [entry]
              | None => []
              end) files.

(** The state of the chunker read as groups of entries: [gs] are the
    entries of the closed chunks, [cur] those of the open one. *)
Definition Grouped (st : ChunkerState) (gs : list (list string))
    (cur : list string) : Prop :=
  chunks st = map (String.concat "") gs
  /\ currentChunk st = String.concat "" cur
  /\ Forall (fun e => e <> "") cur.

(** The reading by groups with the file counter: the counter is the
    number of entries of the open chunk, and no group is larger than the
    limit, one entry being always allowed. *)
Definition Counted (this : ProfileAnalyzer) (st : ChunkerState)
    (gs : list (list string)) (cur : list string) : Prop :=
  Grouped st gs cur
  /\ filesInCurrentChunk st = N.of_nat (List.length cur)
  /\ Forall (fun g => (N.of_nat (List.length g)
                       <= N.max 1 (MAX_FILES_PER_CHUNK this))%N) (gs ++ [cur])%list.

(** A chunk is within the budget, or it is one entry that alone goes
    over it. *)
Definition withinBudget (this : ProfileAnalyzer) (E : string -> Prop)
    (c : string) : Prop :=
  (len c <= MAX_CHUNK_SIZE this)%N
  \/ ((MAX_CHUNK_SIZE this < len c)%N /\ E c).

(** ** On submissions and runs *)

(** What the [n]-th call of [fetch] on [content] makes of the [try]
    block. *)
Definition outcomeAt (W : World) (content : string) (n : nat)
  : Thrown + string :=
  readOutcome (fetch W n content).

(** The delays [RETRY_DELAY * 2^j] for [j = from, ..., from + k - 1]. *)
Definition backoff (this : ProfileAnalyzer) (from k : nat) : list N :=
  map (fun j => (RETRY_DELAY this * 2 ^ N.of_nat j)%N) (seq from k).

(** What the submissions of the chunks [rest], numbered from [i], come
    to when made in order from the state [st]. *)
Fixpoint chunkResults (W : World) (this : ProfileAnalyzer) (total i : N)
    (rest : list string) (st : RunState) : list (Thrown + string) :=
  match rest with
  | [] => []
  | chunk :: rest' =>
      fst (generateProfile W this chunk i total st)
      :: chunkResults W this total (i + 1) rest'
           (snd (generateProfile W this chunk i total st))
  end.

(** What the multi-chunk loop makes of those results. *)
Fixpoint accumulate (total i : N) (rs : list (Thrown + string))
    (acc : string * list N) : string * list N :=
  match rs with
  | [] => acc
  | r :: rs' =>
      accumulate total (i + 1) rs'
        match r with
        | inr chunkProfile =>
            if (i =? 0)%N then (chunkProfile, snd acc)
            else if (i =? total - 1)%N then (chunkProfile, snd acc)
            else acc
        | inl _ => (fst acc, (snd acc ++ [(i + 1)%N])%list)
        end
  end.

(** The numbers, counted from [i + 1], of the submissions that failed. *)
Fixpoint failedFrom (i : N) (rs : list (Thrown + string)) : list N :=
  match rs with
  | [] => []
  | inl _ :: rs' => (i + 1)%N :: failedFrom (i + 1) rs'
  | inr _ :: rs' => failedFrom (i + 1) rs'
  end.

(** The output that is kept: that of the last chunk when its submission
    succeeded, else that of the first chunk when its submission
    succeeded, else the empty text. *)
Definition keptOutput (rs : list (Thrown + string)) : string :=
  match last rs (inl ThrownNull) with
  | inr out => out
  | inl _ =>
      match rs with
      | inr out :: _ => out
      | _ => ""
      end
  end.

(** The output of the last chunk whose submission succeeded. *)
Fixpoint lastSuccessful (rs : list (Thrown + string)) : option string :=
  match rs with
  | [] => None
  | r :: rs' =>
      match lastSuccessful rs' with
      | Some out => Some out
      | None => match r with inr out => Some out | inl _ => None end
      end
  end.

(** [this.prompt] is set and not empty. *)
Definition promptReady (st : RunState) : bool :=
  match prompt st with
  | Some p => truthy p
  | None => false
  end.

(** The time slept in all. *)
Definition totalSleep (delays : list N) : N := fold_right N.add 0%N delays.

(** The longest one submission sleeps: [RETRY_DELAY * (2^MAX_RETRIES - 1)]. *)
Definition maxBackoff (this : ProfileAnalyzer) : N :=
  (RETRY_DELAY this * (2 ^ MAX_RETRIES this - 1))%N.

(** What [n] submissions made between the states [st] and [st'] cost at
    most: they do not read the clock, make at most [MAX_RETRIES + 1]
    requests each, sleep at most [maxBackoff] each, and load the prompt
    at most once each, and not at all when it is ready. *)
Definition Spent (this : ProfileAnalyzer) (n : nat) (st st' : RunState) : Prop :=
  clockReads st' = clockReads st
  /\ (fetchCalls st <= fetchCalls st'
      <= fetchCalls st + n * (N.to_nat (MAX_RETRIES this) + 1))%nat
  /\ (exists slept,
        sleeps st' = (sleeps st ++ slept)%list
        /\ (totalSleep slept <= N.of_nat n * maxBackoff this)%N)
  /\ (promptLoads st <= promptLoads st' <= promptLoads st + n)%nat
  /\ (promptReady st = true ->
      promptLoads st' = promptLoads st /\ prompt st' = prompt st).

(** ** On the page *)

(** The prompt an entry of the results is for. *)
Definition entryName (entry : ResultEntry) : string :=
  match entry with
  | ProfileEntry promptName _ _ _ => promptName
  | ErrorEntry promptName _ _ => promptName
  end.

(** A page before any run. *)
Definition freshPage : PageState :=
  {| isAnalyzing := false; analysisResults := []; pageError := None;
     currentPrompt := ""; progress := ProgressZero; completedPrompts := 0 |}.

(** ** On the cloud function *)

(** An upstream outcome with another status. *)
Definition withStatus (status : N) (u : Upstream) : Upstream :=
  match u with
  | UpstreamFailed message => UpstreamFailed message
  | UpstreamResponse _ json => UpstreamResponse status json
  end.

(** ** Inputs and worlds to evaluate on *)

(** [c] repeated [n] times. *)
Fixpoint repeatChar (c : ascii) (n : nat) : string :=
  match n with
  | O => EmptyString
  | S n' => String c (repeatChar c n')
  end.

(** An HTML page of 50000 letters followed by the very text of the
    notice. *)
Definition paddedPage : string :=
  repeatChar "a" (N.to_nat HTML_LIMIT) ++ TRUNCATION_NOTICE.

(** An HTML page of 50000 letters followed by a closing tag. *)
Definition longPage : string :=
  repeatChar "a" (N.to_nat HTML_LIMIT) ++ "</p>".

(** An analyzer with the budget of 15 characters and 10 files. *)
Definition smallBudget : ProfileAnalyzer :=
  {| baseUrl := baseUrl new_ProfileAnalyzer;
     model := model new_ProfileAnalyzer;
     MAX_CHUNK_SIZE := 15;
     MAX_FILES_PER_CHUNK := 10;
     MAX_RETRIES := 3;
     RETRY_DELAY := 2000 |}.

(** 201 small pages: with at most 100 files in a chunk they make three
    chunks. *)
Definition manyPages : JsObject :=
  map (fun i => ("page" ++ ofN (N.of_nat i) ++ ".html", "<p></p>")) (seq 0 201).

(** A response that carries [text] as the model's output. *)
Definition answer (text : string) : FetchOutcome :=
  FetchResponse {| ok := true; status := 200; statusText := "OK";
                   body := BodyData "{}" (FirstChoice text) |}.

(** The first two requests are answered, every later one is rejected. *)
Definition lastChunkFails : World :=
  {| fetch := fun n _ =>
       match n with
       | 0%nat => answer "A"
       | 1%nat => answer "B"
       | _ => FetchFailed "Failed to fetch"
       end;
     loadPrompt := fun _ => inr "Describe the person.";
     Date_now := fun n => (1000 * Z.of_nat n)%Z |}.

(** The first request is answered, the next four are rejected, the
    later ones are answered. *)
Definition secondChunkFails : World :=
  {| fetch := fun n _ =>
       match n with
       | 0%nat => answer "A"
       | 1%nat | 2%nat | 3%nat | 4%nat => FetchFailed "Failed to fetch"
       | _ => answer "C"
       end;
     loadPrompt := fun _ => inr "Describe the person.";
     Date_now := fun n => (1000 * Z.of_nat n)%Z |}.

(** Every request is rejected. *)
Definition offline : World :=
  {| fetch := fun _ _ => FetchFailed "Failed to fetch";
     loadPrompt := fun _ => inr "Describe the person.";
     Date_now := fun n => (1000 * Z.of_nat n)%Z |}.

(** The prompt is loaded once, every later loading fails. *)
Definition promptLoadsOnce : World :=
  {| fetch := fun _ _ => answer "A";
     loadPrompt := fun n =>
       match n with
       | 0%nat => inr "Describe the person."
       | _ => inl "Failed to load fallback prompt: Not Found"
       end;
     Date_now := fun n => (1000 * Z.of_nat n)%Z |}.

(* ================================================================= *)
(** * Properties *)

(** ** Strings *)

Module JsStringFacts.

Lemma length_app (s t : string) :
  String.length (s ++ t) = (String.length s + String.length t)%nat.
Proof.
  induction s as [|c s IH]; simpl; [reflexivity | now rewrite IH].
Qed.

Lemma len_app (s t : string) : len (s ++ t) = (len s + len t)%N.
Proof.
  unfold len. rewrite length_app. lia.
Qed.

Lemma app_empty_r (s : string) : s ++ "" = s.
Proof.
  induction s as [|c s IH]; simpl; [reflexivity | now rewrite IH].
Qed.

Lemma app_assoc (s t u : string) : (s ++ t) ++ u = s ++ (t ++ u).
Proof.
  induction s as [|c s IH]; simpl; [reflexivity | now rewrite IH].
Qed.

Lemma mapChars_app f (s t : string) :
  mapChars f (s ++ t) = mapChars f s ++ mapChars f t.
Proof.
  induction s as [|c s IH]; simpl; [reflexivity | now rewrite IH].
Qed.

Lemma startsWith_spec (s p : string) :
  startsWith s p = true <-> exists r, s = p ++ r.
Proof.
  revert s. induction p as [|a p IH]; intros s; simpl.
  - split; [intros _; now exists s | reflexivity].
  - destruct s as [|b s].
    + split; [discriminate | intros [r H]; discriminate].
    + rewrite andb_true_iff, IH. split.
      * intros [Hab [r ->]]. apply Ascii.eqb_eq in Hab. subst. now exists r.
      * intros [r H]. injection H as -> ->. split; [apply Ascii.eqb_refl | now exists r].
Qed.

Lemma endsWith_spec (s p : string) :
  endsWith s p = true <-> exists q, s = q ++ p.
Proof.
  induction s as [|c s IH]; cbn [endsWith].
  - rewrite orb_false_r, String.eqb_eq. split.
    + intros <-. now exists "".
    + intros [q H]. destruct q; simpl in H; [easy | discriminate].
  - rewrite orb_true_iff, String.eqb_eq, IH. split.
    + intros [<- | [q ->]]; [now exists "" | now exists (String c q)].
    + intros [q H]. destruct q as [|d q]; simpl in H.
      * now left.
      * injection H as _ ->. right. now exists q.
Qed.

Lemma includes_spec (s p : string) :
  includes s p = true <-> exists q r, s = q ++ p ++ r.
Proof.
  induction s as [|c s IH]; cbn [includes].
  - rewrite orb_false_r, startsWith_spec. split.
    + intros [r H]. now exists "", r.
    + intros [q [r H]]. destruct q; simpl in H; [now exists r | discriminate].
  - rewrite orb_true_iff, startsWith_spec, IH. split.
    + intros [[r H] | [q [r ->]]]; [now exists "", r | now exists (String c q), r].
    + intros [q [r H]]. destruct q as [|d q]; simpl in H.
      * left. now exists r.
      * injection H as _ ->. right. now exists q, r.
Qed.

Lemma dropChars_app (p r : string) : dropChars (String.length p) (p ++ r) = r.
Proof.
  induction p as [|a p IH]; simpl; [now destruct r | exact IH].
Qed.

Lemma takeChars_app (p r : string) : takeChars (String.length p) (p ++ r) = p.
Proof.
  induction p as [|a p IH]; simpl; [now destruct r | now rewrite IH].
Qed.

Lemma take_drop (n : nat) (s : string) : takeChars n s ++ dropChars n s = s.
Proof.
  revert s. induction n as [|n IH]; intros [|c s]; simpl; try reflexivity.
  now rewrite IH.
Qed.

Lemma length_takeChars (n : nat) (s : string) :
  (n <= String.length s)%nat -> String.length (takeChars n s) = n.
Proof.
  revert s. induction n as [|n IH]; intros [|c s]; simpl; intros H; try lia.
  now rewrite IH by lia.
Qed.

(** [.json] has no border: an occurrence cannot start inside [b] and end
    inside a trailing [.json]. *)
Lemma startsWith_json_app (b : string) :
  b <> "" ->
  startsWith (b ++ ".json") ".json" = true -> startsWith b ".json" = true.
Proof.
  intros Hb H.
  destruct b as [|c1 b]; [easy|].
  cbn [startsWith append] in H |- *.
  destruct (Ascii.eqb "." c1); [|discriminate H].
  destruct b as [|c2 b]; [now cbn in H|]. cbn [startsWith append] in H |- *.
  destruct (Ascii.eqb "j" c2); [|discriminate H].
  destruct b as [|c3 b]; [now cbn in H|]. cbn [startsWith append] in H |- *.
  destruct (Ascii.eqb "s" c3); [|discriminate H].
  destruct b as [|c4 b]; [now cbn in H|]. cbn [startsWith append] in H |- *.
  destruct (Ascii.eqb "o" c4); [|discriminate H].
  destruct b as [|c5 b]; [now cbn in H|]. cbn [startsWith append] in H |- *.
  destruct (Ascii.eqb "n" c5); [reflexivity|discriminate H].
Qed.

(** When [.json] occurs in [b ++ ".json"] at the end only, replacing its
    first occurrence strips the extension. *)
Lemma replaceFirst_trailing (b : string) :
  includes b ".json" = false -> replaceFirst (b ++ ".json") ".json" "" = b.
Proof.
  induction b as [|c b IH]; intros H.
  - reflexivity.
  - change (includes (String c b) ".json")
      with (startsWith (String c b) ".json" || includes b ".json") in H.
    apply orb_false_iff in H as [H1 H2].
    change (String c b ++ ".json") with (String c (b ++ ".json")).
    cbn [replaceFirst].
    destruct (startsWith (String c (b ++ ".json")) ".json") eqn:E.
    + apply (startsWith_json_app (String c b)) in E; [congruence | discriminate].
    + now rewrite IH.
Qed.

End JsStringFacts.
Import JsStringFacts.

(* ================================================================= *)
(** ** The path pattern matcher *)

Lemma normalizePath_app (a b : string) :
  normalizePath (a ++ b) = normalizePath a ++ normalizePath b.
Proof.
  unfold normalizePath, toLowerCase. now rewrite !mapChars_app.
Qed.

(** The [.html] twin of a [.json] pattern is matched when [.json] occurs
    in the pattern at its end only. *)
Lemma matchesPattern_html_twin (base dir path pattern : string) :
  normalizePath pattern = base ++ ".json" ->
  includes base ".json" = false ->
  normalizePath path = base ++ ".html"
  \/ normalizePath path = dir ++ "/" ++ base ++ ".html" ->
  matchesPattern path pattern = true.
Proof.
  intros Hp Hbase Hpath. unfold matchesPattern. rewrite Hp.
  assert (E : endsWith (base ++ ".json") ".json" = true)
    by (apply endsWith_spec; now exists base).
  rewrite E, (replaceFirst_trailing base Hbase). cbn [append].
  apply orb_true_iff. right. apply orb_true_iff.
  destruct Hpath as [-> | ->].
  - left. apply String.eqb_refl.
  - right. apply endsWith_spec. now exists dir.
Qed.

(** A [.json] pattern also matches itself, whatever it holds. *)
Lemma matchesPattern_json_self (dir path pattern : string) :
  endsWith (normalizePath pattern) ".json" = true ->
  normalizePath path = normalizePath pattern
  \/ normalizePath path = dir ++ "/" ++ normalizePath pattern ->
  matchesPattern path pattern = true.
Proof.
  intros E Hpath. unfold matchesPattern. rewrite E.
  apply orb_true_iff. left. apply orb_true_iff.
  destruct Hpath as [-> | ->].
  - left. apply String.eqb_refl.
  - right. apply endsWith_spec. now exists dir.
Qed.

(** C3. The pattern [my.json/posts.json] ends in [.json] and
    [my.json/posts.html] is that pattern with the extension [.json]
    replaced by [.html]; [matchesPattern] nevertheless answers [false],
    because [replace('.json', '')] removes the first occurrence of
    [.json] and leaves the base name [my/posts.json]. *)
Theorem matchesPattern_html_twin_missed :
  endsWith (normalizePath "my.json/posts.json") ".json" = true
  /\ normalizePath "my.json/posts.json" = "my.json/posts" ++ ".json"
  /\ normalizePath "my.json/posts.html" = "my.json/posts" ++ ".html"
  /\ replaceFirst (normalizePath "my.json/posts.json") ".json" "" = "my/posts.json"
  /\ matchesPattern "my.json/posts.html" "my.json/posts.json" = false.
Proof.
  repeat split; reflexivity.
Qed.

(** C8, as stated, fails: with the empty pattern the folder test becomes
    "starts with [/] or contains [//]", which [/photos/a.json] passes. *)
Lemma matchesPattern_empty_pattern_matches :
  matchesPattern "/photos/a.json" "" = true.
Proof. reflexivity. Qed.

(** C8, amended. With the empty pattern, [matchesPattern] answers [true]
    exactly for the paths whose normal form starts with [/] or contains
    [//], and [false] for every other path. *)
Theorem matchesPattern_empty_pattern (path : string) :
  matchesPattern path "" = true
  <-> (exists r, normalizePath path = "/" ++ r)
      \/ (exists q r, normalizePath path = q ++ "//" ++ r).
Proof.
  unfold matchesPattern.
  change (normalizePath "") with "".
  change (endsWith "" ".json") with false. cbn iota.
  change ("" ++ "/") with "/". change ("/" ++ "" ++ "/") with "//".
  rewrite orb_true_iff, startsWith_spec, includes_spec. reflexivity.
Qed.

(** What a matched path looks like. *)
Lemma matchesPattern_shape (filePath pattern : string) :
  matchesPattern filePath pattern = true ->
  includes (normalizePath filePath) "/" = true
  \/ endsWith (normalizePath filePath) ".json" = true
  \/ endsWith (normalizePath filePath) ".html" = true.
Proof.
  unfold matchesPattern.
  destruct (endsWith (normalizePath pattern) ".json") eqn:Ej.
  - rewrite !orb_true_iff, !String.eqb_eq, !endsWith_spec.
    apply endsWith_spec in Ej as [b Hb].
    intros [[H | [q H]] | [H | [q H]]]; right.
    + left. exists b. now rewrite H.
    + left. exists (q ++ "/" ++ b). rewrite H, Hb. now rewrite !app_assoc.
    + right. eexists. exact H.
    + right. exists (q ++ "/" ++ replaceFirst (normalizePath pattern) ".json" "").
      rewrite H. now rewrite !app_assoc.
  - rewrite orb_true_iff, startsWith_spec, includes_spec.
    intros [[r H] | [q [r H]]]; left; apply includes_spec.
    + exists (normalizePath pattern), r. rewrite H. now rewrite app_assoc.
    + exists q, (normalizePath pattern ++ "/" ++ r). rewrite H.
      cbn [append]. now rewrite !app_assoc.
Qed.

(** No matched path bears the name of an inherited property. *)
Lemma matched_path_not_inherited (filePath pattern : string) :
  matchesPattern filePath pattern = true -> ~ In filePath Object_prototype_keys.
Proof.
  intros Hm Hin. apply matchesPattern_shape in Hm.
  unfold Object_prototype_keys in Hin. cbn [In] in Hin.
  repeat (destruct Hin as [<- | Hin];
          [vm_compute in Hm; destruct Hm as [Hm | [Hm | Hm]]; discriminate Hm|]).
  exact Hin.
Qed.

(* ================================================================= *)
(** ** The file selector *)

Lemma useAllData_failsOpen (extractedData : JsObject) :
  failsOpen (useAllData extractedData) extractedData.
Proof. now repeat split. Qed.

(** C4, as stated, fails: a profile that exists with an empty pattern
    list does not fail open; nothing is selected and [configFound] is
    [true]. *)
Lemma selector_empty_patterns_not_open :
  ~ failsOpen
      (selectDataForPrompt
         (Some {| prompts := Some [ {| name := "minimal"; data := Some [] |} ] |})
         "minimal" [("data/x.json", "{}")])
      [("data/x.json", "{}")].
Proof.
  intros [H _]. discriminate H.
Qed.

(** C4, amended. When no profile of the configuration has the requested
    name, or the first profile of that name has no [data] field, the
    selector fails open: [selectedData] is the whole input, [usedFiles]
    its keys and [configFound] is [false]. *)
Theorem selector_fail_open (cfg : PromptConfig) (ps : list PromptSettings)
    (promptName : string) (extractedData : JsObject) :
  prompts cfg = Some ps ->
  find (fun p => String.eqb (name p) promptName) ps = None
  \/ (exists p, find (fun p => String.eqb (name p) promptName) ps = Some p
                /\ data p = None) ->
  failsOpen (selectDataForPrompt (Some cfg) promptName extractedData) extractedData.
Proof.
  intros Hps H. unfold selectDataForPrompt. rewrite Hps.
  destruct H as [-> | [p [-> Hd]]].
  - apply useAllData_failsOpen.
  - rewrite Hd. apply useAllData_failsOpen.
Qed.

Lemma selector_fail_open_witness :
  failsOpen
    (selectDataForPrompt
       (Some {| prompts := Some [ {| name := "minimal"; data := Some ["ads_information"] |};
                                  {| name := "bare"; data := None |} ] |})
       "bare" [("data/ads_information/prefs.json", "{}"); ("data/other/x.json", "[]")])
    [("data/ads_information/prefs.json", "{}"); ("data/other/x.json", "[]")].
Proof.
  apply (selector_fail_open
           {| prompts := Some [ {| name := "minimal"; data := Some ["ads_information"] |};
                                {| name := "bare"; data := None |} ] |}
           [ {| name := "minimal"; data := Some ["ads_information"] |};
             {| name := "bare"; data := None |} ]).
  - reflexivity.
  - right. exists {| name := "bare"; data := None |}. split; reflexivity.
Defined.

(** A missing configuration and a configuration without [prompts] fail
    open as well. *)
Lemma selector_fail_open_no_config (promptName : string) (extractedData : JsObject) :
  failsOpen (selectDataForPrompt None promptName extractedData) extractedData
  /\ failsOpen (selectDataForPrompt (Some {| prompts := None |}) promptName extractedData)
       extractedData.
Proof. split; apply useAllData_failsOpen. Qed.

(** An empty pattern list selects nothing. *)
Lemma selector_empty_patterns (cfg : PromptConfig) (ps : list PromptSettings)
    (p : PromptSettings) (promptName : string) (extractedData : JsObject) :
  prompts cfg = Some ps ->
  find (fun p => String.eqb (name p) promptName) ps = Some p ->
  data p = Some [] ->
  let r := selectDataForPrompt (Some cfg) promptName extractedData in
  selectedData r = [] /\ usedFiles r = [] /\ configFound r = true.
Proof.
  intros Hps Hf Hd. unfold selectDataForPrompt. rewrite Hps, Hf, Hd.
  now repeat split.
Qed.

Lemma obj_get_None_iff (o : JsObject) (k : string) :
  obj_get o k = None <-> ~ In k (Object_keys o).
Proof.
  induction o as [|[k' v] o IH]; simpl.
  - tauto.
  - destruct (String.eqb_spec k' k) as [->|Hne].
    + split; [discriminate | intros H; exfalso; apply H; now left].
    + rewrite IH. tauto.
Qed.

Lemma obj_get_In (o : JsObject) (k v : string) :
  obj_get o k = Some v -> In (k, v) o.
Proof.
  induction o as [|[k' v'] o IH]; simpl; [discriminate|].
  destruct (String.eqb_spec k' k) as [->|Hne].
  - intros [= ->]. now left.
  - intros H. right. now apply IH.
Qed.

Lemma obj_get_key (o : JsObject) (k : string) :
  In k (Object_keys o) -> exists v, obj_get o k = Some v.
Proof.
  intros H. destruct (obj_get o k) as [v|] eqn:E; [now exists v|].
  now apply obj_get_None_iff in E.
Qed.

Lemma obj_set_new (o : JsObject) (k v : string) :
  ~ In k (Object_keys o) -> obj_set o k v = (o ++ [(k, v)])%list.
Proof.
  induction o as [|[k' v'] o IH]; simpl; intros H; [reflexivity|].
  destruct (String.eqb_spec k' k) as [->|Hne]; [tauto|].
  rewrite IH; tauto.
Qed.

Lemma obj_set_keys_old (o : JsObject) (k v : string) :
  In k (Object_keys o) -> Object_keys (obj_set o k v) = Object_keys o.
Proof.
  induction o as [|[k' v'] o IH]; simpl; intros H; [tauto|].
  destruct (String.eqb_spec k' k) as [->|Hne]; [reflexivity|].
  simpl. f_equal. apply IH. destruct H; [contradiction | assumption].
Qed.

Lemma selectFile_sound (extractedData : JsObject) sel (file : string) :
  In file (Object_keys extractedData) ->
  selectionSound extractedData sel ->
  selectionSound extractedData (selectFile extractedData sel file).
Proof.
  intros Hin (Hnd & Hks & Hus). unfold selectFile.
  destruct (obj_falsy (fst sel) file); [|now repeat split].
  destruct (obj_get extractedData file) as [content|]; [|now repeat split].
  unfold selectionSound. cbn [fst snd].
  destruct (in_dec string_dec file (Object_keys (fst sel))) as [Hk|Hk].
  - rewrite obj_set_keys_old by assumption. repeat split.
    + assumption.
    + intros x Hx. apply in_or_app. left. now apply Hks.
    + intros x Hx. apply in_app_or in Hx as [Hx|[<-|[]]]; [now apply Hus | assumption].
  - rewrite obj_set_new by assumption. unfold Object_keys. rewrite map_app. cbn [map fst].
    repeat split.
    + apply NoDup_app; [assumption | repeat constructor; easy |].
      intros x Hx [<-|[]]. contradiction.
    + intros x Hx. apply in_app_or in Hx as [Hx|[<-|[]]]; apply in_or_app;
        [left; now apply Hks | right; now left].
    + intros x Hx. apply in_app_or in Hx as [Hx|[<-|[]]]; [now apply Hus | assumption].
Qed.

Lemma selectFile_exact (extractedData : JsObject) sel (file : string) :
  Forall (fun kv => truthy (snd kv) = true) extractedData ->
  selectionExact sel ->
  selectionExact (selectFile extractedData sel file).
Proof.
  intros Hed (Hks & Hnd & Htr). unfold selectFile.
  unfold obj_falsy.
  destruct (obj_get (fst sel) file) as [v|] eqn:Eg.
  - apply obj_get_In in Eg.
    pose proof (proj1 (Forall_forall _ _) Htr _ Eg) as Hv. cbn [snd] in Hv.
    rewrite Hv. cbn [negb]. now repeat split.
  - destruct (obj_get extractedData file) as [content|] eqn:Ee; [|now repeat split].
    apply obj_get_None_iff in Eg.
    unfold selectionExact. cbn [fst snd]. rewrite obj_set_new by assumption.
    unfold Object_keys in *. rewrite map_app. cbn [map fst]. repeat split.
    + now rewrite Hks.
    + rewrite <- Hks. apply NoDup_app; [now rewrite Hks | repeat constructor; easy |].
      intros x Hx [<-|[]]. contradiction.
    + apply Forall_app. split; [assumption|]. constructor; [|constructor].
      apply obj_get_In in Ee. rewrite Forall_forall in Hed. exact (Hed _ Ee).
Qed.

Lemma selectPattern_sound (extractedData : JsObject) sel (pattern : string) :
  selectionSound extractedData sel ->
  selectionSound extractedData (selectPattern extractedData sel pattern).
Proof.
  unfold selectPattern.
  assert (Hsub : incl (filter (fun filePath => matchesPattern filePath pattern)
                         (Object_keys extractedData)) (Object_keys extractedData))
    by (intros x Hx; now apply filter_In in Hx).
  revert sel Hsub.
  induction (filter _ (Object_keys extractedData)) as [|f fs IH]; intros sel Hsub H.
  - exact H.
  - cbn [fold_left]. apply IH.
    + intros x Hx. apply Hsub. now right.
    + apply selectFile_sound; [apply Hsub; now left | assumption].
Qed.

Lemma selectPattern_exact (extractedData : JsObject) sel (pattern : string) :
  Forall (fun kv => truthy (snd kv) = true) extractedData ->
  selectionExact sel ->
  selectionExact (selectPattern extractedData sel pattern).
Proof.
  intros Hed. unfold selectPattern. revert sel.
  induction (filter _ (Object_keys extractedData)) as [|f fs IH]; intros sel H.
  - exact H.
  - cbn [fold_left]. apply IH. now apply selectFile_exact.
Qed.

Lemma selectPatterns_sound (extractedData : JsObject) (pats : list string) sel :
  selectionSound extractedData sel ->
  selectionSound extractedData (fold_left (selectPattern extractedData) pats sel).
Proof.
  revert sel. induction pats as [|p pats IH]; intros sel H; [exact H|].
  cbn [fold_left]. apply IH. now apply selectPattern_sound.
Qed.

Lemma selectPatterns_exact (extractedData : JsObject) (pats : list string) sel :
  Forall (fun kv => truthy (snd kv) = true) extractedData ->
  selectionExact sel ->
  selectionExact (fold_left (selectPattern extractedData) pats sel).
Proof.
  intros Hed. revert sel. induction pats as [|p pats IH]; intros sel H; [exact H|].
  cbn [fold_left]. apply IH. now apply selectPattern_exact.
Qed.

(** What holds of every selection: [usedFiles] only lists keys of the
    extracted data, and the keys of [selectedData] are pairwise distinct
    and all listed in [usedFiles]. *)
Lemma selector_used_paths_exist (promptConfig : option PromptConfig)
    (promptName : string) (extractedData : JsObject) :
  NoDup (Object_keys extractedData) ->
  let r := selectDataForPrompt promptConfig promptName extractedData in
  incl (usedFiles r) (Object_keys extractedData)
  /\ NoDup (Object_keys (selectedData r))
  /\ incl (Object_keys (selectedData r)) (usedFiles r).
Proof.
  intros Hnd r. subst r. unfold selectDataForPrompt.
  assert (Hall : incl (usedFiles (useAllData extractedData)) (Object_keys extractedData)
                 /\ NoDup (Object_keys (selectedData (useAllData extractedData)))
                 /\ incl (Object_keys (selectedData (useAllData extractedData)))
                      (usedFiles (useAllData extractedData)))
    by (cbn; repeat split; try assumption; apply incl_refl).
  destruct promptConfig as [cfg|]; [|exact Hall].
  destruct (prompts cfg) as [ps|]; [|exact Hall].
  destruct (find _ ps) as [p|]; [|exact Hall].
  destruct (data p) as [pats|]; [|exact Hall].
  cbn [usedFiles selectedData].
  destruct (selectPatterns_sound extractedData pats ([], [])) as (H1 & H2 & H3).
  - repeat split; [constructor | easy | easy].
  - now repeat split.
Qed.

(** When no extracted file is empty, the invariant of the selection
    result holds: [usedFiles] has no duplicates, is as long as
    [selectedData] has keys, and only lists keys of the extracted
    data. *)
Lemma selector_invariant_nonempty_contents (promptConfig : option PromptConfig)
    (promptName : string) (extractedData : JsObject) :
  NoDup (Object_keys extractedData) ->
  Forall (fun kv => truthy (snd kv) = true) extractedData ->
  let r := selectDataForPrompt promptConfig promptName extractedData in
  NoDup (usedFiles r)
  /\ List.length (usedFiles r) = List.length (Object_keys (selectedData r))
  /\ incl (usedFiles r) (Object_keys extractedData).
Proof.
  intros Hnd Hed r.
  destruct (selector_used_paths_exist promptConfig promptName extractedData Hnd)
    as (Hincl & _ & _).
  fold r in Hincl. split; [|split]; [| |exact Hincl]; subst r;
    unfold selectDataForPrompt;
    (destruct promptConfig as [cfg|]; [|now cbn]);
    (destruct (prompts cfg) as [ps|]; [|now cbn]);
    (destruct (find _ ps) as [p|]; [|now cbn]);
    (destruct (data p) as [pats|]; [|now cbn]);
    cbn [usedFiles selectedData];
    destruct (selectPatterns_exact extractedData pats ([], []) Hed) as (H1 & H2 & H3);
    try (repeat split; constructor); try assumption.
  now rewrite H1.
Qed.

(** C5. A file with empty content that two patterns match is pushed on
    [usedFiles] twice: the guard [!selectedData[file]] reads the stored
    content, and the empty string is falsy.  [usedFiles] then has a
    duplicate and two entries for the single key of [selectedData]. *)
Theorem selector_duplicates_on_empty_content :
  usedFiles
    (selectDataForPrompt
       (Some {| prompts := Some [ {| name := "posts";
                                     data := Some ["posts"; "posts/a.json"] |} ] |})
       "posts" [("posts/a.json", "")])
  = ["posts/a.json"; "posts/a.json"]
  /\ Object_keys
       (selectedData
          (selectDataForPrompt
             (Some {| prompts := Some [ {| name := "posts";
                                           data := Some ["posts"; "posts/a.json"] |} ] |})
             "posts" [("posts/a.json", "")]))
     = ["posts/a.json"]
  /\ ~ NoDup
       (usedFiles
          (selectDataForPrompt
             (Some {| prompts := Some [ {| name := "posts";
                                           data := Some ["posts"; "posts/a.json"] |} ] |})
             "posts" [("posts/a.json", "")])).
Proof.
  split; [reflexivity | split; [reflexivity|]].
  change (~ NoDup ["posts/a.json"; "posts/a.json"]).
  intros H. inversion H as [|x l Hn _]. apply Hn. now left.
Qed.

(* ================================================================= *)
(** ** The chunker *)

Section ChunkerFacts.

Context {rt : JsonRuntime}.
Variable this : ProfileAnalyzer.

(** The sort is a stable arrangement of its input by content length. *)
Lemma insertBySize_perm (e : string * string) (l : list (string * string)) :
  Permutation (e :: l) (insertBySize e l).
Proof.
  induction l as [|x l IH]; cbn [insertBySize]; [reflexivity|].
  destruct (len (snd e) <=? len (snd x))%N; [reflexivity|].
  rewrite perm_swap. now apply perm_skip.
Qed.

Lemma sortedEntries_perm (jsonFiles : JsObject) :
  Permutation (sortedEntries jsonFiles) jsonFiles.
Proof.
  induction jsonFiles as [|e l IH]; cbn [sortedEntries fold_right]; [reflexivity|].
  rewrite <- insertBySize_perm. now apply perm_skip.
Qed.

Lemma insertBySize_sorted (e : string * string) (l : list (string * string)) :
  Sorted bySize l -> Sorted bySize (insertBySize e l).
Proof.
  induction l as [|x l IH]; cbn [insertBySize]; intros Hs.
  - repeat constructor.
  - destruct (N.leb_spec (len (snd e)) (len (snd x))).
    + constructor; [assumption | now constructor].
    + inversion Hs as [|? ? Hs' Hhd]; subst. constructor; [now apply IH|].
      destruct l as [|y l]; cbn [insertBySize].
      * constructor. unfold bySize. lia.
      * destruct (N.leb_spec (len (snd e)) (len (snd y))).
        -- constructor. unfold bySize. lia.
        -- inversion Hhd; subst. now constructor.
Qed.

Lemma sortedEntries_sorted (jsonFiles : JsObject) :
  Sorted bySize (sortedEntries jsonFiles).
Proof.
  induction jsonFiles as [|e l IH]; cbn [sortedEntries fold_right].
  - constructor.
  - now apply insertBySize_sorted.
Qed.

(** Stability: among the files of one length the order of the input is
    kept. *)
Lemma insertBySize_filter (n : N) (e : string * string) (l : list (string * string)) :
  Sorted bySize l ->
  filter (fun x => (len (snd x) =? n)%N) (insertBySize e l)
  = filter (fun x => (len (snd x) =? n)%N) (e :: l).
Proof.
  induction l as [|x l IH]; cbn [insertBySize]; intros Hs; [reflexivity|].
  destruct (N.leb_spec (len (snd e)) (len (snd x))); [reflexivity|].
  inversion Hs; subst.
  cbn [filter] in *. rewrite IH by assumption.
  destruct (N.eqb_spec (len (snd x)) n), (N.eqb_spec (len (snd e)) n);
    try reflexivity; lia.
Qed.

Lemma sortedEntries_stable (n : N) (jsonFiles : JsObject) :
  filter (fun x => (len (snd x) =? n)%N) (sortedEntries jsonFiles)
  = filter (fun x => (len (snd x) =? n)%N) jsonFiles.
Proof.
  induction jsonFiles as [|e l IH]; cbn [sortedEntries fold_right]; [reflexivity|].
  rewrite insertBySize_filter by apply sortedEntries_sorted.
  cbn [filter]. fold (sortedEntries l). now rewrite IH.
Qed.

Lemma fileEntry_nonempty (filename content entry : string) :
  fileEntry filename content = Some entry -> entry <> "".
Proof.
  unfold fileEntry. destruct (formattedContent filename content); [|discriminate].
  intros [= <-]. discriminate.
Qed.

Lemma entriesOf_nonempty (files : list (string * string)) :
  Forall (fun e => e <> "") (entriesOf files).
Proof.
  apply Forall_forall. intros e He. unfold entriesOf in He.
  apply in_flat_map in He as [file [_ He]].
  destruct (fileEntry (fst file) (snd file)) eqn:E; [|contradiction].
  destruct He as [<-|[]]. eapply fileEntry_nonempty; eassumption.
Qed.

Lemma entriesOf_In (files : list (string * string)) (e : string) :
  In e (entriesOf files)
  <-> exists file, In file files /\ fileEntry (fst file) (snd file) = Some e.
Proof.
  unfold entriesOf. rewrite in_flat_map. split; intros [file [Hin H]]; exists file.
  - destruct (fileEntry (fst file) (snd file)); [|contradiction].
    destruct H as [<-|[]]. now split.
  - rewrite H. split; [assumption | now left].
Qed.

(** The loop only sees the entries. *)
Lemma fold_chunkerStep (files : list (string * string)) (st : ChunkerState) :
  fold_left (chunkerStep this) files st
  = fold_left (placeEntry this) (entriesOf files) st.
Proof.
  revert st. induction files as [|f files IH]; intros st; [reflexivity|].
  cbn [fold_left entriesOf flat_map]. fold (entriesOf files).
  unfold chunkerStep at 2.
  destruct (fileEntry (fst f) (snd f)) as [e|]; cbn [app fold_left]; apply IH.
Qed.

Lemma concat_nil_app (l : list string) (e : string) :
  String.concat "" (l ++ [e]) = String.concat "" l ++ e.
Proof.
  induction l as [|x l IH]; [reflexivity|].
  destruct l as [|y l]; [reflexivity|].
  change (String.concat "" ((x :: y :: l) ++ [e]))
    with (x ++ "" ++ String.concat "" ((y :: l) ++ [e])).
  rewrite IH. change (String.concat "" (x :: y :: l))
    with (x ++ "" ++ String.concat "" (y :: l)).
  cbn [append]. now rewrite app_assoc.
Qed.

Lemma concat_nonempty (cur : list string) :
  Forall (fun e => e <> "") cur -> String.concat "" cur = "" -> cur = [].
Proof.
  destruct cur as [|e cur]; [reflexivity|].
  intros H. inversion H as [|? ? He _]; subst.
  destruct cur as [|y cur]; cbn [String.concat]; intros E.
  - contradiction.
  - destruct e; [contradiction | discriminate].
Qed.

(** Placing an entry keeps the reading by groups and adds the entry at
    the end. *)
Lemma placeEntry_grouped (st : ChunkerState) gs cur (e : string) :
  e <> "" -> Grouped st gs cur ->
  exists gs' cur',
    Grouped (placeEntry this st e) gs' cur'
    /\ (List.concat gs' ++ cur' = (List.concat gs ++ cur) ++ [e])%list.
Proof.
  intros He (Hc & Hcur & Hne). unfold placeEntry.
  destruct (startsNewChunk this st e).
  - exists (gs ++ [cur])%list, [e]. split.
    + repeat split; cbn.
      * rewrite Hc, Hcur, map_app. reflexivity.
      * now constructor.
    + rewrite concat_app. cbn. now rewrite app_nil_r.
  - exists gs, (cur ++ [e])%list. split.
    + repeat split; cbn.
      * assumption.
      * now rewrite Hcur, concat_nil_app.
      * apply Forall_app. split; [assumption | now constructor].
    + now rewrite List.app_assoc.
Qed.

Lemma placeEntries_grouped (es : list string) (st : ChunkerState) gs cur :
  Forall (fun e => e <> "") es -> Grouped st gs cur ->
  exists gs' cur',
    Grouped (fold_left (placeEntry this) es st) gs' cur'
    /\ (List.concat gs' ++ cur' = (List.concat gs ++ cur) ++ es)%list.
Proof.
  revert st gs cur. induction es as [|e es IH]; intros st gs cur Hes H.
  - exists gs, cur. now rewrite app_nil_r.
  - inversion Hes as [|? ? He Hes']; subst.
    destruct (placeEntry_grouped st gs cur e He H) as (gs1 & cur1 & H1 & E1).
    destruct (IH _ gs1 cur1 Hes' H1) as (gs2 & cur2 & H2 & E2).
    exists gs2, cur2. split; [exact H2|].
    rewrite E2, E1, <- List.app_assoc. reflexivity.
Qed.

Lemma chunkerFinish_grouped (st : ChunkerState) gs cur :
  Grouped st gs cur ->
  exists groups,
    chunkerFinish st = map (String.concat "") groups
    /\ List.concat groups = (List.concat gs ++ cur)%list.
Proof.
  intros (Hc & Hcur & Hne). unfold chunkerFinish.
  destruct (N.ltb_spec 0 (len (currentChunk st))) as [Hpos|Hzero].
  - exists (gs ++ [cur])%list. split.
    + now rewrite Hc, Hcur, map_app.
    + rewrite concat_app. cbn. now rewrite app_nil_r.
  - exists gs. split; [assumption|].
    assert (E : currentChunk st = "").
    { destruct (currentChunk st); [reflexivity|]. unfold len in Hzero. cbn in Hzero. lia. }
    rewrite Hcur in E. apply concat_nonempty in E; [|assumption].
    subst cur. now rewrite app_nil_r.
Qed.

(** A file is skipped exactly when its name ends in [.json] and its
    content is no JSON document. *)
Lemma fileEntry_None_iff (filename content : string) :
  fileEntry filename content = None
  <-> endsWith (toLowerCase filename) ".json" = true /\ JSON_parse content = None.
Proof.
  unfold fileEntry, formattedContent.
  destruct (endsWith (toLowerCase filename) ".json").
  - destruct (JSON_parse content); split; try discriminate; try tauto.
    intros [_ H]. discriminate H.
  - destruct (endsWith (toLowerCase filename) ".html");
      [destruct (HTML_LIMIT <? len content)%N|]; split; try discriminate;
      intros [H _]; discriminate H.
Qed.

(** C2, amended. The chunks are the concatenations of consecutive groups
    of formatted entries, and the groups put end to end are the entries
    of the input files in sorted order, each file whose formatting does
    not throw exactly once; the sorted order is a rearrangement of the
    input.  No entry is split between two chunks. *)
Theorem chunker_partitions_formatted_entries (jsonFiles : JsObject) :
  exists groups : list (list string),
    processJsonFiles this jsonFiles = map (String.concat "") groups
    /\ List.concat groups = entriesOf (sortedEntries jsonFiles)
    /\ Permutation (sortedEntries jsonFiles) jsonFiles.
Proof.
  unfold processJsonFiles. rewrite fold_chunkerStep.
  destruct (placeEntries_grouped (entriesOf (sortedEntries jsonFiles))
              chunkerStart [] [] (entriesOf_nonempty _)) as (gs & cur & H & E).
  - repeat split. constructor.
  - destruct (chunkerFinish_grouped _ gs cur H) as (groups & H1 & H2).
    exists groups. split; [exact H1|]. split; [|apply sortedEntries_perm].
    now rewrite H2, E.
Qed.

Lemma placeEntry_budget (E : string -> Prop) (st : ChunkerState) (e : string) :
  E e ->
  Forall (withinBudget this E) (chunks st) -> withinBudget this E (currentChunk st) ->
  Forall (withinBudget this E) (chunks (placeEntry this st e))
  /\ withinBudget this E (currentChunk (placeEntry this st e)).
Proof.
  intros He Hc Hcur. unfold placeEntry.
  destruct (startsNewChunk this st e) eqn:Hnew; cbn [chunks currentChunk].
  - split.
    + apply Forall_app. split; [assumption | now constructor].
    + unfold withinBudget.
      destruct (N.le_gt_cases (len e) (MAX_CHUNK_SIZE this)); [now left | right; now split].
  - split; [assumption|]. left.
    unfold startsNewChunk in Hnew. apply orb_false_iff in Hnew as [Hsz _].
    apply N.ltb_ge in Hsz. now rewrite len_app.
Qed.

Lemma placeEntries_budget (E : string -> Prop) (es : list string) (st : ChunkerState) :
  Forall E es ->
  Forall (withinBudget this E) (chunks st) -> withinBudget this E (currentChunk st) ->
  Forall (withinBudget this E) (chunkerFinish (fold_left (placeEntry this) es st)).
Proof.
  revert st. induction es as [|e es IH]; intros st Hes Hc Hcur.
  - cbn [fold_left]. unfold chunkerFinish.
    destruct (0 <? len (currentChunk st))%N; [|assumption].
    apply Forall_app. split; [assumption | now constructor].
  - inversion Hes as [|? ? He Hes']; subst. cbn [fold_left].
    destruct (placeEntry_budget E st e He Hc Hcur) as [Hc' Hcur'].
    now apply IH.
Qed.

(** Once an entry over the budget is the open chunk, it is closed as it
    is. *)
Lemma oversized_stays (e : string) (es : list string) (st : ChunkerState) :
  (MAX_CHUNK_SIZE this < len e)%N ->
  In e (chunks st) \/ currentChunk st = e ->
  In e (chunkerFinish (fold_left (placeEntry this) es st)).
Proof.
  intros Hbig. revert st. induction es as [|x es IH]; intros st H.
  - cbn [fold_left]. unfold chunkerFinish. destruct H as [H| <-].
    + destruct (0 <? len (currentChunk st))%N; [apply in_or_app; now left | assumption].
    + destruct (N.ltb_spec 0 (len (currentChunk st))); [|lia].
      apply in_or_app. right. now left.
  - cbn [fold_left]. apply IH. unfold placeEntry.
    destruct (startsNewChunk this st x) eqn:Hnew; cbn [chunks currentChunk].
    + left. apply in_or_app. destruct H as [H| <-]; [now left | right; now left].
    + destruct H as [H| <-]; [now left|]. exfalso.
      unfold startsNewChunk in Hnew. apply orb_false_iff in Hnew as [Hsz _].
      apply N.ltb_ge in Hsz. lia.
Qed.

Lemma oversized_emitted (e : string) (es : list string) (st : ChunkerState) :
  (MAX_CHUNK_SIZE this < len e)%N -> In e es ->
  In e (chunkerFinish (fold_left (placeEntry this) es st)).
Proof.
  intros Hbig Hin. apply in_split in Hin as (es1 & es2 & ->).
  rewrite fold_left_app. cbn [fold_left]. apply oversized_stays; [assumption|].
  right. set (st1 := fold_left (placeEntry this) es1 st).
  assert (Hnew : startsNewChunk this st1 e = true).
  { unfold startsNewChunk. apply orb_true_iff. left. apply N.ltb_lt. lia. }
  unfold placeEntry. now rewrite Hnew.
Qed.

(** C6. Every chunk has at most [MAX_CHUNK_SIZE] characters, unless it is
    the formatted entry of one file that alone is longer than that; and
    such an entry is always a chunk of its own, neither split nor
    dropped. *)
Theorem chunker_size_bound (jsonFiles : JsObject) :
  (forall c, In c (processJsonFiles this jsonFiles) ->
     (len c <= MAX_CHUNK_SIZE this)%N
     \/ ((MAX_CHUNK_SIZE this < len c)%N
         /\ exists file, In file jsonFiles
                         /\ fileEntry (fst file) (snd file) = Some c))
  /\ (forall file entry,
        In file jsonFiles ->
        fileEntry (fst file) (snd file) = Some entry ->
        (MAX_CHUNK_SIZE this < len entry)%N ->
        In entry (processJsonFiles this jsonFiles)).
Proof.
  unfold processJsonFiles. rewrite fold_chunkerStep.
  set (E := fun c => exists file, In file jsonFiles
                                  /\ fileEntry (fst file) (snd file) = Some c).
  assert (HE : forall e, In e (entriesOf (sortedEntries jsonFiles)) <-> E e).
  { intros e. rewrite entriesOf_In. unfold E.
    split; intros [file [Hin Hf]]; exists file; split; try assumption.
    - eapply Permutation_in; [apply sortedEntries_perm | assumption].
    - eapply Permutation_in; [symmetry; apply sortedEntries_perm | assumption]. }
  split.
  - intros c Hc.
    assert (H : Forall (withinBudget this E)
                  (chunkerFinish (fold_left (placeEntry this)
                                    (entriesOf (sortedEntries jsonFiles)) chunkerStart))).
    { apply placeEntries_budget.
      - apply Forall_forall. intros e He. now apply HE.
      - constructor.
      - left. cbn. lia. }
    rewrite Forall_forall in H. exact (H c Hc).
  - intros file entry Hin Hf Hbig. apply oversized_emitted; [assumption|].
    apply HE. now exists file.
Qed.

End ChunkerFacts.

Section ChunkerFormatting.

Context {rt : JsonRuntime}.

Lemma app_inv_head (s a b : string) : s ++ a = s ++ b -> a = b.
Proof.
  induction s as [|c s IH]; cbn [append]; intros H; [exact H|].
  injection H as H. now apply IH.
Qed.

Lemma app_inv_tail_length (q q' a b : string) :
  q ++ a = q' ++ b -> String.length a = String.length b -> a = b.
Proof.
  revert q'. induction q as [|c q IH]; intros [|d q'] H L; cbn [append] in H.
  - exact H.
  - exfalso. rewrite H in L. cbn [String.length] in L. rewrite length_app in L. lia.
  - exfalso. rewrite <- H in L. cbn [String.length] in L. rewrite length_app in L. lia.
  - injection H as _ H. now apply (IH q').
Qed.

(** A name cannot end in [.html] and in [.json]. *)
Lemma html_not_json (s : string) :
  endsWith s ".html" = true -> endsWith s ".json" = false.
Proof.
  intros H. apply endsWith_spec in H as [q ->].
  destruct (endsWith (q ++ ".html") ".json") eqn:E; [|reflexivity].
  apply endsWith_spec in E as [q' E].
  apply app_inv_tail_length in E; [discriminate E | reflexivity].
Qed.

(** C10, amended. For a file whose name ends in [.html], whatever the
    case, and whose content is longer than 50000 characters, the content
    placed in the chunk is the first 50000 characters of the original
    followed by the fixed notice, 50038 characters in all; the entry is
    the header followed by that text.  The text differs from the
    original content unless what follows the first 50000 characters of
    the original is exactly the notice. *)
Theorem html_content_truncated (filename content : string) :
  endsWith (toLowerCase filename) ".html" = true ->
  (HTML_LIMIT < len content)%N ->
  fileEntry filename content
  = Some (entryHeader filename
          ++ takeChars (N.to_nat HTML_LIMIT) content ++ TRUNCATION_NOTICE)
  /\ len (takeChars (N.to_nat HTML_LIMIT) content ++ TRUNCATION_NOTICE)
     = (HTML_LIMIT + 38)%N
  /\ (takeChars (N.to_nat HTML_LIMIT) content ++ TRUNCATION_NOTICE = content
      <-> dropChars (N.to_nat HTML_LIMIT) content = TRUNCATION_NOTICE).
Proof.
  intros Hname Hlong. split; [|split].
  - unfold fileEntry, formattedContent.
    rewrite (html_not_json _ Hname), Hname.
    apply N.ltb_lt in Hlong. now rewrite Hlong.
  - rewrite len_app. unfold len at 1. rewrite length_takeChars.
    + change (len TRUNCATION_NOTICE) with 38%N. lia.
    + unfold len in Hlong. lia.
  - split; intros H.
    + rewrite <- (take_drop (N.to_nat HTML_LIMIT) content) in H at 2.
      apply app_inv_head in H. now symmetry.
    + rewrite <- H. apply take_drop.
Qed.

(** Shorter HTML files, and files that are neither JSON nor HTML, are
    placed as they are. *)
Lemma html_content_kept (filename content : string) :
  endsWith (toLowerCase filename) ".html" = true ->
  (len content <= HTML_LIMIT)%N ->
  fileEntry filename content = Some (entryHeader filename ++ content).
Proof.
  intros Hname Hshort. unfold fileEntry, formattedContent.
  rewrite (html_not_json _ Hname), Hname.
  apply N.ltb_ge in Hshort. now rewrite Hshort.
Qed.

End ChunkerFormatting.

(* ================================================================= *)
(** ** The chunker on concrete inputs *)

Lemma length_repeatChar (c : ascii) (n : nat) : String.length (repeatChar c n) = n.
Proof.
  induction n as [|n IH]; cbn [repeatChar String.length]; [reflexivity | now rewrite IH].
Qed.

Lemma len_padded (n : N) (tail : string) :
  len (repeatChar "a" (N.to_nat n) ++ tail) = (n + len tail)%N.
Proof.
  rewrite len_app. unfold len at 1. rewrite length_repeatChar. lia.
Qed.

Lemma takeChars_padded (n : nat) (tail : string) :
  takeChars n (repeatChar "a" n ++ tail) = repeatChar "a" n.
Proof.
  rewrite <- (length_repeatChar "a" n) at 1. apply takeChars_app.
Qed.

(** C2, as stated, fails: a [.json] file whose content is not a JSON
    document is dropped; its entry is in no chunk. *)
Lemma chunker_drops_unparsable_json :
  fileEntry "posts.json" "{" = None
  /\ processJsonFiles new_ProfileAnalyzer
       [("posts.json", "{"); ("index.html", "<p>hi</p>")]
     = [entryHeader "index.html" ++ "<p>hi</p>"].
Proof.
  split; vm_compute; reflexivity.
Qed.

(** The same for an empty [.json] file under any JSON runtime. *)
Lemma chunker_drops_empty_json {rt : JsonRuntime} (this : ProfileAnalyzer) :
  processJsonFiles this [("posts.json", "")] = [].
Proof.
  unfold processJsonFiles, sortedEntries. cbn [fold_right insertBySize fold_left].
  unfold chunkerStep, fileEntry, formattedContent. cbn [fst snd].
  change (endsWith (toLowerCase "posts.json") ".json") with true. cbn iota.
  rewrite JSON_parse_empty. reflexivity.
Qed.

(** A well-formed document is placed in its indented form. *)
Example chunker_formats_json :
  processJsonFiles new_ProfileAnalyzer
    [("index.html", "<p>hi</p>"); ("posts.json", "[1, 2]")]
  = [entryHeader "posts.json" ++ "[" ++ LF ++ "  1," ++ LF ++ "  2" ++ LF ++ "]"
     ++ entryHeader "index.html" ++ "<p>hi</p>"].
Proof. vm_compute. reflexivity. Qed.

Lemma chunker_size_bound_witness :
  In (entryHeader "b.json" ++ "2222222222")
     (processJsonFiles smallBudget
        [("a.json", "1111111111"); ("b.json", "2222222222")]).
Proof.
  apply (proj2 (chunker_size_bound smallBudget
                  [("a.json", "1111111111"); ("b.json", "2222222222")])
           ("b.json", "2222222222")).
  - right. now left.
  - vm_compute. reflexivity.
  - vm_compute. reflexivity.
Defined.

(** C10, as stated, fails: when the original content is 50000 characters
    followed by the text of the notice, cutting and appending the notice
    gives the original back, and the entry holds the whole of it. *)
Lemma html_truncation_keeps_padded_page :
  (HTML_LIMIT < len paddedPage)%N
  /\ fileEntry "timeline.html" paddedPage
     = Some (entryHeader "timeline.html" ++ paddedPage).
Proof.
  unfold paddedPage. split.
  - rewrite len_padded. change (len TRUNCATION_NOTICE) with 38%N. lia.
  - unfold fileEntry, formattedContent.
    change (endsWith (toLowerCase "timeline.html") ".json") with false.
    change (endsWith (toLowerCase "timeline.html") ".html") with true. cbn iota.
    assert (H : (HTML_LIMIT <? len (repeatChar "a" (N.to_nat HTML_LIMIT)
                                     ++ TRUNCATION_NOTICE))%N = true).
    { apply N.ltb_lt. rewrite len_padded. change (len TRUNCATION_NOTICE) with 38%N. lia. }
    rewrite H, takeChars_padded. reflexivity.
Qed.

Lemma html_content_truncated_witness :
  fileEntry "Timeline.HTML" longPage
  = Some (entryHeader "Timeline.HTML"
          ++ takeChars (N.to_nat HTML_LIMIT) longPage ++ TRUNCATION_NOTICE)
  /\ len (takeChars (N.to_nat HTML_LIMIT) longPage ++ TRUNCATION_NOTICE)
     = (HTML_LIMIT + 38)%N
  /\ (takeChars (N.to_nat HTML_LIMIT) longPage ++ TRUNCATION_NOTICE = longPage
      <-> dropChars (N.to_nat HTML_LIMIT) longPage = TRUNCATION_NOTICE).
Proof.
  apply (html_content_truncated "Timeline.HTML" longPage).
  - reflexivity.
  - unfold longPage. rewrite len_padded. change (len "</p>") with 4%N. lia.
Defined.

(* ================================================================= *)
(** ** The analysis driver: one chunk *)

Section SubmissionFacts.

Variable W : World.
Variable this : ProfileAnalyzer.

(** [readOutcome] throws errors, never [null]. *)
Lemma readOutcome_error (o : FetchOutcome) (e : Thrown) :
  readOutcome o = inl e -> exists message, e = ThrownError message.
Proof.
  destruct o as [m|r]; cbn [readOutcome].
  - intros [= <-]. now exists m.
  - destruct (negb (ok r)).
    + intros [= <-]. eexists. reflexivity.
    + destruct (body r) as [m|t [|c|m]]; intros [= <-]; eexists; reflexivity.
Qed.

(** A response with a success status and no [choices] is a failure of
    the attempt, like a rejected [fetch]. *)
Lemma readOutcome_no_choices (r : Response) (text : string) :
  ok r = true -> body r = BodyData text NoChoices ->
  readOutcome (FetchResponse r)
  = inl (ThrownError "No choices returned from OpenRouter API").
Proof.
  intros Hok Hb. cbn [readOutcome]. now rewrite Hok, Hb.
Qed.

(** The three ways through one turn of the retry loop. *)
Lemma retryLoop_success (content : string) (turns : nat) (retries : N)
    (lastError : Thrown) (st : RunState) (text : string) :
  (retries <= MAX_RETRIES this)%N ->
  outcomeAt W content (fetchCalls st) = inr text ->
  retryLoop W this (S turns) content retries lastError st
  = (inr text, afterFetch st).
Proof.
  intros Hle Ho. cbn [retryLoop]. apply N.leb_le in Hle. rewrite Hle.
  unfold bind, attempt. fold (outcomeAt W content (fetchCalls st)). now rewrite Ho.
Qed.

Lemma retryLoop_retry (content : string) (turns : nat) (retries : N)
    (lastError error : Thrown) (st : RunState) :
  (retries + 1 <= MAX_RETRIES this)%N ->
  outcomeAt W content (fetchCalls st) = inl error ->
  retryLoop W this (S turns) content retries lastError st
  = retryLoop W this turns content (retries + 1) error
      (afterSleep (RETRY_DELAY this * 2 ^ retries) (afterFetch st)).
Proof.
  intros Hle Ho. cbn [retryLoop].
  assert (H0 : (retries <=? MAX_RETRIES this)%N = true) by (apply N.leb_le; lia).
  apply N.leb_le in Hle. rewrite H0.
  unfold bind at 1, attempt. fold (outcomeAt W content (fetchCalls st)). rewrite Ho, Hle.
  unfold bind, sleep. replace (retries + 1 - 1)%N with retries by lia. reflexivity.
Qed.

Lemma retryLoop_give_up (content : string) (turns : nat) (retries : N)
    (lastError error : Thrown) (st : RunState) :
  (retries <= MAX_RETRIES this)%N ->
  (MAX_RETRIES this < retries + 1)%N ->
  outcomeAt W content (fetchCalls st) = inl error ->
  retryLoop W this (S turns) content retries lastError st
  = (inl error, afterFetch st).
Proof.
  intros Hle Hgt Ho. cbn [retryLoop].
  apply N.leb_le in Hle. apply N.leb_gt in Hgt. rewrite Hle.
  unfold bind, attempt. fold (outcomeAt W content (fetchCalls st)). now rewrite Ho, Hgt.
Qed.

(** The retry loop, run from [retries] with [turns] turns to go: it
    stops at the first attempt [k] that succeeds, or at the last turn;
    its outcome is that of attempt [k]; it sleeps once before each
    further attempt. *)
Lemma retryLoop_run (content : string) (turns : nat) :
  forall (retries : N) (lastError : Thrown) (st : RunState),
    (N.of_nat turns + retries = MAX_RETRIES this + 1)%N ->
    (0 < turns)%nat ->
    exists k,
      (k < turns)%nat
      /\ fst (retryLoop W this turns content retries lastError st)
         = outcomeAt W content (fetchCalls st + k)
      /\ (forall j, (j < k)%nat ->
            exists e, outcomeAt W content (fetchCalls st + j) = inl e)
      /\ ((exists e, outcomeAt W content (fetchCalls st + k) = inl e) -> S k = turns)
      /\ fetchCalls (snd (retryLoop W this turns content retries lastError st))
         = (fetchCalls st + S k)%nat
      /\ sleeps (snd (retryLoop W this turns content retries lastError st))
         = (sleeps st ++ backoff this (N.to_nat retries) k)%list
      /\ prompt (snd (retryLoop W this turns content retries lastError st)) = prompt st
      /\ promptLoads (snd (retryLoop W this turns content retries lastError st))
         = promptLoads st
      /\ clockReads (snd (retryLoop W this turns content retries lastError st))
         = clockReads st.
Proof.
  induction turns as [|turns IH]; intros retries lastError st Hm Hpos; [lia|].
  destruct (outcomeAt W content (fetchCalls st)) as [error|text] eqn:Eo.
  - destruct (N.leb_spec (retries + 1) (MAX_RETRIES this)) as [Hmore|Hlast].
    + rewrite (retryLoop_retry content turns retries lastError error st Hmore Eo).
      destruct (IH (retries + 1)%N error
                  (afterSleep (RETRY_DELAY this * 2 ^ retries) (afterFetch st)))
        as (k & Hk & Hr & Hf & Hl & H1 & H2 & H3 & H4 & H5); [lia | lia |].
      cbn [afterSleep afterFetch fetchCalls sleeps prompt promptLoads clockReads] in *.
      exists (S k). repeat split.
      * lia.
      * rewrite Hr. f_equal. lia.
      * intros j Hj. destruct j as [|j].
        -- exists error. now rewrite Nat.add_0_r.
        -- destruct (Hf j) as [e He]; [lia|]. exists e. rewrite <- He. f_equal. lia.
      * intros [e He]. f_equal. apply Hl. exists e. rewrite <- He. f_equal. lia.
      * rewrite H1. lia.
      * rewrite H2, <- List.app_assoc. f_equal. unfold backoff. cbn [seq map app].
        f_equal.
        -- f_equal. f_equal. lia.
        -- f_equal. f_equal. lia.
      * assumption.
      * assumption.
      * assumption.
    + rewrite (retryLoop_give_up content turns retries lastError error st); [|lia|lia|exact Eo].
      exists 0%nat. cbn [fst snd afterFetch fetchCalls sleeps prompt promptLoads clockReads].
      rewrite Nat.add_0_r, Eo. unfold backoff. cbn [seq map].
      repeat split; try lia. now rewrite app_nil_r.
  - rewrite (retryLoop_success content turns retries lastError st text); [|lia|exact Eo].
    exists 0%nat. cbn [fst snd afterFetch fetchCalls sleeps prompt promptLoads clockReads].
    rewrite Nat.add_0_r, Eo. unfold backoff. cbn [seq map].
    repeat split; try lia.
    + intros [e He]. discriminate He.
    + now rewrite app_nil_r.
Qed.

(** [ensurePrompt] makes no call of [fetch], does not sleep, and throws
    errors only. *)
Lemma ensurePrompt_run (st : RunState) :
  exists r st1,
    ensurePrompt W st = (r, st1)
    /\ fetchCalls st1 = fetchCalls st
    /\ sleeps st1 = sleeps st
    /\ clockReads st1 = clockReads st
    /\ match r with
       | inl e => exists message, e = ThrownError message
       | inr p => prompt st1 = Some p
       end.
Proof.
  unfold ensurePrompt.
  assert (Hload : exists r st1,
             callLoadPrompt W st = (r, st1)
             /\ fetchCalls st1 = fetchCalls st
             /\ sleeps st1 = sleeps st
             /\ clockReads st1 = clockReads st
             /\ match r with
                | inl e => exists message, e = ThrownError message
                | inr p => prompt st1 = Some p
                end).
  { unfold callLoadPrompt. destruct (loadPrompt W (promptLoads st)) as [m|text].
    - eexists. eexists. repeat split. now exists m.
    - eexists. eexists. repeat split. }
  destruct (prompt st) as [p|] eqn:Ep; [|exact Hload].
  destruct (truthy p); [|exact Hload].
  exists (inr p), st. now repeat split.
Qed.

(** [generateProfile]: either the prompt cannot be loaded and nothing is
    sent, or the request is attempted [k + 1] times with [k] at most
    [MAX_RETRIES]; each of the first [k] attempts fails and is followed
    by a sleep of [RETRY_DELAY * 2^j], [j = 0, ..., k - 1]; the outcome
    is that of the last attempt, which is a failure only when the
    retries are used up. *)
Lemma generateProfile_run (data : string) (chunkIndex totalChunks : N)
    (st : RunState) :
  (exists message st1,
      ensurePrompt W st = (inl (ThrownError message), st1)
      /\ generateProfile W this data chunkIndex totalChunks st
         = (inl (ThrownError message), st1)
      /\ fetchCalls st1 = fetchCalls st
      /\ sleeps st1 = sleeps st)
  \/ (exists p st1 k,
        ensurePrompt W st = (inr p, st1)
        /\ (N.of_nat k <= MAX_RETRIES this)%N
        /\ fst (generateProfile W this data chunkIndex totalChunks st)
           = outcomeAt W (requestContent p data chunkIndex totalChunks)
               (fetchCalls st + k)
        /\ (forall j, (j < k)%nat ->
              exists e,
                outcomeAt W (requestContent p data chunkIndex totalChunks)
                  (fetchCalls st + j) = inl e)
        /\ ((exists e,
                outcomeAt W (requestContent p data chunkIndex totalChunks)
                  (fetchCalls st + k) = inl e) ->
            N.of_nat k = MAX_RETRIES this)
        /\ fetchCalls (snd (generateProfile W this data chunkIndex totalChunks st))
           = (fetchCalls st + k + 1)%nat
        /\ sleeps (snd (generateProfile W this data chunkIndex totalChunks st))
           = (sleeps st ++ backoff this 0 k)%list
        /\ clockReads (snd (generateProfile W this data chunkIndex totalChunks st))
           = clockReads st).
Proof.
  destruct (ensurePrompt_run st) as (r & st1 & He & Hf & Hs & Hc & Hr).
  unfold generateProfile, bind. rewrite He.
  destruct r as [e|p].
  - left. destruct Hr as [message ->]. exists message, st1. now repeat split.
  - right.
    destruct (retryLoop_run (requestContent p data chunkIndex totalChunks)
                (S (N.to_nat (MAX_RETRIES this))) 0 ThrownNull st1)
      as (k & Hk & H1 & H2 & H3 & H4 & H5 & _ & _ & H6); [lia | lia |].
    exists p, st1, k. rewrite Hf in *. rewrite Hs in *. rewrite Hc in *.
    repeat split; try assumption.
    + lia.
    + intros H. apply H3 in H. lia.
    + rewrite H4. lia.
Qed.

(** [generateProfile] throws errors, never [null]. *)
Lemma generateProfile_throws_error (data : string) (chunkIndex totalChunks : N)
    (st : RunState) (e : Thrown) :
  fst (generateProfile W this data chunkIndex totalChunks st) = inl e ->
  exists message, e = ThrownError message.
Proof.
  destruct (generateProfile_run data chunkIndex totalChunks st)
    as [(m & st1 & _ & -> & _) | (p & st1 & k & _ & _ & -> & _)].
  - cbn [fst]. intros [= <-]. now exists m.
  - apply readOutcome_error.
Qed.

End SubmissionFacts.

(** C7. With the settings of the constructor, [generateProfile] makes at
    most 4 attempts; every failed attempt but the fourth is followed by a
    sleep, of 2000 * 2^(k-1) milliseconds before retry [k]; a response
    with a success status and no [choices] fails the attempt like a
    rejected [fetch] and is retried; and when the fourth attempt fails
    too, what is thrown is the error of that last attempt.  Only a
    prompt that cannot be loaded ends the submission before any
    attempt. *)
Theorem generateProfile_retry_policy (W : World) (data : string)
    (chunkIndex totalChunks : N) (st : RunState) :
  ((exists message st1,
       ensurePrompt W st = (inl (ThrownError message), st1)
       /\ generateProfile W new_ProfileAnalyzer data chunkIndex totalChunks st
          = (inl (ThrownError message), st1)
       /\ fetchCalls st1 = fetchCalls st
       /\ sleeps st1 = sleeps st)
   \/ (exists p st1 k,
         ensurePrompt W st = (inr p, st1)
         /\ (k <= 3)%nat
         /\ fetchCalls (snd (generateProfile W new_ProfileAnalyzer data chunkIndex
                               totalChunks st))
            = (fetchCalls st + (k + 1))%nat
         /\ sleeps (snd (generateProfile W new_ProfileAnalyzer data chunkIndex
                           totalChunks st))
            = (sleeps st
               ++ map (fun retry => (2000 * 2 ^ (N.of_nat retry - 1))%N) (seq 1 k))%list
         /\ (forall j, (j < k)%nat ->
               exists e,
                 outcomeAt W (requestContent p data chunkIndex totalChunks)
                   (fetchCalls st + j) = inl e)
         /\ fst (generateProfile W new_ProfileAnalyzer data chunkIndex totalChunks st)
            = outcomeAt W (requestContent p data chunkIndex totalChunks)
                (fetchCalls st + k)
         /\ (forall e,
               fst (generateProfile W new_ProfileAnalyzer data chunkIndex
                      totalChunks st) = inl e ->
               k = 3%nat /\ exists message, e = ThrownError message)))
  /\ (forall r text,
        ok r = true -> body r = BodyData text NoChoices ->
        readOutcome (FetchResponse r)
        = inl (ThrownError "No choices returned from OpenRouter API"))
  /\ (forall message, readOutcome (FetchFailed message) = inl (ThrownError message)).
Proof.
  split; [|split].
  - destruct (generateProfile_run W new_ProfileAnalyzer data chunkIndex totalChunks st)
      as [H | (p & st1 & k & He & Hk & Hr & Hf & Hl & Hc & Hs & _)].
    + now left.
    + right. exists p, st1, k. cbn [MAX_RETRIES new_ProfileAnalyzer] in Hk, Hl.
      repeat split.
      * exact He.
      * lia.
      * rewrite Hc. lia.
      * rewrite Hs. f_equal. unfold backoff. cbn [RETRY_DELAY new_ProfileAnalyzer].
        rewrite <- seq_shift, map_map. apply map_ext. intros j.
        f_equal. f_equal. lia.
      * exact Hf.
      * exact Hr.
      * rewrite Hr in H. assert (N.of_nat k = 3%N) by (apply Hl; now exists e). lia.
      * rewrite Hr in H. now apply readOutcome_error in H.
  - intros r text. apply readOutcome_no_choices.
  - reflexivity.
Qed.

(* ================================================================= *)
(** ** The analysis driver: a run over all chunks *)

Section RunFacts.

Context {rt : JsonRuntime}.
Variable W : World.
Variable this : ProfileAnalyzer.

Lemma chunkLoop_run (rest : list string) :
  forall (total i : N) (acc : string * list N) (st : RunState),
    fst (chunkLoop W this total i rest acc st)
    = inr (accumulate total i (chunkResults W this total i rest st) acc).
Proof.
  induction rest as [|chunk rest IH]; intros total i acc st; [reflexivity|].
  cbn [chunkLoop chunkResults accumulate]. unfold bind, tryCatch.
  destruct (generateProfile W this chunk i total st) as [r st1]. cbn [fst snd].
  apply IH.
Qed.

Lemma accumulate_failed (total : N) (rs : list (Thrown + string)) :
  forall (i : N) (acc : string * list N),
    snd (accumulate total i rs acc) = (snd acc ++ failedFrom i rs)%list.
Proof.
  induction rs as [|r rs IH]; intros i acc; cbn [accumulate failedFrom].
  - now rewrite app_nil_r.
  - rewrite IH. destruct r as [e|out].
    + cbn [snd]. now rewrite <- List.app_assoc.
    + destruct (i =? 0)%N; [reflexivity|]. now destruct (i =? total - 1)%N.
Qed.

(** Past the first chunk, only the last chunk can change the kept
    output. *)
Lemma accumulate_kept (total : N) (rs : list (Thrown + string)) :
  forall (i : N) (acc : string * list N),
    (1 <= i)%N -> (i + N.of_nat (List.length rs) = total)%N ->
    fst (accumulate total i rs acc)
    = match last rs (inl ThrownNull) with
      | inr out => out
      | inl _ => fst acc
      end.
Proof.
  induction rs as [|r rs IH]; intros i acc Hi Hn; [reflexivity|].
  cbn [accumulate]. destruct rs as [|r' rs].
  - cbn [accumulate last]. cbn [List.length] in Hn. destruct r as [e|out]; [reflexivity|].
    destruct (N.eqb_spec i 0); [lia|].
    destruct (N.eqb_spec i (total - 1)); [reflexivity | lia].
  - rewrite IH; [|lia|cbn [List.length] in *; lia].
    change (last (r :: r' :: rs) (inl ThrownNull)) with (last (r' :: rs) (inl ThrownNull)).
    destruct (last (r' :: rs) (inl ThrownNull)) as [e|out]; [|reflexivity].
    destruct r as [e'|out']; [reflexivity|].
    destruct (N.eqb_spec i 0); [lia|].
    destruct (N.eqb_spec i (total - 1)); [cbn [List.length] in Hn; lia | reflexivity].
Qed.

Lemma accumulate_run (rs : list (Thrown + string)) :
  (2 <= List.length rs)%nat ->
  accumulate (N.of_nat (List.length rs)) 0 rs ("", [])
  = (keptOutput rs, failedFrom 0 rs).
Proof.
  intros Hn. apply injective_projections.
  - destruct rs as [|r rs]; [cbn in Hn; lia|].
    cbn [accumulate]. rewrite accumulate_kept; [|lia|cbn [List.length]; lia].
    unfold keptOutput. destruct rs as [|r' rs]; [cbn in Hn; lia|].
    change (last (r :: r' :: rs) (inl ThrownNull)) with (last (r' :: rs) (inl ThrownNull)).
    destruct (last (r' :: rs) (inl ThrownNull)); [|reflexivity].
    now destruct r.
  - now rewrite accumulate_failed.
Qed.

Lemma chunkResults_length (rest : list string) :
  forall (total i : N) (st : RunState),
    List.length (chunkResults W this total i rest st) = List.length rest.
Proof.
  induction rest as [|c rest IH]; intros total i st; cbn [chunkResults List.length];
    [reflexivity | now rewrite IH].
Qed.

Lemma analyzeBody_no_chunks (jsonFiles : JsObject) (st : RunState) :
  processJsonFiles this jsonFiles = [] ->
  analyzeBody W this jsonFiles st
  = (inl (ThrownError "No valid data chunks to process"), afterClock st).
Proof.
  intros H. unfold analyzeBody, bind, dateNow. rewrite H. reflexivity.
Qed.

Lemma analyzeBody_one_chunk (jsonFiles : JsObject) (chunk : string) (st : RunState) :
  processJsonFiles this jsonFiles = [chunk] ->
  analyzeBody W this jsonFiles st
  = match generateProfile W this chunk 0 1 (afterClock st) with
    | (inl e, st1) => (inl e, st1)
    | (inr p, st1) =>
        (inr (analysisResult jsonFiles [chunk] p []
                (Date_now W (clockReads st)) (Date_now W (clockReads st1))),
         afterClock st1)
    end.
Proof.
  intros H. unfold analyzeBody, bind at 1 2 3, dateNow at 1. rewrite H.
  fold (afterClock st).
  destruct (generateProfile W this chunk 0 1 (afterClock st)) as [[e|p] st1];
    reflexivity.
Qed.

Lemma analyzeBody_chunks (jsonFiles : JsObject) (st : RunState) :
  (2 <= List.length (processJsonFiles this jsonFiles))%nat ->
  exists startTime endTime st',
    analyzeBody W this jsonFiles st
    = (inr (analysisResult jsonFiles (processJsonFiles this jsonFiles)
              (keptOutput
                 (chunkResults W this
                    (N.of_nat (List.length (processJsonFiles this jsonFiles))) 0
                    (processJsonFiles this jsonFiles) (afterClock st)))
              (failedFrom 0
                 (chunkResults W this
                    (N.of_nat (List.length (processJsonFiles this jsonFiles))) 0
                    (processJsonFiles this jsonFiles) (afterClock st)))
              startTime endTime),
       st').
Proof.
  intros Hn. unfold analyzeBody, bind at 1 2, dateNow at 1. fold (afterClock st).
  set (dataChunks := processJsonFiles this jsonFiles) in *.
  pose proof (chunkLoop_run dataChunks (N.of_nat (List.length dataChunks)) 0 ("", [])
                (afterClock st)) as Hrun.
  assert (Hloop :
    match dataChunks with
    | [] => throw (ThrownError "No valid data chunks to process")
    | [chunk] => p <- generateProfile W this chunk 0 1 ;; ret (p, [])
    | _ => chunkLoop W this (N.of_nat (List.length dataChunks)) 0 dataChunks ("", [])
    end = chunkLoop W this (N.of_nat (List.length dataChunks)) 0 dataChunks ("", [])).
  { destruct dataChunks as [|c [|c' l]]; cbn in Hn; try lia. reflexivity. }
  rewrite Hloop.
  destruct (chunkLoop W this (N.of_nat (List.length dataChunks)) 0 dataChunks ("", [])
              (afterClock st)) as [r st1].
  cbn [fst] in Hrun. subst r.
  set (rs := chunkResults W this (N.of_nat (List.length dataChunks)) 0 dataChunks (afterClock st)).
  assert (Hlen : List.length rs = List.length dataChunks) by apply chunkResults_length.
  assert (Hacc : accumulate (N.of_nat (List.length dataChunks)) 0 rs ("", [])
                 = (keptOutput rs, failedFrom 0 rs))
    by (rewrite <- Hlen; apply accumulate_run; lia).
  rewrite Hacc. unfold bind, dateNow, ret. cbn [fst snd].
  eexists. eexists. eexists. reflexivity.
Qed.

End RunFacts.

Section AnalyzeFacts.

Context {rt : JsonRuntime}.
Variable W : World.
Variable this : ProfileAnalyzer.

(** What a run over several chunks returns, as the code stands: the
    output of the last chunk when its submission succeeded, otherwise the
    output of the first chunk when its submission succeeded, otherwise
    the empty text; the stats list the numbers, counted from 1, of the
    failed chunks; and [success] holds when no chunk failed or the
    returned text is not empty. *)
Theorem analyzeProfile_keeps_first_or_last (jsonFiles : JsObject) (st : RunState) :
  (2 <= List.length (processJsonFiles this jsonFiles))%nat ->
  let rs :=
    chunkResults W this
      (N.of_nat (List.length (processJsonFiles this jsonFiles))) 0
      (processJsonFiles this jsonFiles) (afterClock st) in
  exists result st',
    analyzeProfile W this jsonFiles st = (inr result, st')
    /\ profile result = Some (keptOutput rs)
    /\ option_map chunksFailed (stats result) = Some (failedFrom 0 rs)
    /\ success result
       = ((N.of_nat (List.length (failedFrom 0 rs)) =? 0)%N
          || (0 <? len (keptOutput rs))%N)
    /\ (forall o1 e o3,
          rs = [inr o1; inl e; inr o3] ->
          profile result = Some o3
          /\ option_map chunksFailed (stats result) = Some [2%N]
          /\ success result = (0 <? len o3)%N).
Proof.
  intros Hn rs.
  destruct (analyzeBody_chunks W this jsonFiles st Hn) as (t0 & t1 & st' & Hb).
  fold rs in Hb. unfold analyzeProfile. rewrite Hb.
  eexists. exists st'. split; [reflexivity|].
  cbn [analysisResult profile stats success option_map chunksFailed].
  split; [reflexivity|]. split; [reflexivity|]. split; [reflexivity|].
  intros o1 e o3 Hrs. rewrite Hrs. now repeat split.
Qed.


End AnalyzeFacts.

(* ================================================================= *)
(** ** The driver on concrete runs *)

(** C1. The code at the failing input: of three chunks the first two
    are answered, with [A] and [B], and every attempt for the third is
    rejected.  The last chunk whose submission succeeded is the second,
    and at this very place the code logs that the most recent successful
    chunk is used as the final result; but the returned text is [A], the
    output of the first chunk, since the output of a middle chunk is
    never stored. *)
Lemma analyzeProfile_drops_middle_output :
  chunkResults lastChunkFails new_ProfileAnalyzer 3 0
    (processJsonFiles new_ProfileAnalyzer manyPages) (afterClock initialState)
  = [inr "A"; inr "B"; inl (ThrownError "Failed to fetch")]
  /\ lastSuccessful [inr "A"; inr "B"; inl (ThrownError "Failed to fetch")]
     = Some "B"
  /\ match fst (analyzeProfile lastChunkFails new_ProfileAnalyzer manyPages
                  initialState) with
     | inr result =>
         profile result = Some "A"
         /\ success result = true
         /\ option_map chunksFailed (stats result) = Some [3%N]
     | inl _ => False
     end.
Proof.
  split; [vm_compute; reflexivity|]. split; [reflexivity|].
  vm_compute. repeat split.
Qed.

Lemma analyzeProfile_keeps_first_or_last_witness :
  (2 <= List.length (processJsonFiles new_ProfileAnalyzer manyPages))%nat
  /\ exists result st',
       analyzeProfile secondChunkFails new_ProfileAnalyzer manyPages initialState
       = (inr result, st')
       /\ profile result
          = Some (keptOutput
                    (chunkResults secondChunkFails new_ProfileAnalyzer
                       (N.of_nat (List.length
                                    (processJsonFiles new_ProfileAnalyzer manyPages))) 0
                       (processJsonFiles new_ProfileAnalyzer manyPages)
                       (afterClock initialState)))
       /\ option_map chunksFailed (stats result)
          = Some (failedFrom 0
                    (chunkResults secondChunkFails new_ProfileAnalyzer
                       (N.of_nat (List.length
                                    (processJsonFiles new_ProfileAnalyzer manyPages))) 0
                       (processJsonFiles new_ProfileAnalyzer manyPages)
                       (afterClock initialState)))
       /\ success result
          = ((N.of_nat
                (List.length
                   (failedFrom 0
                      (chunkResults secondChunkFails new_ProfileAnalyzer
                         (N.of_nat (List.length
                                      (processJsonFiles new_ProfileAnalyzer manyPages)))
                         0 (processJsonFiles new_ProfileAnalyzer manyPages)
                         (afterClock initialState)))) =? 0)%N
             || (0 <? len
                   (keptOutput
                      (chunkResults secondChunkFails new_ProfileAnalyzer
                         (N.of_nat (List.length
                                      (processJsonFiles new_ProfileAnalyzer manyPages)))
                         0 (processJsonFiles new_ProfileAnalyzer manyPages)
                         (afterClock initialState))))%N)
       /\ (forall o1 e o3,
             chunkResults secondChunkFails new_ProfileAnalyzer
               (N.of_nat (List.length
                            (processJsonFiles new_ProfileAnalyzer manyPages))) 0
               (processJsonFiles new_ProfileAnalyzer manyPages)
               (afterClock initialState)
             = [inr o1; inl e; inr o3] ->
             profile result = Some o3
             /\ option_map chunksFailed (stats result) = Some [2%N]
             /\ success result = (0 <? len o3)%N).
Proof.
  assert (H : (2 <= List.length (processJsonFiles new_ProfileAnalyzer manyPages))%nat)
    by (vm_compute; lia).
  split; [exact H|].
  exact (analyzeProfile_keeps_first_or_last secondChunkFails new_ProfileAnalyzer
           manyPages initialState H).
Defined.


(** The scenario of three chunks of which the second fails, run. *)
Example second_chunk_fails_run :
  chunkResults secondChunkFails new_ProfileAnalyzer 3 0
    (processJsonFiles new_ProfileAnalyzer manyPages) (afterClock initialState)
  = [inr "A"; inl (ThrownError "Failed to fetch"); inr "C"]
  /\ match analyzeProfile secondChunkFails new_ProfileAnalyzer manyPages
             initialState with
     | (inr result, st') =>
         profile result = Some "C"
         /\ success result = true
         /\ option_map chunksFailed (stats result) = Some [2%N]
         /\ fetchCalls st' = 6%nat
         /\ sleeps st' = [2000%N; 4000%N; 8000%N]
     | (inl _, _) => False
     end.
Proof.
  split; vm_compute; repeat split.
Qed.

(** No file at all: no chunk, no request, and the failure object. *)
Example no_files_run (W : World) :
  analyzeProfile W new_ProfileAnalyzer [] initialState
  = (inr {| success := false; profile := None;
            error := Some "No valid data chunks to process"; stats := None |},
     afterClock initialState).
Proof. reflexivity. Qed.

(** Four failures in a row, of four kinds: a rejected [fetch], a status
    429 without a JSON body, a success without [choices], a status 500
    with a JSON body.  The submission sleeps 2, 4 and 8 seconds and
    throws the error of the fourth attempt. *)
Example four_failures_run :
  generateProfile
    {| fetch := fun n _ =>
         match n with
         | 0%nat => FetchFailed "Failed to fetch"
         | 1%nat =>
             FetchResponse {| ok := false; status := 429;
                              statusText := "Too Many Requests";
                              body := BodyRejected "Unexpected end of JSON input" |}
         | 2%nat =>
             FetchResponse {| ok := true; status := 200; statusText := "OK";
                              body := BodyData "{}" NoChoices |}
         | _ =>
             FetchResponse {| ok := false; status := 500;
                              statusText := "Internal Server Error";
                              body := BodyData "{}" NoChoices |}
         end;
       loadPrompt := fun _ => inr "Describe the person.";
       Date_now := fun _ => 0%Z |}
    new_ProfileAnalyzer "data" 0 1 initialState
  = (inl (ThrownError "OpenRouter API error: Status: 500 - {}"),
     {| prompt := Some "Describe the person."; fetchCalls := 4;
        promptLoads := 1; clockReads := 0;
        sleeps := [2000%N; 4000%N; 8000%N] |}).
Proof. vm_compute. reflexivity. Qed.

(** The scenarios of the folder pattern and of the [.html] twin. *)
Example folder_pattern_run :
  selectedData
    (selectDataForPrompt
       (Some {| prompts := Some [ {| name := "minimal";
                                     data := Some ["ads_information"] |} ] |})
       "minimal"
       [("data/ads_information/prefs.json", "{}"); ("data/other/x.json", "[]")])
  = [("data/ads_information/prefs.json", "{}")].
Proof. reflexivity. Qed.

Example html_twin_run :
  matchesPattern "Export\Posts\your_posts.HTML" "posts/your_posts.json" = true.
Proof. reflexivity. Qed.


(* ================================================================= *)
(** * Further properties *)

(** ** The path pattern matcher *)

Lemma normalizeChar_idem (c : ascii) :
  lowerChar (backslashToSlash (lowerChar (backslashToSlash c)))
  = lowerChar (backslashToSlash c).
Proof.
  destruct c as [[] [] [] [] [] [] [] []]; vm_compute; reflexivity.
Qed.

Lemma normalizePath_idem (path : string) :
  normalizePath (normalizePath path) = normalizePath path.
Proof.
  unfold normalizePath, toLowerCase.
  induction path as [|c path IH]; cbn [mapChars]; [reflexivity|].
  now rewrite normalizeChar_idem, IH.
Qed.

(** X1. Matching only sees the normal form of its arguments: a path and
    a pattern are matched exactly as their normal forms are (lower case,
    forward slashes), so two paths, or two patterns, that differ only in
    case or in the separator are matched alike. *)
Theorem matchesPattern_normalized (filePath pattern : string) :
  matchesPattern (normalizePath filePath) (normalizePath pattern)
  = matchesPattern filePath pattern
  /\ (forall filePath' pattern',
        normalizePath filePath' = normalizePath filePath ->
        normalizePath pattern' = normalizePath pattern ->
        matchesPattern filePath' pattern' = matchesPattern filePath pattern).
Proof.
  split.
  - unfold matchesPattern. now rewrite !normalizePath_idem.
  - intros f' p' Hf Hp. unfold matchesPattern. now rewrite Hf, Hp.
Qed.

(** X2. A pattern that does not end in [.json] is a folder: every path
    below that folder matches, be the folder at the root of the path or
    further down, with either separator. *)
Theorem matchesPattern_folder (pattern dir rest : string) :
  endsWith (normalizePath pattern) ".json" = false ->
  matchesPattern (pattern ++ "/" ++ rest) pattern = true
  /\ matchesPattern (pattern ++ "\" ++ rest) pattern = true
  /\ matchesPattern (dir ++ "/" ++ pattern ++ "/" ++ rest) pattern = true.
Proof.
  intros Hfolder. unfold matchesPattern. rewrite Hfolder.
  rewrite !normalizePath_app.
  change (normalizePath "/") with "/". change (normalizePath "\") with "/".
  repeat split; apply orb_true_iff.
  - left. apply startsWith_spec. exists (normalizePath rest). now rewrite app_assoc.
  - left. apply startsWith_spec. exists (normalizePath rest). now rewrite app_assoc.
  - right. apply includes_spec. exists (normalizePath dir), (normalizePath rest).
    now rewrite !app_assoc.
Qed.

Lemma matchesPattern_folder_witness :
  matchesPattern ("ads_information" ++ "/" ++ "prefs.json") "ads_information" = true
  /\ matchesPattern ("ads_information" ++ "\" ++ "prefs.json") "ads_information" = true
  /\ matchesPattern ("data" ++ "/" ++ "ads_information" ++ "/" ++ "prefs.json")
       "ads_information" = true.
Proof.
  apply (matchesPattern_folder "ads_information" "data" "prefs.json"). reflexivity.
Defined.

(** X3. When [.json] occurs in a pattern only as its extension, the
    pattern matches the file of the same name with the extension [.html],
    at the root or below any folder, whatever the case of the path. *)
Theorem matchesPattern_html_counterpart (base dir : string) :
  includes (normalizePath base) ".json" = false ->
  matchesPattern (base ++ ".html") (base ++ ".json") = true
  /\ matchesPattern (base ++ ".HTML") (base ++ ".json") = true
  /\ matchesPattern (dir ++ "/" ++ base ++ ".html") (base ++ ".json") = true.
Proof.
  intros Hbase. repeat split.
  - apply (matchesPattern_html_twin (normalizePath base) "");
      [now rewrite normalizePath_app | assumption |].
    left. now rewrite normalizePath_app.
  - apply (matchesPattern_html_twin (normalizePath base) "");
      [now rewrite normalizePath_app | assumption |].
    left. now rewrite normalizePath_app.
  - apply (matchesPattern_html_twin (normalizePath base) (normalizePath dir));
      [now rewrite normalizePath_app | assumption |].
    right. now rewrite !normalizePath_app.
Qed.

Lemma matchesPattern_html_counterpart_witness :
  matchesPattern ("posts/your_posts" ++ ".html") ("posts/your_posts" ++ ".json") = true
  /\ matchesPattern ("posts/your_posts" ++ ".HTML") ("posts/your_posts" ++ ".json") = true
  /\ matchesPattern ("export" ++ "/" ++ "posts/your_posts" ++ ".html")
       ("posts/your_posts" ++ ".json") = true.
Proof.
  apply (matchesPattern_html_counterpart "posts/your_posts" "export"). reflexivity.
Defined.

(** X4. No pattern whatever matches a path that has no separator and
    ends neither in [.json] nor in [.html]: such an entry can only be
    used when the selector fails open. *)
Theorem matchesPattern_plain_name (filePath pattern : string) :
  includes (normalizePath filePath) "/" = false ->
  endsWith (normalizePath filePath) ".json" = false ->
  endsWith (normalizePath filePath) ".html" = false ->
  matchesPattern filePath pattern = false.
Proof.
  intros H1 H2 H3. destruct (matchesPattern filePath pattern) eqn:E; [|reflexivity].
  apply matchesPattern_shape in E. destruct E as [E | [E | E]]; congruence.
Qed.

Lemma matchesPattern_plain_name_witness :
  matchesPattern "README.txt" "" = false.
Proof.
  apply (matchesPattern_plain_name "README.txt" ""); reflexivity.
Defined.

(** ** The file selector *)

Lemma obj_set_In (o : JsObject) (k v k' v' : string) :
  In (k, v) (obj_set o k' v') -> In (k, v) o \/ (k, v) = (k', v').
Proof.
  induction o as [|[k0 v0] o IH]; cbn [obj_set].
  - intros [H|[]]. right. now symmetry.
  - destruct (String.eqb_spec k0 k') as [->|Hne]; cbn [In].
    + intros [H|H]; [right; now symmetry | left; now right].
    + intros [H|H]; [left; now left|]. destruct (IH H); [left; now right | now right].
Qed.

Lemma obj_set_keys (o : JsObject) (k v x : string) :
  In x (Object_keys (obj_set o k v)) <-> In x (Object_keys o) \/ x = k.
Proof.
  destruct (in_dec string_dec k (Object_keys o)) as [Hk|Hk].
  - rewrite obj_set_keys_old by assumption. split; [tauto|].
    intros [H| ->]; assumption.
  - rewrite obj_set_new by assumption. unfold Object_keys. rewrite map_app, in_app_iff.
    cbn [map fst In]. split; intros [H|H]; auto.
    destruct H as [<-|[]]. now right.
Qed.

(** What one [forEach] turn does to the two lists of paths. *)
Lemma selectFile_paths (extractedData : JsObject) sel (file : string) :
  In file (Object_keys extractedData) ->
  (forall x, In x (snd sel) <-> In x (Object_keys (fst sel))) ->
  forall x,
    (In x (snd (selectFile extractedData sel file)) <-> In x (snd sel) \/ x = file)
    /\ (In x (snd (selectFile extractedData sel file))
        <-> In x (Object_keys (fst (selectFile extractedData sel file)))).
Proof.
  intros Hin Hsame x. unfold selectFile, obj_falsy.
  destruct (obj_get_key extractedData file Hin) as [content Hc]. rewrite Hc.
  destruct (obj_get (fst sel) file) as [v|] eqn:Eg.
  - assert (Hfile : In file (snd sel)).
    { apply Hsame. apply obj_get_In in Eg.
      apply in_map_iff. now exists (file, v). }
    destruct (truthy v); cbn [negb fst snd].
    + split; [|apply Hsame]. split; [tauto|]. intros [H| ->]; assumption.
    + rewrite in_app_iff, obj_set_keys. cbn [In]. rewrite <- Hsame. split; split; intuition.
  - cbn [fst snd]. rewrite in_app_iff, obj_set_keys. cbn [In]. rewrite <- Hsame.
    split; split; intuition.
Qed.

Lemma selectPattern_paths (extractedData : JsObject) (pattern : string) sel :
  (forall x, In x (snd sel) <-> In x (Object_keys (fst sel))) ->
  forall x,
    (In x (snd (selectPattern extractedData sel pattern))
     <-> In x (snd sel)
         \/ (In x (Object_keys extractedData) /\ matchesPattern x pattern = true))
    /\ (In x (snd (selectPattern extractedData sel pattern))
        <-> In x (Object_keys (fst (selectPattern extractedData sel pattern)))).
Proof.
  unfold selectPattern.
  assert (Hfilter : forall x,
             In x (filter (fun filePath => matchesPattern filePath pattern)
                     (Object_keys extractedData))
             <-> In x (Object_keys extractedData) /\ matchesPattern x pattern = true)
    by (intros x;
        exact (filter_In (fun filePath => matchesPattern filePath pattern) x
                 (Object_keys extractedData))).
  assert (Hsub : forall x,
             In x (filter (fun filePath => matchesPattern filePath pattern)
                     (Object_keys extractedData))
             -> In x (Object_keys extractedData))
    by (intros x Hx; now apply Hfilter in Hx).
  intros Hsame x. rewrite <- Hfilter. clear Hfilter.
  revert sel Hsame x.
  induction (filter (fun filePath => matchesPattern filePath pattern)
               (Object_keys extractedData)) as [|f fs IH]; intros sel Hsame x.
  - cbn [fold_left In]. split; [tauto | apply Hsame].
  - cbn [fold_left].
    assert (Hf : In f (Object_keys extractedData)) by (apply Hsub; now left).
    destruct (IH (fun y Hy => Hsub y (or_intror Hy)) (selectFile extractedData sel f)
                (fun y => proj2 (selectFile_paths extractedData sel f Hf Hsame y)) x)
      as [H1 H2].
    split; [|exact H2].
    rewrite H1, (proj1 (selectFile_paths extractedData sel f Hf Hsame x)).
    cbn [In]. split; intuition.
Qed.

Lemma selectPatterns_paths (extractedData : JsObject) (pats : list string) :
  forall sel,
    (forall x, In x (snd sel) <-> In x (Object_keys (fst sel))) ->
    forall x,
      (In x (snd (fold_left (selectPattern extractedData) pats sel))
       <-> In x (snd sel)
           \/ (In x (Object_keys extractedData)
               /\ exists pattern, In pattern pats /\ matchesPattern x pattern = true))
      /\ (In x (snd (fold_left (selectPattern extractedData) pats sel))
          <-> In x (Object_keys (fst (fold_left (selectPattern extractedData) pats sel)))).
Proof.
  induction pats as [|p pats IH]; intros sel Hsame x.
  - cbn [fold_left]. split; [|apply Hsame]. split; [tauto|].
    intros [H | [_ [pattern [[] _]]]]. exact H.
  - cbn [fold_left].
    destruct (IH (selectPattern extractedData sel p)
                (fun y => proj2 (selectPattern_paths extractedData p sel Hsame y)) x)
      as [H1 H2].
    split; [|exact H2].
    rewrite H1, (proj1 (selectPattern_paths extractedData p sel Hsame x)).
    split.
    + intros [[H | [Hk Hm]] | [Hk [pattern [Hp Hm]]]].
      * now left.
      * right. split; [assumption|]. exists p. split; [now left | assumption].
      * right. split; [assumption|]. exists pattern. split; [now right | assumption].
    + intros [H | [Hk [pattern [[<- | Hp] Hm]]]].
      * left. now left.
      * left. right. now split.
      * right. split; [assumption|]. now exists pattern.
Qed.

(** X5. When the profile is found and has a pattern list, the files used
    are exactly the extracted files that at least one pattern of the list
    matches, and [selectedData] has exactly those files as keys. *)
Theorem selector_selects_matched_files (cfg : PromptConfig)
    (ps : list PromptSettings) (p : PromptSettings) (pats : list string)
    (promptName : string) (extractedData : JsObject) (file : string) :
  prompts cfg = Some ps ->
  find (fun p => String.eqb (name p) promptName) ps = Some p ->
  data p = Some pats ->
  (In file (usedFiles (selectDataForPrompt (Some cfg) promptName extractedData))
   <-> In file (Object_keys extractedData)
       /\ exists pattern, In pattern pats /\ matchesPattern file pattern = true)
  /\ (In file (Object_keys
                 (selectedData (selectDataForPrompt (Some cfg) promptName extractedData)))
      <-> In file (usedFiles (selectDataForPrompt (Some cfg) promptName extractedData))).
Proof.
  intros Hps Hf Hd. unfold selectDataForPrompt. rewrite Hps, Hf, Hd.
  cbn [usedFiles selectedData].
  destruct (selectPatterns_paths extractedData pats ([], [])
              (fun y => conj (fun H => H) (fun H => H)) file) as [H1 H2].
  cbn [snd In] in H1. split.
  - rewrite H1. tauto.
  - symmetry. exact H2.
Qed.

Lemma selector_selects_matched_files_witness :
  (In "data/ads_information/prefs.json"
      (usedFiles
         (selectDataForPrompt
            (Some {| prompts := Some [ {| name := "minimal";
                                          data := Some ["ads_information"] |} ] |})
            "minimal"
            [("data/ads_information/prefs.json", "{}"); ("data/other/x.json", "[]")]))
   <-> In "data/ads_information/prefs.json"
         (Object_keys
            [("data/ads_information/prefs.json", "{}"); ("data/other/x.json", "[]")])
       /\ exists pattern,
            In pattern ["ads_information"]
            /\ matchesPattern "data/ads_information/prefs.json" pattern = true)
  /\ (In "data/ads_information/prefs.json"
         (Object_keys
            (selectedData
               (selectDataForPrompt
                  (Some {| prompts := Some [ {| name := "minimal";
                                                data := Some ["ads_information"] |} ] |})
                  "minimal"
                  [("data/ads_information/prefs.json", "{}");
                   ("data/other/x.json", "[]")])))
      <-> In "data/ads_information/prefs.json"
            (usedFiles
               (selectDataForPrompt
                  (Some {| prompts := Some [ {| name := "minimal";
                                                data := Some ["ads_information"] |} ] |})
                  "minimal"
                  [("data/ads_information/prefs.json", "{}");
                   ("data/other/x.json", "[]")]))).
Proof.
  apply (selector_selects_matched_files
           {| prompts := Some [ {| name := "minimal";
                                   data := Some ["ads_information"] |} ] |}
           [ {| name := "minimal"; data := Some ["ads_information"] |} ]
           {| name := "minimal"; data := Some ["ads_information"] |}
           ["ads_information"]); reflexivity.
Defined.

Lemma selectFile_contents (extractedData : JsObject)
    (sel : JsObject * list string) (file : string) :
  Forall (fun kv => In kv extractedData) (fst sel) ->
  Forall (fun kv => In kv extractedData) (fst (selectFile extractedData sel file)).
Proof.
  intros H. unfold selectFile.
  destruct (obj_falsy (fst sel) file); [|exact H].
  destruct (obj_get extractedData file) as [content|] eqn:Ec; [|exact H].
  cbn [fst]. apply Forall_forall. intros [k v] Hkv.
  apply obj_set_In in Hkv as [Hkv | Hkv].
  - rewrite Forall_forall in H. now apply H.
  - rewrite Hkv. now apply obj_get_In.
Qed.

Lemma selectPatterns_contents (extractedData : JsObject) (pats : list string) :
  forall sel : JsObject * list string,
    Forall (fun kv => In kv extractedData) (fst sel) ->
    Forall (fun kv => In kv extractedData)
      (fst (fold_left (selectPattern extractedData) pats sel)).
Proof.
  induction pats as [|p pats IH]; intros sel H; [exact H|].
  cbn [fold_left]. apply IH. unfold selectPattern.
  revert sel H.
  induction (filter (fun filePath => matchesPattern filePath p)
               (Object_keys extractedData)) as [|f fs IHf]; intros sel H; [exact H|].
  cbn [fold_left]. apply IHf. now apply selectFile_contents.
Qed.

(** X6. Whatever the configuration, every file of [selectedData] is a
    file of the extracted data with its content unchanged: the selector
    invents no file and alters no content. *)
Theorem selector_keeps_contents (promptConfig : option PromptConfig)
    (promptName : string) (extractedData : JsObject) (path content : string) :
  In (path, content)
     (selectedData (selectDataForPrompt promptConfig promptName extractedData)) ->
  In (path, content) extractedData.
Proof.
  unfold selectDataForPrompt.
  destruct promptConfig as [cfg|]; [|now cbn].
  destruct (prompts cfg) as [ps|]; [|now cbn].
  destruct (find _ ps) as [p|]; [|now cbn].
  destruct (data p) as [pats|]; [|now cbn].
  cbn [selectedData]. intros H.
  pose proof (selectPatterns_contents extractedData pats ([], []) (Forall_nil _)) as Hall.
  rewrite Forall_forall in Hall. exact (Hall _ H).
Qed.

Lemma selector_keeps_contents_witness :
  In ("data/ads_information/prefs.json", "{}")
     [("data/ads_information/prefs.json", "{}"); ("data/other/x.json", "[]")].
Proof.
  apply (selector_keeps_contents
           (Some {| prompts := Some [ {| name := "minimal";
                                         data := Some ["ads_information"] |} ] |})
           "minimal"
           [("data/ads_information/prefs.json", "{}"); ("data/other/x.json", "[]")]).
  now left.
Defined.

(** X7. When the extracted files have pairwise distinct paths and none
    of them is empty, [usedFiles] is the list of the keys of
    [selectedData], in the same order and without duplicates. *)
Theorem selector_used_files_are_the_keys (promptConfig : option PromptConfig)
    (promptName : string) (extractedData : JsObject) :
  NoDup (Object_keys extractedData) ->
  Forall (fun kv => truthy (snd kv) = true) extractedData ->
  usedFiles (selectDataForPrompt promptConfig promptName extractedData)
  = Object_keys (selectedData (selectDataForPrompt promptConfig promptName extractedData))
  /\ NoDup (usedFiles (selectDataForPrompt promptConfig promptName extractedData)).
Proof.
  intros Hnd Hed. unfold selectDataForPrompt.
  destruct promptConfig as [cfg|]; [|now cbn].
  destruct (prompts cfg) as [ps|]; [|now cbn].
  destruct (find _ ps) as [p|]; [|now cbn].
  destruct (data p) as [pats|]; [|now cbn].
  cbn [usedFiles selectedData].
  destruct (selectPatterns_exact extractedData pats ([], []) Hed) as (H1 & H2 & _).
  - repeat split; constructor.
  - now split.
Qed.

Lemma selector_used_files_are_the_keys_witness :
  usedFiles
    (selectDataForPrompt
       (Some {| prompts := Some [ {| name := "posts";
                                     data := Some ["posts"; "posts/a.json"] |} ] |})
       "posts" [("posts/b.json", "[]"); ("posts/a.json", "{}")])
  = Object_keys
      (selectedData
         (selectDataForPrompt
            (Some {| prompts := Some [ {| name := "posts";
                                          data := Some ["posts"; "posts/a.json"] |} ] |})
            "posts" [("posts/b.json", "[]"); ("posts/a.json", "{}")]))
  /\ NoDup
       (usedFiles
          (selectDataForPrompt
             (Some {| prompts := Some [ {| name := "posts";
                                           data := Some ["posts"; "posts/a.json"] |} ] |})
             "posts" [("posts/b.json", "[]"); ("posts/a.json", "{}")])).
Proof.
  apply (selector_used_files_are_the_keys
           (Some {| prompts := Some [ {| name := "posts";
                                         data := Some ["posts"; "posts/a.json"] |} ] |})
           "posts" [("posts/b.json", "[]"); ("posts/a.json", "{}")]).
  - repeat constructor; cbn; intuition discriminate.
  - repeat constructor.
Defined.

(** X8. [configFound] tells the two outcomes of the selector apart: when
    it is [false] the selector has failed open and everything is
    selected; when it is [true] the requested name is one of the names
    [getAvailablePrompts] lists for the same configuration, the pattern
    list is echoed and [selectedCount] is the length of [usedFiles]. *)
Theorem selector_config_found (promptConfig : option PromptConfig)
    (promptName : string) (extractedData : JsObject) :
  (configFound (selectDataForPrompt promptConfig promptName extractedData) = false ->
   failsOpen (selectDataForPrompt promptConfig promptName extractedData) extractedData)
  /\ (configFound (selectDataForPrompt promptConfig promptName extractedData) = true ->
      In promptName (getAvailablePrompts promptConfig)
      /\ (exists pats,
            patterns (selectDataForPrompt promptConfig promptName extractedData)
            = Some pats)
      /\ selectedCount (selectDataForPrompt promptConfig promptName extractedData)
         = Some (N.of_nat
                   (List.length
                      (usedFiles
                         (selectDataForPrompt promptConfig promptName extractedData))))).
Proof.
  unfold selectDataForPrompt, getAvailablePrompts.
  destruct promptConfig as [cfg|];
    [|split; [intros _; apply useAllData_failsOpen | discriminate]].
  destruct (prompts cfg) as [ps|];
    [|split; [intros _; apply useAllData_failsOpen | discriminate]].
  destruct (find _ ps) as [p|] eqn:Ef;
    [|split; [intros _; apply useAllData_failsOpen | discriminate]].
  destruct (data p) as [pats|];
    [|split; [intros _; apply useAllData_failsOpen | discriminate]].
  cbn [configFound patterns selectedCount usedFiles]. split; [discriminate|].
  intros _. repeat split.
  - apply find_some in Ef as [Hin Hname]. apply String.eqb_eq in Hname.
    apply in_map_iff. now exists p.
  - now exists pats.
Qed.

(** X9. Whatever goes wrong while the configuration is loaded, a
    rejected [fetch], a status that is not a success, a body that is no
    JSON or that is [null], nothing is thrown: the selector fails open
    and no prompt name is listed. *)
Theorem config_load_failure_degrades (o : ConfigOutcome) (promptName : string)
    (extractedData : JsObject) :
  match o with
  | ConfigFetchFailed _ => True
  | ConfigResponse ok _ json =>
      ok = false \/ (exists message, json = inl message) \/ json = inr None
  end ->
  failsOpen (selectDataForPrompt (loadPromptConfig o) promptName extractedData)
    extractedData
  /\ getAvailablePrompts (loadPromptConfig o) = [].
Proof.
  intros H.
  assert (E : loadPromptConfig o = None).
  { destruct o as [m|ok st json]; [reflexivity|]. cbn [loadPromptConfig].
    destruct H as [-> | [[m ->] | ->]]; [reflexivity | |]; now destruct ok. }
  rewrite E. split; [apply useAllData_failsOpen | reflexivity].
Qed.

Lemma config_load_failure_degrades_witness :
  failsOpen
    (selectDataForPrompt
       (loadPromptConfig (ConfigResponse false "Not Found" (inl "Unexpected token <")))
       "minimal" [("data/other/x.json", "[]")])
    [("data/other/x.json", "[]")]
  /\ getAvailablePrompts
       (loadPromptConfig (ConfigResponse false "Not Found" (inl "Unexpected token <")))
     = [].
Proof.
  apply (config_load_failure_degrades
           (ConfigResponse false "Not Found" (inl "Unexpected token <"))).
  now left.
Defined.

(** ** The chunker *)

Section ChunkerMore.

Context {rt : JsonRuntime}.
Variable this : ProfileAnalyzer.

(** X10. The files are taken in ascending order of content length, the
    files of one length in the order of the input, and the list taken is
    a rearrangement of the input: a stable sort by length. *)
Theorem sortedEntries_stable_sort (jsonFiles : JsObject) :
  Permutation (sortedEntries jsonFiles) jsonFiles
  /\ Sorted bySize (sortedEntries jsonFiles)
  /\ (forall n,
        filter (fun file => (len (snd file) =? n)%N) (sortedEntries jsonFiles)
        = filter (fun file => (len (snd file) =? n)%N) jsonFiles).
Proof.
  split; [apply sortedEntries_perm|]. split; [apply sortedEntries_sorted|].
  intros n. apply sortedEntries_stable.
Qed.

Lemma placeEntry_counted (st : ChunkerState) gs cur (e : string) :
  e <> "" -> Counted this st gs cur ->
  exists gs' cur',
    Counted this (placeEntry this st e) gs' cur'
    /\ (List.concat gs' ++ cur' = (List.concat gs ++ cur) ++ [e])%list.
Proof.
  intros He ((Hc & Hcur & Hne) & Hn & Hb). unfold placeEntry.
  destruct (startsNewChunk this st e) eqn:Hnew.
  - exists (gs ++ [cur])%list, [e]. split.
    + repeat split; cbn [chunks currentChunk filesInCurrentChunk].
      * rewrite Hc, Hcur, map_app. reflexivity.
      * now constructor.
      * apply Forall_app. split; [assumption|]. constructor; [cbn; lia | constructor].
    + rewrite concat_app. cbn. now rewrite app_nil_r.
  - exists gs, (cur ++ [e])%list. split.
    + repeat split; cbn [chunks currentChunk filesInCurrentChunk].
      * assumption.
      * now rewrite Hcur, concat_nil_app.
      * apply Forall_app. split; [assumption | now constructor].
      * rewrite Hn, List.length_app. cbn [List.length]. lia.
      * apply Forall_app in Hb as [Hgs Hcb]. apply Forall_app. split; [assumption|].
        constructor; [|constructor].
        unfold startsNewChunk in Hnew. apply orb_false_iff in Hnew as [_ Hfiles].
        rewrite List.length_app. cbn [List.length].
        apply andb_false_iff in Hfiles as [Hfew | Hempty].
        -- apply N.leb_gt in Hfew. rewrite Hn in Hfew. lia.
        -- apply N.ltb_ge in Hempty.
           assert (E : currentChunk st = "").
           { destruct (currentChunk st); [reflexivity|]. unfold len in Hempty.
             cbn in Hempty. lia. }
           rewrite Hcur in E. apply concat_nonempty in E; [|assumption].
           subst cur. cbn. lia.
    + now rewrite List.app_assoc.
Qed.

Lemma placeEntries_counted (es : list string) (st : ChunkerState) gs cur :
  Forall (fun e => e <> "") es -> Counted this st gs cur ->
  exists gs' cur',
    Counted this (fold_left (placeEntry this) es st) gs' cur'
    /\ (List.concat gs' ++ cur' = (List.concat gs ++ cur) ++ es)%list.
Proof.
  revert st gs cur. induction es as [|e es IH]; intros st gs cur Hes H.
  - exists gs, cur. now rewrite app_nil_r.
  - inversion Hes as [|? ? He Hes']; subst.
    destruct (placeEntry_counted st gs cur e He H) as (gs1 & cur1 & H1 & E1).
    destruct (IH _ gs1 cur1 Hes' H1) as (gs2 & cur2 & H2 & E2).
    exists gs2, cur2. split; [exact H2|].
    rewrite E2, E1, <- List.app_assoc. reflexivity.
Qed.

(** X11. No chunk holds more than [MAX_FILES_PER_CHUNK] files (one file
    being always allowed): the chunks are the concatenations of groups of
    formatted entries that put end to end are the entries in sorted
    order, and each group has at most that many entries. *)
Theorem chunker_files_per_chunk (jsonFiles : JsObject) :
  exists groups : list (list string),
    processJsonFiles this jsonFiles = map (String.concat "") groups
    /\ List.concat groups = entriesOf (sortedEntries jsonFiles)
    /\ Forall (fun g => (N.of_nat (List.length g)
                         <= N.max 1 (MAX_FILES_PER_CHUNK this))%N) groups.
Proof.
  unfold processJsonFiles. rewrite fold_chunkerStep.
  destruct (placeEntries_counted (entriesOf (sortedEntries jsonFiles))
              chunkerStart [] [] (entriesOf_nonempty _))
    as (gs & cur & ((Hc & Hcur & Hne) & _ & Hb) & E).
  - repeat split; [constructor | constructor; [cbn; lia | constructor]].
  - rewrite app_nil_l in E. unfold chunkerFinish.
    destruct (N.ltb_spec 0 (len (currentChunk
                (fold_left (placeEntry this) (entriesOf (sortedEntries jsonFiles))
                   chunkerStart)))) as [Hpos|Hzero].
    + exists (gs ++ [cur])%list. repeat split.
      * now rewrite Hc, Hcur, map_app.
      * rewrite concat_app. cbn. now rewrite app_nil_r.
      * assumption.
    + exists gs. repeat split.
      * assumption.
      * assert (Ecur : currentChunk
                         (fold_left (placeEntry this)
                            (entriesOf (sortedEntries jsonFiles)) chunkerStart) = "").
        { destruct (currentChunk _); [reflexivity|]. unfold len in Hzero.
          cbn in Hzero. lia. }
        rewrite Hcur in Ecur. apply concat_nonempty in Ecur; [|assumption].
        subst cur. now rewrite app_nil_r in E.
      * now apply Forall_app in Hb as [Hgs _].
Qed.

(** From an open chunk that is not empty on, only non-empty chunks are
    closed. *)
Lemma placeEntries_nonempty (es : list string) :
  forall st : ChunkerState,
    currentChunk st <> "" -> Forall (fun e => e <> "") es ->
    exists more,
      chunkerFinish (fold_left (placeEntry this) es st) = (chunks st ++ more)%list
      /\ Forall (fun c => c <> "") more
      /\ more <> [].
Proof.
  induction es as [|x es IH]; intros st Hcur Hes.
  - cbn [fold_left]. unfold chunkerFinish.
    destruct (N.ltb_spec 0 (len (currentChunk st))) as [Hpos|Hzero].
    + exists [currentChunk st]. repeat split; [now constructor | discriminate].
    + exfalso. apply Hcur. destruct (currentChunk st); [reflexivity|].
      unfold len in Hzero. cbn in Hzero. lia.
  - inversion Hes as [|? ? Hx Hes']; subst. cbn [fold_left].
    destruct (IH (placeEntry this st x)) as (more & E & Hmore & Hne); [|assumption|].
    + unfold placeEntry. destruct (startsNewChunk this st x); cbn [currentChunk];
        [assumption|]. destruct (currentChunk st); [contradiction | discriminate].
    + rewrite E. unfold placeEntry.
      destruct (startsNewChunk this st x); cbn [chunks].
      * exists (currentChunk st :: more). repeat split.
        -- now rewrite <- List.app_assoc.
        -- now constructor.
        -- discriminate.
      * now exists more.
Qed.

(** X12. The first chunk is empty exactly when the smallest file's entry
    alone is over the size budget: the entry then follows as the second
    chunk.  Every other chunk is non-empty. *)
Theorem chunker_leading_empty_chunk (jsonFiles : JsObject) (e : string)
    (es : list string) :
  entriesOf (sortedEntries jsonFiles) = e :: es ->
  ((MAX_CHUNK_SIZE this < len e)%N ->
   exists rest,
     processJsonFiles this jsonFiles = "" :: e :: rest
     /\ Forall (fun c => c <> "") rest)
  /\ ((len e <= MAX_CHUNK_SIZE this)%N ->
      processJsonFiles this jsonFiles <> []
      /\ Forall (fun c => c <> "") (processJsonFiles this jsonFiles)).
Proof.
  intros Hes.
  assert (Hne : Forall (fun x => x <> "") (e :: es))
    by (rewrite <- Hes; apply entriesOf_nonempty).
  inversion Hne as [|? ? He Hes']; subst.
  unfold processJsonFiles. rewrite fold_chunkerStep, Hes. cbn [fold_left].
  split; intros Hsize.
  - assert (Hnew : startsNewChunk this chunkerStart e = true).
    { unfold startsNewChunk. apply orb_true_iff. left. apply N.ltb_lt.
      cbn [currentChunk chunkerStart]. change (len "") with 0%N. lia. }
    unfold placeEntry at 2. rewrite Hnew. cbn [chunks currentChunk chunkerStart app].
    destruct es as [|x es].
    + exists []. split; [|constructor]. cbn [fold_left]. unfold chunkerFinish.
      cbn [chunks currentChunk]. destruct (N.ltb_spec 0 (len e)); [reflexivity | lia].
    + inversion Hes' as [|? ? Hx Hes'']; subst. cbn [fold_left].
      assert (Hnew' : forall st, currentChunk st = e -> startsNewChunk this st x = true).
      { intros st Hst. unfold startsNewChunk. apply orb_true_iff. left. apply N.ltb_lt.
        rewrite Hst. lia. }
      unfold placeEntry at 2. rewrite Hnew' by reflexivity.
      cbn [chunks currentChunk app].
      destruct (placeEntries_nonempty es
                  {| chunks := [""; e]; currentChunk := x; filesInCurrentChunk := 1;
                     totalFilesDone := 0 + 1 + 1; totalChars := 0 + len e + len x |})
        as (more & E & Hmore & _); [assumption | assumption |].
      exists more. split; [|assumption]. exact E.
  - assert (Hnew : startsNewChunk this chunkerStart e = false).
    { unfold startsNewChunk. apply orb_false_iff. split.
      - apply N.ltb_ge. cbn [currentChunk chunkerStart]. change (len "") with 0%N. lia.
      - apply andb_false_iff. right. reflexivity. }
    destruct (placeEntries_nonempty es (placeEntry this chunkerStart e))
      as (more & E & Hmore & Hnn); [|assumption|].
    + unfold placeEntry. rewrite Hnew. cbn [currentChunk chunkerStart append].
      assumption.
    + rewrite E. unfold placeEntry. rewrite Hnew. cbn [chunks chunkerStart app].
      now split.
Qed.

(** No chunk comes out exactly when no file has an entry. *)
Lemma chunker_no_chunk_entries (jsonFiles : JsObject) :
  processJsonFiles this jsonFiles = []
  <-> forall file, In file jsonFiles -> fileEntry (fst file) (snd file) = None.
Proof.
  assert (Hent : entriesOf (sortedEntries jsonFiles) = []
                 <-> forall file, In file jsonFiles ->
                       fileEntry (fst file) (snd file) = None).
  { split.
    - intros E file Hin. destruct (fileEntry (fst file) (snd file)) as [e|] eqn:Ef;
        [|reflexivity].
      assert (H : In e (entriesOf (sortedEntries jsonFiles))).
      { apply entriesOf_In. exists file. split; [|assumption].
        eapply Permutation_in; [symmetry; apply sortedEntries_perm | assumption]. }
      rewrite E in H. contradiction.
    - intros H. destruct (entriesOf (sortedEntries jsonFiles)) as [|e es] eqn:E;
        [reflexivity|].
      assert (He : In e (entriesOf (sortedEntries jsonFiles))) by (rewrite E; now left).
      apply entriesOf_In in He as [file [Hin Hf]].
      rewrite H in Hf; [discriminate|].
      eapply Permutation_in; [apply sortedEntries_perm | assumption]. }
  rewrite <- Hent. clear Hent.
  unfold processJsonFiles. rewrite fold_chunkerStep.
  destruct (entriesOf (sortedEntries jsonFiles)) as [|e es] eqn:E.
  - split; reflexivity.
  - split; [|discriminate]. intros H. exfalso.
    pose proof (entriesOf_nonempty (sortedEntries jsonFiles)) as Hne.
    rewrite E in Hne. inversion Hne as [|? ? He Hes]; subst.
    cbn [fold_left] in H.
    destruct (placeEntries_nonempty es (placeEntry this chunkerStart e))
      as (more & Em & _ & Hnn); [|assumption|].
    + unfold placeEntry. destruct (startsNewChunk this chunkerStart e);
        cbn [currentChunk chunkerStart append]; assumption.
    + rewrite H in Em. symmetry in Em. apply app_eq_nil in Em as [_ Em]. contradiction.
Qed.

(** X13. No chunk at all comes out exactly when no file can be
    formatted, that is, when every file, if any, is a [.json] file whose
    content is no JSON document. *)
Theorem chunker_no_chunk_iff (jsonFiles : JsObject) :
  processJsonFiles this jsonFiles = []
  <-> forall file, In file jsonFiles ->
        endsWith (toLowerCase (fst file)) ".json" = true
        /\ JSON_parse (snd file) = None.
Proof.
  rewrite chunker_no_chunk_entries.
  split; intros H file Hin; apply fileEntry_None_iff; now apply H.
Qed.

(** X14. The content placed for an [.html] file never has more than
    50038 characters, and it starts with the first 50000 characters of
    the original (with all of it when it is shorter). *)
Theorem html_content_bounded (filename content : string) :
  endsWith (toLowerCase filename) ".html" = true ->
  exists formatted,
    formattedContent filename content = Some formatted
    /\ (len formatted <= HTML_LIMIT + 38)%N
    /\ startsWith formatted (takeChars (N.to_nat HTML_LIMIT) content) = true.
Proof.
  intros Hname. unfold formattedContent.
  rewrite (html_not_json _ Hname), Hname.
  destruct (N.ltb_spec HTML_LIMIT (len content)) as [Hlong|Hshort].
  - eexists. split; [reflexivity|]. split.
    + rewrite len_app. unfold len at 1. rewrite length_takeChars.
      * change (len TRUNCATION_NOTICE) with 38%N. lia.
      * unfold len in Hlong. lia.
    + apply startsWith_spec. now exists TRUNCATION_NOTICE.
  - exists content. split; [reflexivity|]. split; [lia|].
    apply startsWith_spec. exists (dropChars (N.to_nat HTML_LIMIT) content).
    symmetry. apply take_drop.
Qed.

End ChunkerMore.

Lemma chunker_leading_empty_chunk_witness :
  exists rest,
    processJsonFiles smallBudget [("a.json", "1111111111"); ("b.json", "2222222222")]
    = "" :: (entryHeader "a.json" ++ "1111111111") :: rest
    /\ Forall (fun c => c <> "") rest.
Proof.
  refine (proj1 (chunker_leading_empty_chunk smallBudget
                   [("a.json", "1111111111"); ("b.json", "2222222222")]
                   (entryHeader "a.json" ++ "1111111111")
                   [entryHeader "b.json" ++ "2222222222"] _) _).
  - vm_compute. reflexivity.
  - vm_compute. reflexivity.
Defined.

Lemma html_content_bounded_witness :
  exists formatted,
    formattedContent "Timeline.HTML" "<p>hi</p>" = Some formatted
    /\ (len formatted <= HTML_LIMIT + 38)%N
    /\ startsWith formatted (takeChars (N.to_nat HTML_LIMIT) "<p>hi</p>") = true.
Proof.
  apply (html_content_bounded "Timeline.HTML" "<p>hi</p>"). reflexivity.
Defined.


(** ** The cost of a submission and of a run *)

Lemma totalSleep_app (a b : list N) :
  totalSleep (a ++ b)%list = (totalSleep a + totalSleep b)%N.
Proof.
  induction a as [|x a IH]; [reflexivity|].
  cbn [app totalSleep fold_right]. fold (totalSleep (a ++ b)%list) (totalSleep a).
  rewrite IH. lia.
Qed.

(** The delays double: [k] of them from [RETRY_DELAY * 2^from] on add up
    to [RETRY_DELAY * 2^from * (2^k - 1)]. *)
Lemma backoff_total (this : ProfileAnalyzer) (k : nat) :
  forall from : nat,
    totalSleep (backoff this from k)
    = (RETRY_DELAY this * 2 ^ N.of_nat from * (2 ^ N.of_nat k - 1))%N.
Proof.
  induction k as [|k IH]; intros from.
  - cbn. lia.
  - unfold backoff. cbn [seq map totalSleep fold_right].
    change (fold_right N.add 0%N
              (map (fun j => (RETRY_DELAY this * 2 ^ N.of_nat j)%N) (seq (S from) k)))
      with (totalSleep (backoff this (S from) k)).
    rewrite IH, !Nat2N.inj_succ, !N.pow_succ_r'.
    assert (Hpos : (2 ^ N.of_nat k <> 0)%N) by (apply N.pow_nonzero; lia).
    destruct (2 ^ N.of_nat k)%N as [|b] eqn:Eb; [contradiction|].
    replace (2 * N.pos b - 1)%N with (1 + 2 * (N.pos b - 1))%N by lia.
    ring.
Qed.

Lemma backoff_bound (this : ProfileAnalyzer) (k : nat) :
  (N.of_nat k <= MAX_RETRIES this)%N ->
  (totalSleep (backoff this 0 k) <= maxBackoff this)%N.
Proof.
  intros Hk. rewrite backoff_total. unfold maxBackoff. cbn [N.of_nat].
  rewrite N.pow_0_r, N.mul_1_r. apply N.mul_le_mono_l.
  apply N.sub_le_mono_r. apply N.pow_le_mono_r; [lia | exact Hk].
Qed.

Lemma spent_refl (this : ProfileAnalyzer) (st : RunState) : Spent this 0 st st.
Proof.
  unfold Spent. split; [reflexivity|]. split; [lia|]. split.
  - exists []. rewrite app_nil_r. split; [reflexivity | cbn; lia].
  - split; [lia|]. now intros _.
Qed.

Lemma spent_trans (this : ProfileAnalyzer) (n m : nat) (st st1 st2 : RunState) :
  Spent this n st st1 -> Spent this m st1 st2 -> Spent this (n + m) st st2.
Proof.
  intros (Hc1 & Hf1 & (sl1 & Hs1 & Ht1) & Hl1 & Hp1)
         (Hc2 & Hf2 & (sl2 & Hs2 & Ht2) & Hl2 & Hp2).
  unfold Spent. split; [congruence|]. split.
  - rewrite Nat.mul_add_distr_r. lia.
  - split.
    + exists (sl1 ++ sl2)%list. split.
      * now rewrite Hs2, Hs1, List.app_assoc.
      * rewrite totalSleep_app, Nat2N.inj_add, N.mul_add_distr_r. lia.
    + split; [lia|]. intros Hr. destruct (Hp1 Hr) as [Ha Hb].
      assert (Hr1 : promptReady st1 = true) by (unfold promptReady in *; now rewrite Hb).
      destruct (Hp2 Hr1) as [Ha2 Hb2]. split; congruence.
Qed.

(** Reading the clock costs nothing else. *)
Lemma spent_clock (this : ProfileAnalyzer) (n : nat) (st st' : RunState) :
  Spent this n (afterClock st) st' ->
  (fetchCalls st' <= fetchCalls st + n * (N.to_nat (MAX_RETRIES this) + 1))%nat
  /\ (exists slept,
        sleeps st' = (sleeps st ++ slept)%list
        /\ (totalSleep slept <= N.of_nat n * maxBackoff this)%N)
  /\ (promptLoads st' <= promptLoads st + n)%nat
  /\ clockReads st' = S (clockReads st)
  /\ (promptReady st = true ->
      promptLoads st' = promptLoads st /\ prompt st' = prompt st).
Proof.
  intros (Hc & Hf & Hs & Hl & Hp).
  cbn [afterClock clockReads fetchCalls sleeps promptLoads] in *.
  split; [lia|]. split; [exact Hs|]. split; [lia|]. split; [exact Hc|].
  exact Hp.
Qed.

Section DriverMore.

Context {rt : JsonRuntime}.
Variable W : World.
Variable this : ProfileAnalyzer.

(** The prompt is loaded exactly when it is not ready. *)
Lemma ensurePrompt_loads (st : RunState) :
  promptLoads (snd (ensurePrompt W st))
  = (promptLoads st + (if promptReady st then 0 else 1))%nat
  /\ (promptReady st = true -> exists p, ensurePrompt W st = (inr p, st)).
Proof.
  unfold ensurePrompt, promptReady, callLoadPrompt.
  destruct (prompt st) as [p|]; [destruct (truthy p)|].
  - split; [cbn; lia|]. intros _. now exists p.
  - destruct (loadPrompt W (promptLoads st)); cbn [snd promptLoads];
      (split; [lia | discriminate]).
  - destruct (loadPrompt W (promptLoads st)); cbn [snd promptLoads];
      (split; [lia | discriminate]).
Qed.

(** What one submission costs: [k] sleeps, [k] at most [MAX_RETRIES];
    no request when the prompt cannot be loaded, [k + 1] requests
    otherwise; a failure with a ready prompt has used up the retries. *)
Lemma generateProfile_cost (data : string) (i total : N) (st : RunState) :
  exists k : nat,
    (N.of_nat k <= MAX_RETRIES this)%N
    /\ sleeps (snd (generateProfile W this data i total st))
       = (sleeps st ++ backoff this 0 k)%list
    /\ (fetchCalls st <= fetchCalls (snd (generateProfile W this data i total st))
        <= fetchCalls st + k + 1)%nat
    /\ clockReads (snd (generateProfile W this data i total st)) = clockReads st
    /\ promptLoads (snd (generateProfile W this data i total st))
       = (promptLoads st + (if promptReady st then 0 else 1))%nat
    /\ (promptReady st = true ->
        prompt (snd (generateProfile W this data i total st)) = prompt st
        /\ fetchCalls (snd (generateProfile W this data i total st))
           = (fetchCalls st + k + 1)%nat
        /\ ((exists e, fst (generateProfile W this data i total st) = inl e) ->
            N.of_nat k = MAX_RETRIES this)).
Proof.
  destruct (ensurePrompt_run W st) as (r & st1 & He & Hf & Hs & Hc & Hr).
  destruct (ensurePrompt_loads st) as [Hl Hready].
  rewrite He in Hl, Hready. cbn [snd] in Hl.
  unfold generateProfile, bind. rewrite He.
  destruct r as [e|p].
  - exists 0%nat. cbn [fst snd]. unfold backoff. cbn [seq map].
    rewrite app_nil_r. split; [lia|]. split; [exact Hs|]. split; [lia|].
    split; [exact Hc|]. split; [exact Hl|].
    intros H. destruct (Hready H) as [p Hp]. discriminate Hp.
  - destruct (retryLoop_run W this (requestContent p data i total)
                (S (N.to_nat (MAX_RETRIES this))) 0 ThrownNull st1)
      as (k & Hk & H1 & _ & H3 & H4 & H5 & H6 & H7 & H8); [lia | lia |].
    exists k. split; [lia|]. split; [now rewrite H5, Hs|]. split; [lia|].
    split; [congruence|]. split; [congruence|].
    intros H. destruct (Hready H) as [p' Hp']. injection Hp' as _ <-.
    split; [exact H6|]. split; [lia|].
    intros [e Hfail]. rewrite H1 in Hfail.
    assert (S k = S (N.to_nat (MAX_RETRIES this))) by (apply H3; now exists e).
    lia.
Qed.

Lemma generateProfile_spent (data : string) (i total : N) (st : RunState) :
  Spent this 1 st (snd (generateProfile W this data i total st)).
Proof.
  destruct (generateProfile_cost data i total st)
    as (k & Hk & Hs & Hf & Hc & Hl & Hp).
  unfold Spent. split; [exact Hc|]. split; [lia|]. split.
  - exists (backoff this 0 k). split; [exact Hs|].
    rewrite N.mul_1_l. now apply backoff_bound.
  - split; [destruct (promptReady st); lia|].
    intros H. rewrite H in Hl. split; [lia | now apply Hp].
Qed.

Lemma chunkLoop_spent (rest : list string) :
  forall (total i : N) (acc : string * list N) (st : RunState),
    Spent this (List.length rest) st (snd (chunkLoop W this total i rest acc st)).
Proof.
  induction rest as [|chunk rest IH]; intros total i acc st.
  - apply spent_refl.
  - cbn [chunkLoop List.length]. unfold bind, tryCatch.
    pose proof (generateProfile_spent chunk i total st) as H1.
    destruct (generateProfile W this chunk i total st) as [r st1]. cbn [snd] in H1.
    exact (spent_trans this 1 (List.length rest) st st1 _ H1 (IH _ _ _ _)).
Qed.

(** [analyzeProfile] ends in the state in which its [try] block ends. *)
Lemma analyzeProfile_state (jsonFiles : JsObject) (st : RunState) :
  snd (analyzeProfile W this jsonFiles st) = snd (analyzeBody W this jsonFiles st).
Proof.
  unfold analyzeProfile.
  now destruct (analyzeBody W this jsonFiles st) as [[[m|]|r] st1].
Qed.

(** The state in which the [try] block ends: the clock is read, the
    chunks are submitted, and the clock is read again unless the block
    has thrown. *)
Lemma analyzeBody_spent (jsonFiles : JsObject) (st : RunState) :
  exists mid,
    Spent this (List.length (processJsonFiles this jsonFiles)) (afterClock st) mid
    /\ (snd (analyzeBody W this jsonFiles st) = mid
        \/ snd (analyzeBody W this jsonFiles st) = afterClock mid).
Proof.
  destruct (processJsonFiles this jsonFiles) as [|c [|c' l]] eqn:Ec.
  - exists (afterClock st). split; [apply spent_refl|]. left.
    now rewrite (analyzeBody_no_chunks W this jsonFiles st Ec).
  - exists (snd (generateProfile W this c 0 1 (afterClock st))).
    split; [apply generateProfile_spent|].
    rewrite (analyzeBody_one_chunk W this jsonFiles c st Ec).
    destruct (generateProfile W this c 0 1 (afterClock st)) as [[e|p] st1];
      [now left | now right].
  - exists (snd (chunkLoop W this (N.of_nat (List.length (c :: c' :: l))) 0
                   (c :: c' :: l) ("", []) (afterClock st))).
    split; [apply chunkLoop_spent|]. right.
    unfold analyzeBody, bind at 1 2, dateNow at 1. fold (afterClock st). rewrite Ec.
    pose proof (chunkLoop_run W this (c :: c' :: l)
                  (N.of_nat (List.length (c :: c' :: l))) 0 ("", []) (afterClock st))
      as Hrun.
    destruct (chunkLoop W this (N.of_nat (List.length (c :: c' :: l))) 0
                (c :: c' :: l) ("", []) (afterClock st)) as [r st1].
    cbn [fst] in Hrun. subst r. reflexivity.
Qed.

(** X15. One submission never costs more than [MAX_RETRIES + 1] requests
    and [RETRY_DELAY * (2^MAX_RETRIES - 1)] milliseconds of sleep, and it
    never reads the clock.  With a ready prompt, a submission that fails
    has cost exactly that much. *)
Theorem generateProfile_budget (data : string) (i total : N) (st : RunState) :
  exists slept,
    sleeps (snd (generateProfile W this data i total st)) = (sleeps st ++ slept)%list
    /\ (totalSleep slept <= maxBackoff this)%N
    /\ (fetchCalls st <= fetchCalls (snd (generateProfile W this data i total st))
        <= fetchCalls st + N.to_nat (MAX_RETRIES this) + 1)%nat
    /\ clockReads (snd (generateProfile W this data i total st)) = clockReads st
    /\ (promptReady st = true ->
        (exists e, fst (generateProfile W this data i total st) = inl e) ->
        totalSleep slept = maxBackoff this
        /\ fetchCalls (snd (generateProfile W this data i total st))
           = (fetchCalls st + N.to_nat (MAX_RETRIES this) + 1)%nat).
Proof.
  destruct (generateProfile_cost data i total st)
    as (k & Hk & Hs & Hf & Hc & _ & Hp).
  exists (backoff this 0 k). split; [exact Hs|].
  split; [now apply backoff_bound|]. split; [lia|]. split; [exact Hc|].
  intros Hr Hfail. destruct (Hp Hr) as (_ & Hcalls & Hlast).
  specialize (Hlast Hfail). split; [|lia].
  rewrite backoff_total. unfold maxBackoff. cbn [N.of_nat].
  now rewrite N.pow_0_r, N.mul_1_r, Hlast.
Qed.

(** X16. A submission loads the prompt exactly when [this.prompt] is
    unset or empty, and then once; a prompt that is ready is left as it
    is. *)
Theorem generateProfile_loads_prompt_when_unset (data : string) (i total : N)
    (st : RunState) :
  promptLoads (snd (generateProfile W this data i total st))
  = (promptLoads st + (if promptReady st then 0 else 1))%nat
  /\ (promptReady st = true ->
      prompt (snd (generateProfile W this data i total st)) = prompt st).
Proof.
  destruct (generateProfile_cost data i total st)
    as (k & _ & _ & _ & _ & Hl & Hp).
  split; [exact Hl|]. intros H. now apply Hp.
Qed.

(** X17. A whole run over [n] chunks makes at most [n * (MAX_RETRIES + 1)]
    requests, sleeps at most [n * RETRY_DELAY * (2^MAX_RETRIES - 1)]
    milliseconds, loads the prompt at most [n] times, and reads the clock
    once or twice. *)
Theorem analyzeProfile_budget (jsonFiles : JsObject) (st : RunState) :
  (fetchCalls (snd (analyzeProfile W this jsonFiles st))
   <= fetchCalls st
      + List.length (processJsonFiles this jsonFiles)
        * (N.to_nat (MAX_RETRIES this) + 1))%nat
  /\ (exists slept,
        sleeps (snd (analyzeProfile W this jsonFiles st)) = (sleeps st ++ slept)%list
        /\ (totalSleep slept
            <= N.of_nat (List.length (processJsonFiles this jsonFiles))
               * maxBackoff this)%N)
  /\ (promptLoads (snd (analyzeProfile W this jsonFiles st))
      <= promptLoads st + List.length (processJsonFiles this jsonFiles))%nat
  /\ (clockReads st < clockReads (snd (analyzeProfile W this jsonFiles st))
      <= clockReads st + 2)%nat.
Proof.
  rewrite analyzeProfile_state.
  destruct (analyzeBody_spent jsonFiles st) as (mid & Hsp & Hend).
  apply spent_clock in Hsp as (Hf & Hs & Hl & Hc & _).
  destruct Hend as [-> | ->];
    cbn [afterClock fetchCalls sleeps promptLoads clockReads];
    (split; [exact Hf|]); (split; [exact Hs|]); (split; [exact Hl|]); lia.
Qed.

(** X18. A run that starts with a ready prompt never calls [loadPrompt]
    and leaves [this.prompt] as it is. *)
Theorem analyzeProfile_keeps_ready_prompt (jsonFiles : JsObject) (st : RunState) :
  promptReady st = true ->
  promptLoads (snd (analyzeProfile W this jsonFiles st)) = promptLoads st
  /\ prompt (snd (analyzeProfile W this jsonFiles st)) = prompt st.
Proof.
  intros Hr. rewrite analyzeProfile_state.
  destruct (analyzeBody_spent jsonFiles st) as (mid & Hsp & Hend).
  apply spent_clock in Hsp as (_ & _ & _ & _ & Hp).
  destruct Hend as [-> | ->]; cbn [afterClock promptLoads prompt]; now apply Hp.
Qed.

End DriverMore.

Lemma analyzeProfile_keeps_ready_prompt_witness :
  promptLoads
    (snd (analyzeProfile secondChunkFails new_ProfileAnalyzer manyPages
            {| prompt := Some "Describe."; fetchCalls := 0; promptLoads := 0;
               clockReads := 0; sleeps := [] |})) = 0%nat
  /\ prompt
       (snd (analyzeProfile secondChunkFails new_ProfileAnalyzer manyPages
               {| prompt := Some "Describe."; fetchCalls := 0; promptLoads := 0;
                  clockReads := 0; sleeps := [] |})) = Some "Describe.".
Proof.
  apply (analyzeProfile_keeps_ready_prompt secondChunkFails new_ProfileAnalyzer
           manyPages
           {| prompt := Some "Describe."; fetchCalls := 0; promptLoads := 0;
              clockReads := 0; sleeps := [] |}).
  reflexivity.
Defined.

(** ** The result object *)

Lemma failedFrom_bounds (rs : list (Thrown + string)) :
  forall i : N,
    Forall (fun x => (i < x <= i + N.of_nat (List.length rs))%N) (failedFrom i rs).
Proof.
  induction rs as [|r rs IH]; intros i; [constructor|].
  cbn [failedFrom List.length]. specialize (IH (i + 1)%N).
  assert (Hweak : Forall (fun x => (i < x <= i + N.of_nat (S (List.length rs)))%N)
                    (failedFrom (i + 1) rs))
    by (eapply Forall_impl; [|exact IH]; cbn beta; intros x Hx; lia).
  destruct r as [e|out]; [|exact Hweak].
  constructor; [lia | exact Hweak].
Qed.

Lemma failedFrom_sorted (rs : list (Thrown + string)) :
  forall i : N, StronglySorted N.lt (failedFrom i rs).
Proof.
  induction rs as [|r rs IH]; intros i; [constructor|].
  cbn [failedFrom]. destruct r as [e|out]; [|apply IH].
  constructor; [apply IH|].
  eapply Forall_impl; [|apply failedFrom_bounds]. cbn beta. intros x Hx. lia.
Qed.

Lemma failedFrom_length (rs : list (Thrown + string)) :
  forall i : N, (List.length (failedFrom i rs) <= List.length rs)%nat.
Proof.
  induction rs as [|r rs IH]; intros i; [constructor|].
  cbn [failedFrom]. specialize (IH (i + 1)%N).
  destruct r; cbn [List.length]; lia.
Qed.

(** When every submission fails, every chunk is listed and nothing is
    kept. *)
Lemma failedFrom_all (rs : list (Thrown + string)) :
  (forall r, In r rs -> exists e, r = inl e) ->
  forall i : N,
    failedFrom i rs = map N.of_nat (seq (S (N.to_nat i)) (List.length rs)).
Proof.
  induction rs as [|r rs IH]; intros Hall i; [reflexivity|].
  destruct (Hall r (or_introl eq_refl)) as [e ->].
  cbn [failedFrom List.length seq map]. rewrite IH by (intros r Hr; apply Hall; now right).
  f_equal; [lia|]. f_equal. f_equal. lia.
Qed.

Lemma keptOutput_all_failed (rs : list (Thrown + string)) :
  (forall r, In r rs -> exists e, r = inl e) -> keptOutput rs = "".
Proof.
  intros Hall. unfold keptOutput.
  assert (Hlast : forall d : Thrown + string,
             (exists e, d = inl e) -> exists e, last rs d = inl e).
  { intros d Hd. induction rs as [|r rs IH]; [exact Hd|].
    destruct rs as [|r' rs]; [apply Hall; now left|].
    apply IH. intros x Hx. apply Hall. now right. }
  destruct (Hlast (inl ThrownNull)) as [e ->]; [now exists ThrownNull|].
  destruct rs as [|r rs]; [reflexivity|].
  now destruct (Hall r (or_introl eq_refl)) as [e' ->].
Qed.

Section ResultFacts.

Context {rt : JsonRuntime}.
Variable W : World.
Variable this : ProfileAnalyzer.

(** X19. [analyzeProfile] always returns, and the object it returns is
    of one of two shapes.  With [stats]: it has a profile text and no
    [error]; the chunk counts add up, the failed chunks are listed in
    ascending order without repetition and lie between 1 and the number
    of chunks, [profileLength] is the length of the text, [wordCount] is
    at least 1, and [success] tells that no chunk failed or the text is
    not empty.  Without [stats]: [success] is false, the profile is
    [null] and there is an [error] message. *)
Theorem analyzeProfile_result_shape (jsonFiles : JsObject) (st : RunState) :
  exists result st',
    analyzeProfile W this jsonFiles st = (inr result, st')
    /\ match stats result with
       | Some s =>
           exists text,
             profile result = Some text
             /\ error result = None
             /\ filesProcessed s = N.of_nat (List.length (Object_keys jsonFiles))
             /\ chunksProcessed s
                = N.of_nat (List.length (processJsonFiles this jsonFiles))
             /\ (1 <= chunksProcessed s)%N
             /\ (chunksSuccessful s + Z.of_nat (List.length (chunksFailed s))
                 = Z.of_N (chunksProcessed s))%Z
             /\ (0 <= chunksSuccessful s)%Z
             /\ StronglySorted N.lt (chunksFailed s)
             /\ Forall (fun x => (1 <= x <= chunksProcessed s)%N) (chunksFailed s)
             /\ profileLength s = len text
             /\ (1 <= wordCount s)%N
             /\ (success result = true <-> chunksFailed s = [] \/ text <> "")
       | None =>
           success result = false
           /\ profile result = None
           /\ exists message, error result = Some message
       end.
Proof.
  assert (Hsuccess : forall (failed : list N) (text : string),
             ((N.of_nat (List.length failed) =? 0)%N || (0 <? len text)%N = true
              <-> failed = [] \/ text <> "")).
  { intros failed text. rewrite orb_true_iff, N.eqb_eq, N.ltb_lt. split.
    - intros [H|H]; [left; destruct failed; [reflexivity | discriminate H]|].
      right. intros ->. cbn in H. lia.
    - intros [-> | H]; [now left|]. right. destruct text; [contradiction|].
      unfold len. cbn [String.length]. lia. }
  unfold analyzeProfile.
  destruct (processJsonFiles this jsonFiles) as [|c [|c' l]] eqn:Ec.
  - rewrite (analyzeBody_no_chunks W this jsonFiles st Ec).
    eexists. eexists. split; [reflexivity|]. cbn [stats success profile error].
    split; [reflexivity|]. split; [reflexivity|]. eexists. reflexivity.
  - rewrite (analyzeBody_one_chunk W this jsonFiles c st Ec).
    destruct (generateProfile W this c 0 1 (afterClock st)) as [[e|p] st1] eqn:Eg.
    + destruct (generateProfile_throws_error W this c 0 1 (afterClock st) e)
        as [message ->]; [now rewrite Eg|].
      eexists. eexists. split; [reflexivity|]. cbn [stats success profile error].
      split; [reflexivity|]. split; [reflexivity|]. eexists. reflexivity.
    + eexists. eexists. split; [reflexivity|].
      cbn [stats analysisResult]. exists p.
      cbn [profile error filesProcessed chunksProcessed chunksSuccessful
           chunksFailed profileLength wordCount success List.length].
      split; [reflexivity|]. split; [reflexivity|]. split; [reflexivity|].
      split; [reflexivity|]. split; [lia|]. split; [lia|]. split; [lia|].
      split; [constructor|]. split; [constructor|]. split; [reflexivity|].
      split; [unfold splitCount; lia|]. apply Hsuccess.
  - destruct (analyzeBody_chunks W this jsonFiles st) as (t0 & t1 & st' & Hb);
      [rewrite Ec; cbn [List.length]; lia|].
    rewrite Hb, Ec. clear Hb.
    set (n := List.length (c :: c' :: l)).
    set (rs := chunkResults W this (N.of_nat n) 0 (c :: c' :: l) (afterClock st)).
    assert (Hlen : List.length rs = n) by apply chunkResults_length.
    eexists. exists st'. split; [reflexivity|].
    cbn [stats analysisResult]. exists (keptOutput rs).
    cbn [profile error filesProcessed chunksProcessed chunksSuccessful
         chunksFailed profileLength wordCount success].
    fold n. pose proof (failedFrom_length rs 0) as Hfl.
    split; [reflexivity|]. split; [reflexivity|]. split; [reflexivity|].
    split; [reflexivity|]. split; [subst n; cbn [List.length]; lia|].
    split; [lia|]. split; [lia|]. split; [apply failedFrom_sorted|].
    split.
    + eapply Forall_impl; [|apply failedFrom_bounds]. cbn beta. intros x Hx. lia.
    + split; [reflexivity|]. split; [unfold splitCount; lia|]. apply Hsuccess.
Qed.

(** Where every request is rejected, every submission fails. *)
Lemma generateProfile_offline (data : string) (i total : N) (st : RunState) :
  (forall n content, exists e, outcomeAt W content n = inl e) ->
  exists e, fst (generateProfile W this data i total st) = inl e.
Proof.
  intros Hoff.
  destruct (generateProfile_run W this data i total st)
    as [(m & st1 & _ & -> & _) | (p & st1 & k & _ & _ & -> & _)].
  - now eexists.
  - apply Hoff.
Qed.

Lemma chunkResults_offline (rest : list string) :
  (forall n content, exists e, outcomeAt W content n = inl e) ->
  forall (total i : N) (st : RunState) (r : Thrown + string),
    In r (chunkResults W this total i rest st) -> exists e, r = inl e.
Proof.
  intros Hoff. induction rest as [|c rest IH]; intros total i st r; [intros []|].
  cbn [chunkResults In]. intros [<- | H]; [|now apply IH in H].
  destruct (generateProfile_offline c i total st Hoff) as [e He]. now exists e.
Qed.

(** X20. When every request is rejected, a run over several chunks still
    returns an object with [stats]: [success] is false, the profile is
    the empty text and not [null], there is no [error] message, and every
    chunk from 1 to the last is listed as failed. *)
Theorem analyzeProfile_offline_many_chunks (jsonFiles : JsObject) (st : RunState) :
  (forall n content, exists e, outcomeAt W content n = inl e) ->
  (2 <= List.length (processJsonFiles this jsonFiles))%nat ->
  exists result s,
    fst (analyzeProfile W this jsonFiles st) = inr result
    /\ success result = false
    /\ profile result = Some ""
    /\ error result = None
    /\ stats result = Some s
    /\ chunksFailed s
       = map N.of_nat (seq 1 (List.length (processJsonFiles this jsonFiles)))
    /\ chunksSuccessful s = 0%Z
    /\ profileLength s = 0%N
    /\ wordCount s = 1%N.
Proof.
  intros Hoff Hn.
  destruct (analyzeBody_chunks W this jsonFiles st Hn) as (t0 & t1 & st' & Hb).
  unfold analyzeProfile. rewrite Hb. clear Hb.
  set (chunks := processJsonFiles this jsonFiles) in *.
  set (rs := chunkResults W this (N.of_nat (List.length chunks)) 0 chunks (afterClock st)).
  assert (Hall : forall r, In r rs -> exists e, r = inl e)
    by (intros r; apply chunkResults_offline; exact Hoff).
  assert (Hlen : List.length rs = List.length chunks) by apply chunkResults_length.
  rewrite (keptOutput_all_failed rs Hall), (failedFrom_all rs Hall 0), Hlen.
  eexists. eexists. cbn [fst]. split; [reflexivity|].
  cbn [analysisResult success profile error stats chunksFailed chunksSuccessful
       profileLength wordCount].
  rewrite length_map, length_seq.
  split.
  - destruct (List.length chunks) as [|m]; [lia|]. reflexivity.
  - split; [reflexivity|]. split; [reflexivity|]. split; [reflexivity|].
    cbn [chunksFailed chunksSuccessful profileLength wordCount].
    split; [reflexivity|]. split; [lia|]. split; reflexivity.
Qed.

(** X21. A run over a single chunk stands or falls with its one
    submission.  When the submission returns a text, be it empty, the
    run succeeds with that text, no failed chunk, and the duration
    between the two readings of the clock.  When it throws, the run
    answers with the message of the error, a [null] profile, no [stats],
    and does not read the clock again. *)
Theorem analyzeProfile_single_chunk (jsonFiles : JsObject) (chunk : string)
    (st : RunState) :
  processJsonFiles this jsonFiles = [chunk] ->
  match generateProfile W this chunk 0 1 (afterClock st) with
  | (inr text, st1) =>
      exists s,
        analyzeProfile W this jsonFiles st
        = (inr {| success := true; profile := Some text; error := None;
                  stats := Some s |}, afterClock st1)
        /\ chunksProcessed s = 1%N
        /\ chunksSuccessful s = 1%Z
        /\ chunksFailed s = []
        /\ duration_ms s
           = (Date_now W (clockReads st1) - Date_now W (clockReads st))%Z
  | (inl e, st1) =>
      exists message,
        e = ThrownError message
        /\ analyzeProfile W this jsonFiles st
           = (inr {| success := false; profile := None; error := Some message;
                     stats := None |}, st1)
  end.
Proof.
  intros Ec. unfold analyzeProfile.
  rewrite (analyzeBody_one_chunk W this jsonFiles chunk st Ec).
  destruct (generateProfile W this chunk 0 1 (afterClock st)) as [[e|text] st1] eqn:Eg.
  - destruct (generateProfile_throws_error W this chunk 0 1 (afterClock st) e)
      as [message ->]; [now rewrite Eg|].
    exists message. now split.
  - eexists. split; [reflexivity|]. now repeat split.
Qed.

End ResultFacts.

Lemma analyzeProfile_offline_many_chunks_witness :
  exists result s,
    fst (analyzeProfile offline new_ProfileAnalyzer manyPages initialState)
    = inr result
    /\ success result = false
    /\ profile result = Some ""
    /\ error result = None
    /\ stats result = Some s
    /\ chunksFailed s
       = map N.of_nat
           (seq 1 (List.length (processJsonFiles new_ProfileAnalyzer manyPages)))
    /\ chunksSuccessful s = 0%Z
    /\ profileLength s = 0%N
    /\ wordCount s = 1%N.
Proof.
  apply (analyzeProfile_offline_many_chunks offline new_ProfileAnalyzer manyPages
           initialState).
  - intros n content. eexists. reflexivity.
  - vm_compute. lia.
Defined.

Lemma analyzeProfile_single_chunk_witness :
  match generateProfile lastChunkFails new_ProfileAnalyzer
          (entryHeader "a.json" ++ "{}") 0 1 (afterClock initialState) with
  | (inr text, st1) =>
      exists s,
        analyzeProfile lastChunkFails new_ProfileAnalyzer [("a.json", "{}")]
          initialState
        = (inr {| success := true; profile := Some text; error := None;
                  stats := Some s |}, afterClock st1)
        /\ chunksProcessed s = 1%N
        /\ chunksSuccessful s = 1%Z
        /\ chunksFailed s = []
        /\ duration_ms s
           = (Date_now lastChunkFails (clockReads st1)
              - Date_now lastChunkFails (clockReads initialState))%Z
  | (inl e, st1) =>
      exists message,
        e = ThrownError message
        /\ analyzeProfile lastChunkFails new_ProfileAnalyzer [("a.json", "{}")]
             initialState
           = (inr {| success := false; profile := None; error := Some message;
                     stats := None |}, st1)
  end.
Proof.
  apply (analyzeProfile_single_chunk lastChunkFails new_ProfileAnalyzer
           [("a.json", "{}")] (entryHeader "a.json" ++ "{}") initialState).
  vm_compute. reflexivity.
Defined.

(** ** From the selection to the chunks *)

Section PipelineFacts.

Context {rt : JsonRuntime}.
Variable this : ProfileAnalyzer.

(** X22. When the profile is found and has a pattern list, the chunks
    built from the selected data consist of entries of extracted files,
    with their own content, that some pattern of the list matches:
    nothing from a file that no pattern matches reaches a request. *)
Theorem selected_chunks_hold_matched_files (cfg : PromptConfig)
    (ps : list PromptSettings) (p : PromptSettings) (pats : list string)
    (promptName : string) (extractedData : JsObject) :
  prompts cfg = Some ps ->
  find (fun p => String.eqb (name p) promptName) ps = Some p ->
  data p = Some pats ->
  exists groups : list (list string),
    processJsonFiles this
      (selectedData (selectDataForPrompt (Some cfg) promptName extractedData))
    = map (String.concat "") groups
    /\ Forall
         (Forall (fun entry =>
                    exists path content pattern,
                      In (path, content) extractedData
                      /\ In pattern pats
                      /\ matchesPattern path pattern = true
                      /\ fileEntry path content = Some entry))
         groups.
Proof.
  intros Hps Hf Hd. unfold selectDataForPrompt. rewrite Hps, Hf, Hd.
  cbn [selectedData].
  set (sel := fold_left (selectPattern extractedData) pats ([], [])).
  unfold processJsonFiles. rewrite fold_chunkerStep.
  destruct (placeEntries_grouped this (entriesOf (sortedEntries (fst sel)))
              chunkerStart [] [] (entriesOf_nonempty _)) as (gs & cur & H & E).
  - repeat split. constructor.
  - destruct (chunkerFinish_grouped _ gs cur H) as (groups & H1 & H2).
    exists groups. split; [exact H1|].
    apply Forall_forall. intros g Hg. apply Forall_forall. intros entry Hentry.
    assert (Hin : In entry (List.concat groups))
      by (apply in_concat; now exists g).
    rewrite H2, E in Hin. cbn [List.concat app] in Hin.
    apply entriesOf_In in Hin as [[path content] [Hfile Hfe]].
    apply (Permutation_in _ (sortedEntries_perm (fst sel))) in Hfile.
    assert (Hcontent : In (path, content) extractedData).
    { pose proof (selectPatterns_contents extractedData pats ([], []) (Forall_nil _))
        as Hall.
      rewrite Forall_forall in Hall. exact (Hall _ Hfile). }
    destruct (selectPatterns_paths extractedData pats ([], [])
                (fun y => conj (fun H => H) (fun H => H)) path) as [Hused Hkeys].
    fold sel in Hused, Hkeys.
    assert (Hkey : In path (Object_keys (fst sel)))
      by (apply in_map_iff; now exists (path, content)).
    apply Hkeys, Hused in Hkey as [[] | [_ (pattern & Hp & Hm)]].
    now exists path, content, pattern.
Qed.

End PipelineFacts.

Lemma selected_chunks_hold_matched_files_witness :
  exists groups : list (list string),
    processJsonFiles new_ProfileAnalyzer
      (selectedData
         (selectDataForPrompt
            (Some {| prompts := Some [ {| name := "minimal";
                                          data := Some ["ads_information"] |} ] |})
            "minimal"
            [("data/ads_information/prefs.json", "{}"); ("data/other/x.json", "[]")]))
    = map (String.concat "") groups
    /\ Forall
         (Forall (fun entry =>
                    exists path content pattern,
                      In (path, content)
                        [("data/ads_information/prefs.json", "{}");
                         ("data/other/x.json", "[]")]
                      /\ In pattern ["ads_information"]
                      /\ matchesPattern path pattern = true
                      /\ fileEntry path content = Some entry))
         groups.
Proof.
  apply (selected_chunks_hold_matched_files new_ProfileAnalyzer
           {| prompts := Some [ {| name := "minimal";
                                   data := Some ["ads_information"] |} ] |}
           [ {| name := "minimal"; data := Some ["ads_information"] |} ]
           {| name := "minimal"; data := Some ["ads_information"] |}
           ["ads_information"]); reflexivity.
Defined.

(** ** The page: running all prompts *)

Section PageFacts.

Context {rt : JsonRuntime}.
Variable W : World.
Variable config : nat -> ConfigTurn.
Variable this : ProfileAnalyzer.

(** [analyzeProfile] returns an object, whatever happens. *)
Lemma analyzeProfile_returns (jsonFiles : JsObject) (st : RunState) :
  exists result st', analyzeProfile W this jsonFiles st = (inr result, st').
Proof.
  unfold analyzeProfile.
  destruct (processJsonFiles this jsonFiles) as [|c [|c' l]] eqn:Ec.
  - rewrite (analyzeBody_no_chunks W this jsonFiles st Ec). now eexists; eexists.
  - rewrite (analyzeBody_one_chunk W this jsonFiles c st Ec).
    destruct (generateProfile W this c 0 1 (afterClock st)) as [[e|p] st1] eqn:Eg.
    + destruct (generateProfile_throws_error W this c 0 1 (afterClock st) e)
        as [message ->]; [now rewrite Eg|].
      now eexists; eexists.
    + now eexists; eexists.
  - destruct (analyzeBody_chunks W this jsonFiles st) as (t0 & t1 & st' & Hb);
      [rewrite Ec; cbn [List.length]; lia|].
    rewrite Hb. now eexists; eexists.
Qed.

Lemma entryName_resultEntry (promptName : string) (result : AnalysisResult)
    (selectedData : JsObject) :
  entryName (resultEntry promptName result selectedData) = promptName.
Proof. unfold resultEntry. now destruct (success result). Qed.

(** The loop: it leaves [isAnalyzing], [analysisResults] and the error
    of the page alone; when it ends, one entry has been added for each
    prompt, in order, and all prompts are counted as completed; it is
    left early only by an error thrown by the selector on an ill-shaped
    configuration or by the loading of a prompt, and then fewer prompts
    are counted. *)
Lemma promptLoop_outcome (jsonData : JsObject) (total : N) (rest : list string) :
  forall (i : nat) (results : list ResultEntry) (page : PageState) (st : RunState),
    (rest = [] -> completedPrompts page = N.of_nat i) ->
    (rest <> [] -> (completedPrompts page <= N.of_nat i)%N) ->
    exists r page' st',
      promptLoop W config this jsonData total i rest results page st = (r, page', st')
      /\ isAnalyzing page' = isAnalyzing page
      /\ analysisResults page' = analysisResults page
      /\ pageError page' = pageError page
      /\ match r with
         | inr results' =>
             map entryName results' = (map entryName results ++ rest)%list
             /\ completedPrompts page' = N.of_nat (i + List.length rest)
         | inl e =>
             (exists message, e = ThrownError message)
             /\ (completedPrompts page' < N.of_nat (i + List.length rest))%N
             /\ ((exists n message, loadPrompt W n = inl message)
                 \/ (exists turn typeError, config turn = ConfigIllShaped typeError))
         end.
Proof.
  induction rest as [|promptName rest IH]; intros i results page st Hdone Hless.
  - exists (inr results), page, st. cbn [promptLoop List.length].
    rewrite app_nil_r, Nat.add_0_r. repeat split. now apply Hdone.
  - assert (Hi : (completedPrompts page <= N.of_nat i)%N)
      by (apply Hless; discriminate).
    cbn [promptLoop].
    destruct (config i) as [o|typeError] eqn:Ecfg.
    + unfold callLoadPrompt.
      destruct (loadPrompt W (promptLoads st)) as [message|text] eqn:El.
      * eexists. eexists. eexists. split; [reflexivity|].
        cbn [setCurrentPrompt isAnalyzing analysisResults pageError completedPrompts
             List.length].
        split; [reflexivity|]. split; [reflexivity|]. split; [reflexivity|].
        split; [now exists message|]. split; [lia|].
        left. now exists (promptLoads st), message.
      * set (st1 := {| prompt := Some text; fetchCalls := fetchCalls st;
                       promptLoads := S (promptLoads st);
                       clockReads := clockReads st; sleeps := sleeps st |}).
        set (sd := selectedData
                     (selectDataForPrompt (loadPromptConfig o) promptName jsonData)).
        destruct (analyzeProfile_returns sd st1) as (result & st2 & Ha). rewrite Ha.
        set (page2 := setProgress (ProgressOf (N.of_nat i + 1) total)
                        (setCompletedPrompts (N.of_nat i + 1)
                           (setCurrentPrompt promptName page))).
        destruct (IH (S i) (results ++ [resultEntry promptName result sd])%list
                    page2 st2)
          as (r & page' & st' & Hrun & H1 & H2 & H3 & H4).
        -- intros _. cbn. lia.
        -- intros _. cbn. lia.
        -- exists r, page', st'. split; [exact Hrun|].
           split; [exact H1|]. split; [exact H2|]. split; [exact H3|].
           cbn [List.length]. rewrite Nat.add_succ_r. cbn [Nat.add] in H4.
           destruct r as [e|results']; [exact H4|].
           destruct H4 as [Hnames Hcount]. split; [|exact Hcount].
           rewrite Hnames, map_app. cbn [map]. rewrite entryName_resultEntry.
           now rewrite <- List.app_assoc.
    + eexists. eexists. eexists. split; [reflexivity|].
      cbn [setCurrentPrompt isAnalyzing analysisResults pageError completedPrompts
           List.length].
      split; [reflexivity|]. split; [reflexivity|]. split; [reflexivity|].
      split; [now exists typeError|]. split; [lia|].
      right. now exists i, typeError.
Qed.


(** X24. While the configuration has the expected shape whenever it
    loads and the loading of a prompt never fails, the page ends with no
    error and with one result for each prompt, also when requests
    fail. *)
Theorem runAllPrompts_answers_every_prompt (jsonData : JsObject)
    (names : list string) (page : PageState) (st : RunState) :
  (forall turn, exists o, config turn = ConfigLoaded o) ->
  (forall n, exists text, loadPrompt W n = inr text) ->
  jsonData <> [] -> names <> [] ->
  exists page' st',
    runAllPrompts W config this (Some jsonData) (Some names) page st
    = (inr tt, page', st')
    /\ pageError page' = None
    /\ map entryName (analysisResults page') = names
    /\ completedPrompts page' = N.of_nat (List.length names).
Proof.
  intros Hshape Hload Hdata Hnames. unfold runAllPrompts.
  destruct jsonData as [|file files]; [contradiction|].
  destruct names as [|promptName names]; [contradiction|].
  cbn [Object_keys map List.length N.of_nat N.eqb].
  set (page0 := setCompletedPrompts 0 _).
  destruct (promptLoop_outcome (file :: files)
              (N.pos (Pos.of_succ_nat (List.length names))) (promptName :: names)
              0 [] page0 st)
    as (r & page' & st' & Hrun & H1 & H2 & H3 & H4);
    [discriminate | intros _; cbn; lia |].
  rewrite Hrun. cbn [List.length Nat.add map app] in H4.
  destruct r as [e|results].
  - destruct H4 as (_ & _ & [(n & message & Hfail) | (turn & typeError & Hill)]).
    + destruct (Hload n) as [text Htext]. congruence.
    + destruct (Hshape turn) as [o Ho]. congruence.
  - destruct H4 as [Hentries Hcount].
    eexists. eexists. split; [reflexivity|].
    cbn [setCurrentPrompt setIsAnalyzing setAnalysisResults isAnalyzing currentPrompt
         pageError analysisResults completedPrompts].
    split; [exact H3|]. split; [exact Hentries|]. exact Hcount.
Qed.

End PageFacts.


Lemma runAllPrompts_answers_every_prompt_witness :
  exists page' st',
    runAllPrompts offline
      (fun _ => ConfigLoaded (ConfigFetchFailed "Failed to fetch"))
      new_ProfileAnalyzer (Some [("a.json", "{}")]) (Some ["first"; "second"])
      freshPage initialState
    = (inr tt, page', st')
    /\ pageError page' = None
    /\ map entryName (analysisResults page') = ["first"; "second"]
    /\ completedPrompts page' = N.of_nat (List.length ["first"; "second"]).
Proof.
  apply (runAllPrompts_answers_every_prompt offline
           (fun _ => ConfigLoaded (ConfigFetchFailed "Failed to fetch"))
           new_ProfileAnalyzer
           [("a.json", "{}")] ["first"; "second"] freshPage initialState).
  - intros turn. eexists. reflexivity.
  - intros n. eexists. reflexivity.
  - discriminate.
  - discriminate.
Defined.

(** The results of a completed prompt are lost when the loading of a
    later prompt fails: of two prompts the first is analysed and counted,
    the loading of the second throws, and the page shows the error and
    no result. *)
Example completed_results_lost :
  runAllPrompts promptLoadsOnce
    (fun _ => ConfigLoaded (ConfigFetchFailed "Failed to fetch"))
    new_ProfileAnalyzer (Some [("a.json", "{}")]) (Some ["first"; "second"])
    freshPage initialState
  = (inr tt,
     {| isAnalyzing := false; analysisResults := [];
        pageError := Some "Failed to load fallback prompt: Not Found";
        currentPrompt := ""; progress := ProgressOf 1 2; completedPrompts := 1 |},
     {| prompt := Some "Describe the person."; fetchCalls := 1; promptLoads := 2;
        clockReads := 2; sleeps := [] |}).
Proof. vm_compute. reflexivity. Qed.

(** An ill-shaped configuration ends the run, though every prompt loads
    and every request is answered: the page shows the error of the
    selector, and neither the prompt is loaded nor a request made. *)
Example ill_shaped_configuration_ends_run :
  runAllPrompts lastChunkFails
    (fun _ => ConfigIllShaped "promptConfig.prompts.find is not a function")
    new_ProfileAnalyzer (Some [("a.json", "{}")]) (Some ["first"; "second"])
    freshPage initialState
  = (inr tt,
     {| isAnalyzing := false; analysisResults := [];
        pageError := Some "promptConfig.prompts.find is not a function";
        currentPrompt := ""; progress := ProgressZero; completedPrompts := 0 |},
     initialState).
Proof. reflexivity. Qed.

(** ** The cloud function *)

(** X25. Every answer of the cloud function carries the header
    [Access-Control-Allow-Origin: *].  A request is forwarded exactly
    when the method is [POST] and the API key is set and not empty, with
    the key as bearer token and the body unchanged.  The status is 200
    exactly when a request was forwarded and the upstream answered with
    JSON data, and then that data is sent; otherwise the status is 204,
    405 or 500. *)
Theorem openRouterProxy_answers (method body : string) (apiKey : option string)
    (upstream : string -> string -> Upstream) :
  In ("Access-Control-Allow-Origin", "*")
     (headers (fst (openRouterProxy method body apiKey upstream)))
  /\ (forall forwarded,
        snd (openRouterProxy method body apiKey upstream) = Some forwarded
        <-> method = "POST"
            /\ exists key,
                 apiKey = Some key /\ key <> ""
                 /\ forwarded = ("Bearer " ++ key, body))
  /\ (forall data,
        (statusCode (fst (openRouterProxy method body apiKey upstream)) = 200%N
         /\ sent (fst (openRouterProxy method body apiKey upstream)) = JsonData data)
        <-> exists forwarded status,
              snd (openRouterProxy method body apiKey upstream) = Some forwarded
              /\ upstream (fst forwarded) (snd forwarded)
                 = UpstreamResponse status (inr data))
  /\ In (statusCode (fst (openRouterProxy method body apiKey upstream)))
        [200%N; 204%N; 405%N; 500%N].
Proof.
  unfold openRouterProxy.
  destruct (String.eqb_spec method "OPTIONS") as [->|Hopt].
  - cbn [fst snd headers statusCode sent]. split; [now left|]. split.
    + intros f. split; [discriminate|]. intros [H _]. discriminate H.
    + split; [|cbn; tauto]. intros data. split; [intros [H _]; discriminate H|].
      intros (f & st & H & _). discriminate H.
  - destruct (String.eqb_spec method "POST") as [->|Hpost]; cbn [negb].
    + destruct apiKey as [key|].
      * destruct key as [|c key]; cbn [truthy].
        -- cbn [fst snd headers statusCode sent]. split; [now left|]. split.
           ++ intros f. split; [discriminate|].
              intros [_ (k & [= <-] & Hk & _)]. contradiction.
           ++ split; [|cbn; tauto]. intros data.
              split; [intros [H _]; discriminate H|].
              intros (f & st & H & _). discriminate H.
        -- cbn [fst snd]. split.
           ++ destruct (upstream _ body) as [m|st [m|d]]; now left.
           ++ split.
              ** intros f. split.
                 --- intros [= <-]. split; [reflexivity|].
                     exists (String c key). now repeat split.
                 --- intros [_ (k & [= <-] & _ & ->)]. reflexivity.
              ** split.
                 --- intros data. split.
                     +++ intros [Hs Hd].
                         destruct (upstream _ body) as [m|st [m|d]] eqn:Eu;
                           cbn [statusCode sent] in Hs, Hd; try discriminate Hs.
                         injection Hd as ->.
                         exists ("Bearer " ++ String c key, body), st.
                         split; [reflexivity | exact Eu].
                     +++ intros (f & st & [= <-] & Hu).
                         cbn [fst snd append] in Hu. cbn [append].
                         rewrite Hu. now split.
                 --- destruct (upstream _ body) as [m|st [m|d]]; cbn; tauto.
      * cbn [fst snd headers statusCode sent]. split; [now left|]. split.
        -- intros f. split; [discriminate|].
           intros [_ (k & H & _)]. discriminate H.
        -- split; [|cbn; tauto]. intros data.
           split; [intros [H _]; discriminate H|].
           intros (f & st & H & _). discriminate H.
    + cbn [fst snd headers statusCode sent]. split; [now left|]. split.
      * intros f. split; [discriminate|]. intros [H _]. contradiction.
      * split; [|cbn; tauto]. intros data. split; [intros [H _]; discriminate H|].
        intros (f & st & H & _). discriminate H.
Qed.

(** X26. The cloud function does not relay the status of the upstream
    answer: its own answer is the same whatever that status is, so an
    upstream error that comes with a JSON body is answered with status
    200. *)
Theorem openRouterProxy_hides_upstream_status (method body : string)
    (apiKey : option string) (upstream : string -> string -> Upstream)
    (status : N) :
  openRouterProxy method body apiKey
    (fun authorization body => withStatus status (upstream authorization body))
  = openRouterProxy method body apiKey upstream.
Proof.
  unfold openRouterProxy.
  destruct (String.eqb method "OPTIONS"); [reflexivity|].
  destruct (negb (String.eqb method "POST")); [reflexivity|].
  destruct apiKey as [key|]; [|reflexivity].
  destruct (truthy key); [|reflexivity].
  now destruct (upstream ("Bearer " ++ key) body) as [m|st [m|d]].
Qed.

